(** * b4ck-client: the message codec, the rendezvous session, the local
      handoff, the relay and the worker pool, embedded from the Go sources

    Every goroutine of the client is embedded as a function in a small
    monad: it reads and updates a [World], which holds what the environment
    will answer (the outcome of each fallible system call, the bytes the
    server delivers, the random draws), and it gives the list of events it
    performed, in order.  A [go] statement is an event; the goroutine it
    starts is run by itself, in its own world. *)

From Stdlib Require Import ZArith NArith List String Ascii Bool Lia Arith.
From Stdlib.Strings Require Import Byte.
From Stdlib Require Import DecimalString.
Import ListNotations.

Local Open Scope string_scope.
Local Open Scope Z_scope.
Local Open Scope list_scope.

(** ** Go values *)

(** A Go [error]; [nil] is [None : option error]. *)
Inductive error : Type :=
| EOF
| ErrUnexpectedEOF
| ErrTimeout
| ErrSyntax (what : string)
| ErrNet (what : string).

(** [byte(n)] for an [int] n that is a length, and [int(b)]. *)
Definition byte_of_nat (n : nat) : byte :=
  match Byte.of_N (N.of_nat n mod 256) with
  | Some b => b
  | None => x00
  end.

Definition nat_of_byte (b : byte) : nat := N.to_nat (Byte.to_N b).

(** Go's [int] and [int64] are 64-bit two's complement. *)
Definition wrap64 (z : Z) : Z := (z + 2 ^ 63) mod 2 ^ 64 - 2 ^ 63.
Definition max_int64 : Z := 2 ^ 63 - 1.

(** ** The control message ([Msg], in src/proxy.go after the relay) *)

Record Msg : Type := mkMsg {
  Type_ : string;
  Text : string;
  Port : Z;
  Key : list byte;
  Fast : bool;
  Addr : string
}.

(** [var m Msg] *)
Definition zeroMsg : Msg := mkMsg "" "" 0 [] false "".

(** [var json = jsoniter.ConfigFastest]: a value of the interface
    [jsoniter.API], of which the client uses two methods.  [Unmarshal]
    fills the message it is given and returns it with the error. *)
Class API : Type := {
  Marshal : Msg -> list byte * option error;
  Unmarshal : list byte -> Msg -> Msg * option error
}.

(** ** Connections, tasks and events *)

(** The dynamic types a [net.Conn] of this program has: [net.Dial("tcp", _)]
    gives a [*net.TCPConn], [tls.Client] wraps one into a [*tls.Conn]. *)
Inductive ConnKind : Type := TCPConn | TLSConn.

Record Conn : Type := mkConn { sock : nat; kind : ConnKind }.

(** [time.Time{}] (no deadline) or [time.Now().Add(d)], d in nanoseconds. *)
Inductive Deadline : Type := NoDeadline | NowAdd (d : Z).

Definition Millisecond : Z := 1000000.
Definition Minute : Z := 60000000000.

Inductive Level : Type := UNSPECIFIED | ERROR | WARNING | INFO | DEBUG.

Inductive Arg : Type :=
| AStr (s : string)
| AInt (z : Z)
| AErr (e : error).

(** What a [go] statement starts. *)
Inductive Task : Type :=
| TaskWorker (i : Z)
| TaskRemote (fast : bool)
| TaskLocal (message : Msg) (rconn : Conn)
| TaskCopy (dst src : Conn)
| TaskConnID.

Inductive Event : Type :=
| EvDial (network address : string) (res : Conn + error)
| EvSetDeadline (c : Conn) (t : Deadline) (res : option error)
| EvHandshake (c : Conn) (res : option error)
| EvWrite (c : Conn) (data : list byte) (res : option error)
| EvClose (c : Conn)
| EvCloseWrite (c : Conn)
| EvSetLinger (c : Conn) (sec : Z)
| EvCopy (dst src : Conn) (n : Z) (res : option error)
| EvChanSend (err : option error)
| EvGo (t : Task)
| EvLog (lvl : Level) (format : string) (args : list Arg)
| EvSleep (d : Z).

(** ** The world of one goroutine *)

Record World : Type := mkWorld {
  (** outcome of each fallible call ([net.Dial], [SetDeadline],
      [Handshake], [Write]) in call order; past the end, calls succeed *)
  faults : list (option error);
  (** bytes the peer delivers on each socket, and the error a read gets
      once they are used up (end of stream, or the deadline) *)
  rx : nat -> list byte;
  rx_err : nat -> error;
  (** what [io.Copy(dst, src)] will return, by the sockets of dst and src *)
  io_copy : nat -> nat -> Z * option error;
  (** whether the goroutine started first is the first to finish *)
  race : bool;
  (** [state.Version] and [state.DidResume] after a handshake *)
  tls_version : Z;
  tls_resumed : bool;
  (** the source of [math/rand] *)
  draws : list Z;
  (** what has been sent on [p.err] and not yet received *)
  chan : list (option error);
  next_sock : nat;
  (** the next value of the [connID] channel *)
  next_id : Z
}.

Definition set_faults (x : list (option error)) (w : World) : World :=
  mkWorld x (rx w) (rx_err w) (io_copy w) (race w) (tls_version w)
          (tls_resumed w) (draws w) (chan w) (next_sock w) (next_id w).
Definition set_rx (x : nat -> list byte) (w : World) : World :=
  mkWorld (faults w) x (rx_err w) (io_copy w) (race w) (tls_version w)
          (tls_resumed w) (draws w) (chan w) (next_sock w) (next_id w).
Definition set_draws (x : list Z) (w : World) : World :=
  mkWorld (faults w) (rx w) (rx_err w) (io_copy w) (race w) (tls_version w)
          (tls_resumed w) x (chan w) (next_sock w) (next_id w).
Definition set_chan (x : list (option error)) (w : World) : World :=
  mkWorld (faults w) (rx w) (rx_err w) (io_copy w) (race w) (tls_version w)
          (tls_resumed w) (draws w) x (next_sock w) (next_id w).
Definition set_next_sock (x : nat) (w : World) : World :=
  mkWorld (faults w) (rx w) (rx_err w) (io_copy w) (race w) (tls_version w)
          (tls_resumed w) (draws w) (chan w) x (next_id w).
Definition set_next_id (x : Z) (w : World) : World :=
  mkWorld (faults w) (rx w) (rx_err w) (io_copy w) (race w) (tls_version w)
          (tls_resumed w) (draws w) (chan w) (next_sock w) x.

(** How a goroutine stands: it returned a value, the process exited
    ([os.Exit]), it panicked, or it is still running (blocked, or in a loop
    that has not ended within the steps given). *)
Inductive Outcome (A : Type) : Type :=
| Done (a : A)
| Exited (code : Z)
| Panicked
| Running.
Arguments Done {A} a.
Arguments Exited {A} code.
Arguments Panicked {A}.
Arguments Running {A}.

Definition M (A : Type) : Type := World -> Outcome A * World * list Event.

Definition outcome {A} (r : Outcome A * World * list Event) : Outcome A :=
  fst (fst r).
Definition after {A} (r : Outcome A * World * list Event) : World :=
  snd (fst r).
Definition events {A} (r : Outcome A * World * list Event) : list Event :=
  snd r.

Definition ret {A} (a : A) : M A := fun w => (Done a, w, []).

Definition bind {A B} (c : M A) (k : A -> M B) : M B :=
  fun w =>
    match c w with
    | (Done a, w1, evs) =>
        let '(o, w2, evs') := k a w1 in (o, w2, evs ++ evs')
    | (Exited code, w1, evs) => (Exited code, w1, evs)
    | (Panicked, w1, evs) => (Panicked, w1, evs)
    | (Running, w1, evs) => (Running, w1, evs)
    end.

Notation "x <- c ;; k" := (bind c (fun x => k))
  (at level 61, c at next level, right associativity).
Notation "' pat <- c ;; k" := (bind c (fun x => match x with pat => k end))
  (at level 61, pat pattern, c at next level, right associativity).
Notation "c ;; k" := (bind c (fun _ => k))
  (at level 61, right associativity).

(** *** Primitives: the calls into the Go runtime and libraries *)

Definition emit (e : Event) : M unit := fun w => (Done tt, w, [e]).

(** The outcome of the next fallible call. *)
Definition fault : M (option error) :=
  fun w => (Done (hd None (faults w)), set_faults (tl (faults w)) w, []).

(** [os.Exit(code)]: nothing after it runs, deferred calls included. *)
Definition Exit {A} (code : Z) : M A := fun w => (Exited code, w, []).

Definition running {A} : M A := fun w => (Running, w, []).

Definition panic {A} : M A := fun w => (Panicked, w, []).

(** [net.Dial(network, address)] *)
Definition Dial (network address : string) : M (Conn + error) :=
  r <- fault ;;
  match r with
  | Some err => emit (EvDial network address (inr err)) ;; ret (inr err)
  | None =>
      fun w =>
        let conn := mkConn (next_sock w) TCPConn in
        (Done (inl conn), set_next_sock (S (next_sock w)) w,
         [EvDial network address (inl conn)])
  end.

Definition SetDeadline (c : Conn) (t : Deadline) : M (option error) :=
  r <- fault ;; emit (EvSetDeadline c t r) ;; ret r.

(** [tls.Client(conn, config)] *)
Definition tls_Client (c : Conn) : Conn := mkConn (sock c) TLSConn.

Definition Handshake (c : Conn) : M (option error) :=
  r <- fault ;; emit (EvHandshake c r) ;; ret r.

Definition ConnectionState (c : Conn) : M (Z * bool) :=
  fun w => (Done (tls_version w, tls_resumed w), w, []).

(** [w.Write(data)]; on an error, what part of the data went out is not
    said. *)
Definition Write (c : Conn) (data : list byte) : M (option error) :=
  r <- fault ;; emit (EvWrite c data r) ;; ret r.

Definition set_stream (s : nat) (bs : list byte) (w : World) : World :=
  set_rx (fun s' => if Nat.eqb s' s then bs else rx w s') w.

(** [io.ReadAtLeast(r, buf, min)] with [len(buf) = min], as both calls of
    [RcvMsg] have it: the next [min] bytes, or what is left and the error
    ([io.ErrUnexpectedEOF] when the stream ends inside the buffer). *)
Definition ReadAtLeast (r : Conn) (min : nat) : M (list byte * option error) :=
  fun w =>
    let pending := rx w (sock r) in
    if Nat.leb min (List.length pending) then
      (Done (firstn min pending, None),
       set_stream (sock r) (skipn min pending) w, [])
    else
      let err := match pending, rx_err w (sock r) with
                 | _ :: _, EOF => ErrUnexpectedEOF
                 | _, e => e
                 end in
      (Done (pending, Some err), set_stream (sock r) [] w, []).

Definition Close (c : Conn) : M unit := emit (EvClose c).
Definition CloseWrite (c : Conn) : M unit := emit (EvCloseWrite c).
Definition SetLinger (c : Conn) (sec : Z) : M unit := emit (EvSetLinger c sec).
Definition Go (t : Task) : M unit := emit (EvGo t).
Definition Sleep (d : Z) : M unit := emit (EvSleep d).

Definition Errorf (format : string) (args : list Arg) : M unit :=
  emit (EvLog ERROR format args).
Definition Warningf (format : string) (args : list Arg) : M unit :=
  emit (EvLog WARNING format args).
Definition Infof (format : string) (args : list Arg) : M unit :=
  emit (EvLog INFO format args).
Definition Debugf (format : string) (args : list Arg) : M unit :=
  emit (EvLog DEBUG format args).

(** [rand.Intn(n)]: panics if [n <= 0], else a number of [0, n); the
    environment's draw is reduced into the interval. *)
Definition Intn (n : Z) : M Z :=
  if n <=? 0 then panic
  else fun w => (Done (hd 0 (draws w) mod n), set_draws (tl (draws w)) w, []).

(** [<-c.connID]: the allocator goroutine sends 0, 1, 2, ... (a uint64). *)
Definition recv_connID : M Z :=
  fun w => (Done (next_id w), set_next_id ((next_id w + 1) mod 2 ^ 64) w, []).

(** [p.err <- err] and [<-p.err] *)
Definition chan_send (err : option error) : M unit :=
  fun w => (Done tt, set_chan (chan w ++ [err]) w, [EvChanSend err]).

Definition chan_recv : M (option error) :=
  fun w =>
    match chan w with
    | [] => (Running, w, [])
    | e :: rest => (Done e, set_chan rest w, [])
    end.

(** [io.Copy(dst, src)] *)
Definition io_Copy (dst src : Conn) : M (Z * option error) :=
  fun w =>
    let '(n, err) := io_copy w (sock dst) (sock src) in
    (Done (n, err), w, [EvCopy dst src n err]).

Section Client.

Context {json : API}.

(** ** The codec: [RcvMsg] and [SndMsg] *)

Definition RcvMsg (r : Conn) : M (Msg * option error) :=
  let m := zeroMsg in
  '(length, err) <- ReadAtLeast r 1 ;;
  match err with
  | Some e => ret (m, Some e)
  | None =>
      let n := nat_of_byte (hd x00 length) in
      '(serialized, err) <- ReadAtLeast r n ;;
      match err with
      | Some e => ret (m, Some e)
      | None => ret (Unmarshal serialized m)
      end
  end.

Definition SndMsg (w : Conn) (m : Msg) : M (option error) :=
  let '(serialized, err) := Marshal m in
  match err with
  | Some e => ret (Some e)
  | None =>
      let length := [byte_of_nat (List.length serialized)] in
      Write w (length ++ serialized)
  end.

(** ** The relay: [Proxy], [Transfer] and [copy] *)

(** The counters of a [Proxy]; its channel [err] is [chan] of the world. *)
Record Proxy : Type := mkProxy { rcvd : Z; sent : Z }.

Definition GetProxy : Proxy := mkProxy 0 0.

(** [&p.sent] and [&p.rcvd] *)
Inductive Counter : Type := Sent | Rcvd.

(** [*bytes += n] *)
Definition add_bytes (p : Proxy) (bytes : Counter) (n : Z) : Proxy :=
  match bytes with
  | Sent => mkProxy (rcvd p) (wrap64 (sent p + n))
  | Rcvd => mkProxy (wrap64 (rcvd p + n)) (sent p)
  end.

Definition copy (p : Proxy) (dst src : Conn) (bytes : Counter) : M Proxy :=
  '(n, err) <- io_Copy dst src ;;
  let p := add_bytes p bytes n in
  match err with
  | None =>
      match kind dst with
      | TCPConn => CloseWrite dst (* Send TCP FIN *)
      | TLSConn => CloseWrite dst (* Send close_notify *)
      end
  | Some _ =>
      match kind dst with
      | TCPConn => SetLinger dst 0 (* Reset the dst socket *)
      | TLSConn => ret tt
      end ;;
      match kind src with
      | TCPConn => SetLinger src 0 (* Reset the src socket *)
      | TLSConn => ret tt
      end
  end ;;
  chan_send err ;;
  ret p.

Definition warn_SetDeadline (err : option error) : M unit :=
  match err with
  | Some e => Warningf "SetDeadline failed: %s" [AErr e]
  | None => ret tt
  end.

(** The two copies run concurrently and share nothing but the channel;
    [race] of the world says which of them is the first to finish, and
    each is run up to its send when [Transfer] waits for it. *)
Definition Transfer (p : Proxy) (lconn rconn : Conn) : M Z :=
  (* Disable the deadline with a zero value *)
  let deadline := NoDeadline in
  err <- SetDeadline rconn deadline ;;
  warn_SetDeadline err ;;
  err <- SetDeadline lconn deadline ;;
  warn_SetDeadline err ;;
  Debugf "Forwarding data" [] ;;
  Go (TaskCopy rconn lconn) ;;
  Go (TaskCopy lconn rconn) ;;
  first <- (fun w => (Done (race w), w, [])) ;;
  (* Wait for the 1st copying direction *)
  p <- (if first : bool then copy p rconn lconn Sent else copy p lconn rconn Rcvd) ;;
  err <- chan_recv ;;
  match err with
  | None => Debugf "1st copying direction success" []
  | Some e => Warningf "1st copying direction failed: %s" [AErr e]
  end ;;
  (* Set a deadline for the 2nd copying direction *)
  let deadline := NowAdd Minute in
  err <- SetDeadline rconn deadline ;;
  warn_SetDeadline err ;;
  err <- SetDeadline lconn deadline ;;
  warn_SetDeadline err ;;
  (* Wait for the 2nd copying direction *)
  p <- (if first : bool then copy p lconn rconn Rcvd else copy p rconn lconn Sent) ;;
  err <- chan_recv ;;
  match err with
  | None => Debugf "2nd copying direction success" []
  | Some e => Warningf "2nd copying direction failed: %s" [AErr e]
  end ;;
  Infof "Closed: %d bytes sent, %d bytes recieved" [AInt (sent p); AInt (rcvd p)] ;;
  ret (wrap64 (sent p + rcvd p)).

(** ** The context, the session, the handoff and the workers
       ([Context] and its methods [local], [remote] and [worker]) *)

Record TlsConfig : Type := mkTlsConfig {
  ServerName : string;
  MinVersion : Z;
  ClientSessionCache : Z
}.

Definition VersionTLS13 : Z := 772.

Record Context : Type := mkContext {
  raddr : string;
  laddr : string;
  port : Z;
  key : list byte;
  tlsConfig : option TlsConfig
}.

(** [local]: the body up to its returns, then the deferred closes, last
    deferred first. *)
Definition local_relay (rconn lconn : Conn) : M unit :=
  err <- SetDeadline lconn (NowAdd Minute) ;;
  match err with
  | Some e => Warningf "SetDeadline failed: %s" [AErr e]
  | None =>
      (* Send SUCCESS *)
      err <- SndMsg rconn (mkMsg "success" "" 0 [] false "") ;;
      match err with
      | Some e => Warningf "Failed to send SUCCESS: %s" [AErr e]
      | None =>
          (* Forward the data *)
          let p := GetProxy in
          _ <- Transfer p rconn lconn ;;
          ret tt
      end
  end.

Definition local_body (c : Context) (message : Msg) (rconn : Conn) : M unit :=
  (* Spawn an additional goroutines, ignore the result *)
  (if Fast message
   then Go (TaskRemote true) ;; Go (TaskRemote true)
   else ret tt) ;;
  (* Use a dynamically generated connection id for further logs *)
  _ <- recv_connID ;;
  (if Fast message
   then Infof "Fast connection received from %s" [AStr (Addr message)]
   else Infof "Slow connection received from %s" [AStr (Addr message)]) ;;
  (* Dial lconn *)
  Infof "Connecting local service" [] ;;
  r <- Dial "tcp" (laddr c) ;;
  match r with
  | inr err => Warningf "Local connection failed: %s" [AErr err]
  | inl lconn =>
      local_relay rconn lconn ;;
      Close lconn (* defer lconn.Close() *)
  end.

Definition local (c : Context) (message : Msg) (rconn : Conn) : M unit :=
  local_body c message rconn ;;
  Close rconn (* defer rconn.Close() *).

(** The loop of [remote], [for { ... }]: one turn per message received;
    gives the delay and [ropen]. *)
Fixpoint serve (fuel : nat) (fast : bool) (rconn : Conn) : M (Z * bool) :=
  match fuel with
  | O => running
  | S fuel' =>
      '(message, err) <- RcvMsg rconn ;;
      match err with
      | Some e =>
          Warningf "Failed to receive message: %s" [AErr e] ;;
          ret (9, true)
      | None =>
          if (Type_ message =? "start")%string then
            (* ropen = false: rconn will be closed by local() *)
            Go (TaskLocal message rconn) ;;
            (if fast (* Keep a steady pool of fast connections *)
             then Go (TaskRemote true)
             else ret tt) ;;
            ret (0, false)
          else if (Type_ message =? "keepalive")%string then
            Debugf "Received KEEPALIVE" [] ;;
            if fast then
              err <- SndMsg rconn (mkMsg "info" "TIMEOUT" 0 [] false "") ;;
              match err with
              | Some e => Warningf "Failed to send TIMEOUT: %s" [AErr e]
              | None => ret tt
              end ;;
              ret (0, true)
            else
              err <- SndMsg rconn (mkMsg "keepalive" "" 0 [] false "") ;;
              match err with
              | Some e =>
                  Warningf "Failed to send KEEPALIVE: %s" [AErr e] ;;
                  ret (9, true)
              | None =>
                  err <- SetDeadline rconn (NowAdd Minute) ;;
                  match err with
                  | Some e =>
                      Warningf "SetDeadline failed: %s" [AErr e] ;;
                      ret (9, true)
                  | None => serve fuel' fast rconn
                  end
              end
          else if (Type_ message =? "debug")%string then
            Debugf "%s" [AStr (Text message)] ;;
            ret (0, true)
          else if (Type_ message =? "info")%string then
            Infof "%s" [AStr (Text message)] ;;
            ret (0, true)
          else if (Type_ message =? "warning")%string then
            Warningf "%s" [AStr (Text message)] ;;
            ret (0, true)
          else if (Type_ message =? "error")%string then
            Errorf "%s" [AStr (Text message)] ;;
            Exit 1
          else
            Warningf "Ignored message: %s: %s"
                     [AStr (Type_ message); AStr (Text message)] ;;
            serve fuel' fast rconn
      end
  end.

(** [remote] from the deadline on: gives the delay, the connection that
    [rconn] names at the return, and [ropen]. *)
Definition session (fuel : nat) (c : Context) (fast : bool) (rconn : Conn)
  : M (Z * Conn * bool) :=
  err <- SetDeadline rconn (NowAdd Minute) ;;
  match err with
  | Some e =>
      Warningf "SetDeadline failed: %s" [AErr e] ;;
      ret (99, rconn, true)
  | None =>
      (* Negotiate TLS *)
      '(err, rconn) <-
        match tlsConfig c with
        | None =>
            Debugf "New TCP connection" [] ;;
            ret (None, rconn)
        | Some config =>
            let conn := tls_Client rconn in
            err <- Handshake conn ;;
            match err with
            | Some e =>
                Warningf "TLS handshake failed: %s" [AErr e] ;;
                ret (Some e, rconn)
            | None =>
                '(v, didResume) <- ConnectionState conn ;;
                let version := [AInt (Z.shiftr v 8 - 2); AInt (Z.land v 255 - 1)] in
                (if didResume : bool
                 then Debugf "New TLSv%d.%d connection (resumed session)" version
                 else Infof "New TLSv%d.%d connection (new session)" version) ;;
                ret (None, conn)
            end
        end ;;
      match err with
      | Some _ => ret (9, rconn, true)
      | None =>
          (* Send an authentication request *)
          err <- SndMsg rconn (mkMsg "listen" "" (port c) (key c) false "") ;;
          match err with
          | Some e =>
              Warningf "Failed to send port number: %s" [AErr e] ;;
              ret (9, rconn, true)
          | None =>
              (* Process server messages *)
              '(delay, ropen) <- serve fuel fast rconn ;;
              ret (delay, rconn, ropen)
          end
      end
  end.

(** returns delay in seconds minus 1 *)
Definition remote (fuel : nat) (c : Context) (fast : bool) : M Z :=
  (* Dial rconn *)
  r <- Dial "tcp" (raddr c) ;;
  match r with
  | inr err =>
      Warningf "Remote connection failed: %s" [AErr err] ;;
      ret 9
  | inl rconn =>
      '(delay, rconn, ropen) <- session fuel c fast rconn ;;
      (* defer func() { if ropen { rconn.Close() } }() *)
      (if ropen : bool then Close rconn else ret tt) ;;
      ret delay
  end.

(** One turn of the loop of [worker], and the loop. *)
Definition worker_turn (fuel : nat) (c : Context) : M unit :=
  delay <- remote fuel c false ;;
  if delay =? 0 then ret tt
  else
    r <- Intn (wrap64 (delay * 1000)) ;;
    let ms := wrap64 (1000 + r) in
    Sleep (wrap64 (ms * Millisecond)).

Fixpoint worker (turns fuel : nat) (c : Context) : M unit :=
  match turns with
  | O => running
  | S turns' => worker_turn fuel c ;; worker turns' fuel c
  end.

End Client.

(** ** Startup: [GetContext] and [main] *)

(** [strings.Split(s, sep)] for a one-byte separator, [strings.Join]. *)
Fixpoint Split (s : string) (sep : ascii) : list string :=
  match s with
  | EmptyString => [EmptyString]
  | String ch s' =>
      if Ascii.eqb ch sep then EmptyString :: Split s' sep
      else match Split s' sep with
           | [] => [String ch EmptyString]
           | h :: t => String ch h :: t
           end
  end.

Definition Join (elems : list string) (sep : string) : string :=
  String.concat sep elems.

(** The command line after [flag.Parse]: a flag that was not given is
    [None] and has its default value. *)
Record Flags : Type := mkFlags {
  flag_r : option string;
  flag_l : option string;
  flag_k : option string;
  flag_d : option string;
  flag_t : option bool
}.

Definition value {A} (default : A) (flag : option A) : A :=
  match flag with Some v => v | None => default end.

Definition seen {A} (flag : option A) : bool :=
  match flag with Some _ => true | None => false end.

(** [rand.Int31n(n)], for the positive [n] it is called with. *)
Definition Int31n (n : Z) : M Z := Intn n.

Section Startup.

Context {json : API}.

(** [net.LookupPort] and [base64.RawStdEncoding.DecodeString] *)
Variable LookupPort : string -> string -> Z * option error.
Variable DecodeString : string -> list byte * option error.

Definition GetContext (f : Flags) : M Context :=
  let confRaddr := value "" (flag_r f) in
  let confLaddr := value ":80" (flag_l f) in
  let confKey := value "" (flag_k f) in
  let confNoTLS := value false (flag_t f) in
  (* Initialize logging: the level, from -d, changes no step below *)
  (* Check for mandatory flags *)
  (if seen (flag_r f) then ret tt
   else Errorf "Missing mandatory -%s parameter" [AStr "r"] ;; Exit 2) ;;
  (if seen (flag_k f) then ret tt
   else Errorf "Missing mandatory -%s parameter" [AStr "k"] ;; Exit 2) ;;
  (* Split *confRaddr into raddr and port *)
  let t := Split confRaddr ":" in
  let raddr := (Join (removelast t) ":" ++ ":1")%string in
  let '(port, err) := LookupPort "tcp" (last t "") in
  match err with
  | Some e => Errorf "Port lookup failed: %s" [AErr e] ;; Exit 1
  | None =>
      (* Decode the authentication key *)
      let '(key, err) := DecodeString confKey in
      match err with
      | Some e => Errorf "Invalid key: %s" [AErr e] ;; Exit 1
      | None =>
          if negb (Nat.eqb (List.length key) 6) then
            Errorf "Invalid decoded key length: %d"
                   [AInt (Z.of_nat (List.length key))] ;;
            Exit 1
          else
            Go TaskConnID ;;
            (* Setup TLS configuration *)
            let c := mkContext raddr confLaddr port key
                       (if negb confNoTLS
                        then Some (mkTlsConfig "free.b4ck.net" VersionTLS13 32)
                        else None) in
            Infof "Proxying %s->%s" [AStr confRaddr; AStr confLaddr] ;;
            ret c
      end
  end.

(** [for i := 2; i > 0; i-- { go c.worker(...); time.Sleep(...) }] *)
Fixpoint spawn_workers (i : nat) (c : Context) : M unit :=
  match i with
  | O => ret tt
  | S i' =>
      Go (TaskWorker (Z.of_nat i)) ;;
      r <- Int31n 200 ;;
      Sleep (wrap64 (wrap64 (900 + r) * Millisecond)) ;;
      spawn_workers i' c
  end.

Definition main (turns fuel : nat) (f : Flags) : M unit :=
  (* Initialize configuration *)
  c <- GetContext f ;;
  (* Spawn a pool of workers *)
  spawn_workers 2 c ;;
  worker turns fuel c.

End Startup.

(** ** Reference libraries

    An instance of each library interface the client is written against,
    in the wire format of the protocol: JSON objects with the fields of
    [Msg] in order, the empty ones left out, [Key] in padded base64; and
    the unpadded base64 of the key on the command line.  They serve to run
    the client on concrete frames. *)
Module Reference.

Definition lit (s : string) : list byte := list_byte_of_string s.

Definition byte_of_N (n : N) : byte :=
  match Byte.of_N (n mod 256) with
  | Some b => b
  | None => x00
  end.

Definition syntax_error : option error := Some (ErrSyntax "invalid input").

(** *** base64, standard alphabet *)

Definition b64_index (b : byte) : option N :=
  let n := Byte.to_N b in
  if ((65 <=? n) && (n <=? 90))%N then Some (n - 65)%N
  else if ((97 <=? n) && (n <=? 122))%N then Some (n - 71)%N
  else if ((48 <=? n) && (n <=? 57))%N then Some (n + 4)%N
  else if (n =? 43)%N then Some 62%N
  else if (n =? 47)%N then Some 63%N
  else None.

Definition b64_char (n : N) : byte :=
  if (n <? 26)%N then byte_of_N (n + 65)
  else if (n <? 52)%N then byte_of_N (n + 71)
  else if (n <? 62)%N then byte_of_N (n - 4)
  else if (n =? 62)%N then x2b
  else x2f.

Fixpoint sextets (bs : list byte) : option (list N) :=
  match bs with
  | [] => Some []
  | b :: rest =>
      match b64_index b, sextets rest with
      | Some n, Some ns => Some (n :: ns)
      | _, _ => None
      end
  end.

Fixpoint b64_decode (cs : list N) : list byte * option error :=
  match cs with
  | a :: b :: c :: d :: rest =>
      let n := (a * 262144 + b * 4096 + c * 64 + d)%N in
      let '(bs, err) := b64_decode rest in
      (byte_of_N (n / 65536) :: byte_of_N (n / 256) :: byte_of_N n :: bs, err)
  | [a; b; c] =>
      let n := (a * 4096 + b * 64 + c)%N in
      ([byte_of_N (n / 1024); byte_of_N (n / 4)], None)
  | [a; b] => ([byte_of_N ((a * 64 + b) / 16)], None)
  | [a] => ([], syntax_error)
  | [] => ([], None)
  end.

Definition decode_raw (bs : list byte) : list byte * option error :=
  match sextets bs with
  | Some cs => b64_decode cs
  | None => ([], syntax_error)
  end.

(** [base64.RawStdEncoding.DecodeString] *)
Definition DecodeString (s : string) : list byte * option error :=
  decode_raw (lit s).

Fixpoint b64_encode (bs : list byte) : list byte :=
  match bs with
  | a :: b :: c :: rest =>
      let n := (Byte.to_N a * 65536 + Byte.to_N b * 256 + Byte.to_N c)%N in
      b64_char (n / 262144) :: b64_char ((n / 4096) mod 64)
        :: b64_char ((n / 64) mod 64) :: b64_char (n mod 64) :: b64_encode rest
  | [a; b] =>
      let n := (Byte.to_N a * 1024 + Byte.to_N b * 4)%N in
      [b64_char (n / 4096); b64_char ((n / 64) mod 64); b64_char (n mod 64); x3d]
  | [a] =>
      let n := (Byte.to_N a * 16)%N in
      [b64_char (n / 64); b64_char (n mod 64); x3d; x3d]
  | [] => []
  end.

Fixpoint strip_padding (bs : list byte) : list byte :=
  match bs with
  | [] => []
  | b :: rest => if Byte.eqb b x3d then [] else b :: strip_padding rest
  end.

(** *** JSON *)

Definition hex_digit (n : N) : byte :=
  if (n <? 10)%N then byte_of_N (n + 48) else byte_of_N (n + 87).

Definition escape_byte (b : byte) : list byte :=
  let n := Byte.to_N b in
  if (n =? 34)%N then [x5c; x22]
  else if (n =? 92)%N then [x5c; x5c]
  else if (n =? 10)%N then [x5c; x6e]
  else if (n =? 13)%N then [x5c; x72]
  else if (n =? 9)%N then [x5c; x74]
  else if (n <? 32)%N
       then [x5c; x75; x30; x30; hex_digit (n / 16); hex_digit (n mod 16)]
  else [b].

Definition json_string (s : list byte) : list byte :=
  [x22] ++ flat_map escape_byte s ++ [x22].

Definition json_int (z : Z) : list byte :=
  lit (NilZero.string_of_int (Z.to_int z)).

Definition field (name : string) (v : list byte) : list byte :=
  [x22] ++ lit name ++ [x22; x3a] ++ v.

Definition marshal (m : Msg) : list byte :=
  [x7b] ++ field "Type" (json_string (lit (Type_ m)))
    ++ (if (Text m =? "")%string then []
        else [x2c] ++ field "Text" (json_string (lit (Text m))))
    ++ (if Port m =? 0 then []
        else [x2c] ++ field "Port" (json_int (Port m)))
    ++ (match Key m with
        | [] => []
        | _ => [x2c] ++ field "Key" (json_string (b64_encode (Key m)))
        end)
    ++ (if Fast m then [x2c] ++ field "Fast" (lit "true") else [])
    ++ (if (Addr m =? "")%string then []
        else [x2c] ++ field "Addr" (json_string (lit (Addr m))))
    ++ [x7d].

Inductive JValue : Type :=
| JString (s : list byte)
| JNumber (z : Z)
| JBool (b : bool)
| JNull.

Definition is_ws (b : byte) : bool :=
  Byte.eqb b x20 || Byte.eqb b x09 || Byte.eqb b x0a || Byte.eqb b x0d.

Fixpoint skip_ws (bs : list byte) : list byte :=
  match bs with
  | b :: rest => if is_ws b then skip_ws rest else bs
  | [] => []
  end.

Fixpoint strip_prefix (p bs : list byte) : option (list byte) :=
  match p, bs with
  | [], _ => Some bs
  | x :: p', b :: bs' => if Byte.eqb x b then strip_prefix p' bs' else None
  | _ :: _, [] => None
  end.

Definition hex_value (b : byte) : option N :=
  let n := Byte.to_N b in
  if ((48 <=? n) && (n <=? 57))%N then Some (n - 48)%N
  else if ((97 <=? n) && (n <=? 102))%N then Some (n - 87)%N
  else if ((65 <=? n) && (n <=? 70))%N then Some (n - 55)%N
  else None.

Definition unescape (e : byte) : option byte :=
  if Byte.eqb e x22 then Some x22
  else if Byte.eqb e x5c then Some x5c
  else if Byte.eqb e x2f then Some x2f
  else if Byte.eqb e x6e then Some x0a
  else if Byte.eqb e x72 then Some x0d
  else if Byte.eqb e x74 then Some x09
  else if Byte.eqb e x62 then Some x08
  else if Byte.eqb e x66 then Some x0c
  else None.

(** The characters of a string after its opening quote, up to the closing
    one; [\u] escapes below 128 only. *)
Fixpoint parse_chars (bs acc : list byte) : option (list byte * list byte) :=
  match bs with
  | [] => None
  | b :: rest =>
      if Byte.eqb b x22 then Some (rev acc, rest)
      else if Byte.eqb b x5c then
        match rest with
        | [] => None
        | e :: rest' =>
            if Byte.eqb e x75 then
              match rest' with
              | h1 :: h2 :: h3 :: h4 :: rest'' =>
                  match hex_value h1, hex_value h2, hex_value h3, hex_value h4 with
                  | Some a, Some b, Some c, Some d =>
                      let n := (a * 4096 + b * 256 + c * 16 + d)%N in
                      if (n <? 128)%N then parse_chars rest'' (byte_of_N n :: acc)
                      else None
                  | _, _, _, _ => None
                  end
              | _ => None
              end
            else
              match unescape e with
              | Some ch => parse_chars rest' (ch :: acc)
              | None => None
              end
        end
      else parse_chars rest (b :: acc)
  end.

Definition digit_value (b : byte) : option Z :=
  let n := Byte.to_N b in
  if ((48 <=? n) && (n <=? 57))%N then Some (Z.of_N n - 48) else None.

Fixpoint parse_digits (bs : list byte) (acc : Z) : Z * list byte :=
  match bs with
  | b :: rest =>
      match digit_value b with
      | Some d => parse_digits rest (10 * acc + d)
      | None => (acc, bs)
      end
  | [] => (acc, [])
  end.

Definition parse_number (bs : list byte) : option (Z * list byte) :=
  match bs with
  | b :: rest =>
      match digit_value b with
      | Some d => Some (parse_digits rest d)
      | None => None
      end
  | [] => None
  end.

Definition parse_value (bs : list byte) : option (JValue * list byte) :=
  match bs with
  | [] => None
  | b :: rest =>
      if Byte.eqb b x22 then
        match parse_chars rest [] with
        | Some (s, rest') => Some (JString s, rest')
        | None => None
        end
      else if Byte.eqb b x2d then
        match parse_number rest with
        | Some (z, rest') => Some (JNumber (- z), rest')
        | None => None
        end
      else
        match strip_prefix (lit "true") bs, strip_prefix (lit "false") bs,
              strip_prefix (lit "null") bs with
        | Some rest', _, _ => Some (JBool true, rest')
        | _, Some rest', _ => Some (JBool false, rest')
        | _, _, Some rest' => Some (JNull, rest')
        | None, None, None =>
            match parse_number bs with
            | Some (z, rest') => Some (JNumber z, rest')
            | None => None
            end
        end
  end.

Definition str (s : list byte) : string := string_of_list_byte s.

Definition set_field (name : list byte) (v : JValue) (m : Msg) : option Msg :=
  let n := str name in
  if (n =? "Type")%string then
    match v with
    | JString s => Some (mkMsg (str s) (Text m) (Port m) (Key m) (Fast m) (Addr m))
    | JNull => Some m
    | _ => None
    end
  else if (n =? "Text")%string then
    match v with
    | JString s => Some (mkMsg (Type_ m) (str s) (Port m) (Key m) (Fast m) (Addr m))
    | JNull => Some m
    | _ => None
    end
  else if (n =? "Port")%string then
    match v with
    | JNumber z => Some (mkMsg (Type_ m) (Text m) z (Key m) (Fast m) (Addr m))
    | JNull => Some m
    | _ => None
    end
  else if (n =? "Key")%string then
    match v with
    | JString s =>
        match decode_raw (strip_padding s) with
        | (k, None) => Some (mkMsg (Type_ m) (Text m) (Port m) k (Fast m) (Addr m))
        | (_, Some _) => None
        end
    | JNull => Some m
    | _ => None
    end
  else if (n =? "Fast")%string then
    match v with
    | JBool b => Some (mkMsg (Type_ m) (Text m) (Port m) (Key m) b (Addr m))
    | JNull => Some m
    | _ => None
    end
  else if (n =? "Addr")%string then
    match v with
    | JString s => Some (mkMsg (Type_ m) (Text m) (Port m) (Key m) (Fast m) (str s))
    | JNull => Some m
    | _ => None
    end
  else Some m.

(** The members of an object, from the first name to the closing brace. *)
Fixpoint members (fuel : nat) (bs : list byte) (m : Msg) : Msg * option error :=
  match fuel with
  | O => (m, syntax_error)
  | S fuel' =>
      match skip_ws bs with
      | q :: rest =>
          if Byte.eqb q x22 then
            match parse_chars rest [] with
            | Some (name, rest1) =>
                match skip_ws rest1 with
                | colon :: rest2 =>
                    if Byte.eqb colon x3a then
                      match parse_value (skip_ws rest2) with
                      | Some (v, rest3) =>
                          match set_field name v m with
                          | Some m' =>
                              match skip_ws rest3 with
                              | sep :: rest4 =>
                                  if Byte.eqb sep x2c then members fuel' rest4 m'
                                  else if Byte.eqb sep x7d then
                                    match skip_ws rest4 with
                                    | [] => (m', None)
                                    | _ :: _ => (m', syntax_error)
                                    end
                                  else (m', syntax_error)
                              | [] => (m', syntax_error)
                              end
                          | None => (m, syntax_error)
                          end
                      | None => (m, syntax_error)
                      end
                    else (m, syntax_error)
                | [] => (m, syntax_error)
                end
            | None => (m, syntax_error)
            end
          else (m, syntax_error)
      | [] => (m, syntax_error)
      end
  end.

Definition unmarshal (bs : list byte) (m : Msg) : Msg * option error :=
  match skip_ws bs with
  | open :: rest =>
      if Byte.eqb open x7b then
        match skip_ws rest with
        | close :: rest' =>
            if Byte.eqb close x7d then
              match skip_ws rest' with
              | [] => (m, None)
              | _ :: _ => (m, syntax_error)
              end
            else members (List.length rest) rest m
        | [] => (m, syntax_error)
        end
      else (m, syntax_error)
  | [] => (m, syntax_error)
  end.

#[export] Instance ConfigFastest : API := {
  Marshal m := (marshal m, None);
  Unmarshal := unmarshal
}.

(** [net.LookupPort] for numeric services. *)
Definition LookupPort (network service : string) : Z * option error :=
  match parse_number (lit service) with
  | Some (z, []) => if z <=? 65535 then (z, None) else (0, syntax_error)
  | _ => (0, syntax_error)
  end.

End Reference.

(** ** Worlds and observations used in the statements *)

(** A world where every call succeeds and the peer sends nothing. *)
Definition quiet : World :=
  mkWorld [] (fun _ => []) (fun _ => EOF) (fun _ _ => (0, None)) true
          VersionTLS13 false [] [] 0 0.

Definition kind_eqb (a b : ConnKind) : bool :=
  match a, b with
  | TCPConn, TCPConn | TLSConn, TLSConn => true
  | _, _ => false
  end.

Definition conn_eqb (a b : Conn) : bool :=
  Nat.eqb (sock a) (sock b) && kind_eqb (kind a) (kind b).

(** The bytes that went out on a connection, in order. *)
Fixpoint written (c : Conn) (evs : list Event) : list byte :=
  match evs with
  | [] => []
  | EvWrite c' data None :: evs' =>
      if conn_eqb c' c then data ++ written c evs' else written c evs'
  | _ :: evs' => written c evs'
  end.

(** Whenever the computation returns, what it returns satisfies [Q]. *)
Definition yields {A} (Q : A -> Prop) (c : M A) : Prop :=
  forall w a, outcome (c w) = Done a -> Q a.

Definition is_tcp (c : Conn) : bool := kind_eqb (kind c) TCPConn.

Definition is_write (e : Event) : bool :=
  match e with EvWrite _ _ _ => true | _ => false end.

Definition is_log (e : Event) : bool :=
  match e with EvLog _ _ _ => true | _ => false end.

(** [go c.remote(true)] *)
Definition is_fast_spawn (e : Event) : bool :=
  match e with EvGo (TaskRemote true) => true | _ => false end.

Definition fast_spawns (evs : list Event) : nat :=
  List.length (filter is_fast_spawn evs).

(** What [Transfer] itself does around the two copies: deadlines, log
    lines and the two [go] statements. *)
Definition plain (e : Event) : bool :=
  match e with
  | EvSetDeadline _ _ _ | EvLog _ _ _ | EvGo (TaskCopy _ _) => true
  | _ => false
  end.

(** What a relay does: the above and what the copies do. *)
Definition relaying (e : Event) : bool :=
  match e with
  | EvCopy _ _ _ _ | EvChanSend _ | EvCloseWrite _ | EvSetLinger _ _ => true
  | _ => plain e
  end.

Definition Second : Z := 1000000000.

Section Statements.

Context {json : API}.

(** The serialized payload of a message, and its frame. *)
Definition payload (m : Msg) : list byte := fst (Marshal m).

Definition frame (m : Msg) : list byte :=
  byte_of_nat (List.length (payload m)) :: payload m.

(** A valid message: one the JSON library serializes, and parses back from
    what it serialized. *)
Definition valid (m : Msg) : Prop :=
  Marshal m = (payload m, None) /\ Unmarshal (payload m) zeroMsg = (m, None).

(** The direction of a relay that is the first to finish. *)
Definition first_dst (lconn rconn : Conn) (w : World) : Conn :=
  if race w then rconn else lconn.
Definition first_src (lconn rconn : Conn) (w : World) : Conn :=
  if race w then lconn else rconn.

(** The message a handoff sends once the local service is reached. *)
Definition success : Msg := mkMsg "success" "" 0 [] false "".

(** What a handoff does before it dials the local service. *)
Definition local_head (m : Msg) : list Event :=
  if Fast m
  then [EvGo (TaskRemote true); EvGo (TaskRemote true);
        EvLog INFO "Fast connection received from %s" [AStr (Addr m)];
        EvLog INFO "Connecting local service" []]
  else [EvLog INFO "Slow connection received from %s" [AStr (Addr m)];
        EvLog INFO "Connecting local service" []].

(** No message is written. *)
Definition no_writes (evs : list Event) : bool :=
  forallb (fun e => negb (is_write e)) evs.

(** C1 as it is stated: the promotion spawns one fast session when the
    [start] message has [Fast] set and none when it has not. *)
Definition promotion_follows_message : Prop :=
  forall (fuel : nat) (fast : bool) (rconn : Conn) (w : World) (m : Msg),
    outcome (RcvMsg rconn w) = Done (m, None) ->
    Type_ m = "start" ->
    fast_spawns (events (serve (S fuel) fast rconn w))
    = (if Fast m then 1 else 0)%nat.

(** C3 as it is stated: after a session that gave the hint N, the worker
    sleeps between 1 and N seconds. *)
Definition backoff_within_hint : Prop :=
  forall (fuel : nat) (c : Context) (w : World) (N d : Z),
    outcome (remote fuel c false w) = Done N ->
    N <> 0 ->
    In (EvSleep d) (events (worker_turn fuel c w)) ->
    1 * Second <= d <= N * Second.

(** C5 as it is stated, for a slow session: the turn of the loop that
    receives [keepalive] does not end the session, which is left awaiting
    the next message. *)
Definition slow_keepalive_stays : Prop :=
  forall (rconn : Conn) (w : World) (m : Msg),
    outcome (RcvMsg rconn w) = Done (m, None) ->
    Type_ m = "keepalive" ->
    outcome (serve 1 false rconn w) = Running.

(** C6 as it is stated: a clean end half-closes the destination, an error
    resets the sockets of both the source and the destination. *)
Definition error_resets_both : Prop :=
  forall (p : Proxy) (lconn rconn : Conn) (w : World),
    let dst := first_dst lconn rconn w in
    let src := first_src lconn rconn w in
    let err := snd (io_copy w (sock dst) (sock src)) in
    let evs := events (Transfer p lconn rconn w) in
    (err = None -> In (EvCloseWrite dst) evs) /\
    (err <> None -> In (EvSetLinger dst 0) evs /\ In (EvSetLinger src 0) evs).

End Statements.


(** ** Scenarios *)

(** The context of scenario A, with TLS. *)
Definition scenario_context : Context :=
  mkContext "rendezvous.example:1" ":80" 8080
            [x01; x02; x03; x04; x05; x06]
            (Some (mkTlsConfig "free.b4ck.net" VersionTLS13 32)).

(** The rendezvous connection of the scenarios. *)
Definition rendezvous : Conn := mkConn 0 TLSConn.

(** A world where the fallible calls have the outcomes [fl], the server
    delivers [frames] on the first socket and then lets the deadline pass,
    and the random source gives [ds]. *)
Definition scenario (fl : list (option error)) (frames : list byte)
           (ds : list Z) : World :=
  mkWorld fl (fun s => match s with O => frames | S _ => [] end)
          (fun _ => ErrTimeout) (fun _ _ => (0, None)) true
          VersionTLS13 false ds [] 0 0.

(** A relay between the rendezvous connection, under TLS, and the local
    service, whose copies both end with an error. *)
Definition broken_relay : World :=
  mkWorld [] (fun _ => []) (fun _ => EOF) (fun _ _ => (0, Some ErrTimeout)) true
          VersionTLS13 false [] [] 2 0.

(** Scenario A: 1000 bytes one way, 2000 the other, 3000 in all. *)
Definition scenario_A_relay : World :=
  mkWorld [] (fun _ => []) (fun _ => EOF)
          (fun dst src => if Nat.ltb dst src then (2000, None) else (1000, None))
          true VersionTLS13 false [] [] 2 0.

Definition start_fast : Msg := mkMsg "start" "" 0 [] true "1.2.3.4:5555".
Definition keepalive : Msg := mkMsg "keepalive" "" 0 [] false "".

Definition start_fast_frame : list byte :=
  frame (json := Reference.ConfigFastest) start_fast.
Definition keepalive_frame : list byte :=
  frame (json := Reference.ConfigFastest) keepalive.

(** ** Further observations *)

Definition is_close (e : Event) : bool :=
  match e with EvClose _ => true | _ => false end.

(** [go c.local(message, rconn)] *)
Definition is_handoff (e : Event) : bool :=
  match e with EvGo (TaskLocal _ _) => true | _ => false end.

Definition is_sleep (e : Event) : bool :=
  match e with EvSleep _ => true | _ => false end.

Definition is_copy (e : Event) : bool :=
  match e with EvCopy _ _ _ _ => true | _ => false end.

Definition count (f : Event -> bool) (evs : list Event) : nat :=
  List.length (filter f evs).

(** What the loop of a session does on the connection it serves: log
    lines, messages written and deadlines set on that connection. *)
Definition serving (conn : Conn) (e : Event) : bool :=
  match e with
  | EvLog _ _ _ => true
  | EvWrite c _ _ | EvSetDeadline c _ _ => conn_eqb c conn
  | _ => false
  end.

(** What a session does before its first message: log lines, the
    deadline on the dialled connection, the handshake on the TLS
    connection made of it. *)
Definition setting_up (conn0 : Conn) (e : Event) : bool :=
  match e with
  | EvLog _ _ _ => true
  | EvSetDeadline c _ _ => conn_eqb c conn0
  | EvHandshake c _ => conn_eqb c (tls_Client conn0)
  | _ => false
  end.

(** The message types the loop of a session has a case for. *)
Definition known (m : Msg) : bool :=
  existsb (String.eqb (Type_ m))
          ["start"; "keepalive"; "debug"; "info"; "warning"; "error"].

(** The level at which the text of a notice is logged. *)
Definition notice (m : Msg) : option Level :=
  if (Type_ m =? "debug")%string then Some DEBUG
  else if (Type_ m =? "info")%string then Some INFO
  else if (Type_ m =? "warning")%string then Some WARNING
  else None.

(** The log line of a message of no known type. *)
Definition ignored (m : Msg) : Event :=
  EvLog WARNING "Ignored message: %s: %s" [AStr (Type_ m); AStr (Text m)].

(** No colon in a string. *)
Definition colonless (s : string) : bool :=
  forallb (fun ch => negb (Ascii.eqb ch ":")) (list_ascii_of_string s).

(** ** The logger ([Level], [Logger] and its methods) *)

(** The constants of the levels, by [iota]. *)
Definition Level_int (level : Level) : Z :=
  match level with
  | UNSPECIFIED => 0
  | ERROR => 1
  | WARNING => 2
  | INFO => 3
  | DEBUG => 4
  end.

(** The fields [name] and [level]; all loggers write to the standard
    output. *)
Record Logger : Type := mkLogger { name : string; level : Level }.

(** An argument of [l.logger.Printf]: one of the caller's, or the level,
    which [%s] formats with [Level.String]. *)
Inductive Value : Type :=
| VArg (a : Arg)
| VLevel (level : Level).

Definition GetLogger (name : string) : Logger := mkLogger name UNSPECIFIED.

(** [fmt.Sprintf("%s.%s", l.name, name)] on a copy of the logger *)
Definition Child (l : Logger) (child : string) : Logger :=
  mkLogger (name l ++ "." ++ child)%string (level l).

Definition SetLogLevel (l : Logger) (lvl : Level) : Logger :=
  mkLogger (name l) lvl.

Section Logging.

(** [strings.ToUpper], [path.Base], and what [runtime.Caller(2)] gives:
    the file and the line, if it is known. *)
Variable ToUpper : string -> string.
Variable Base : string -> string.
Variable Caller : option (string * Z).

Definition ParseLevel (s : string) : Level * bool :=
  let u := ToUpper s in
  if (u =? "ERROR")%string then (ERROR, true)
  else if (u =? "WARNING")%string then (WARNING, true)
  else if (u =? "INFO")%string then (INFO, true)
  else if (u =? "DEBUG")%string then (DEBUG, true)
  else (UNSPECIFIED, false).

(** The call of [l.logger.Printf] that [printf] makes, if it makes one. *)
Definition printf (l : Logger) (lvl : Level) (format : string)
           (args : list Arg) : option (string * list Value) :=
  if Level_int lvl >? Level_int (level l) then None
  else
    let '(ourFormat, ourArgs) :=
      if Level_int (level l) >=? Level_int DEBUG
      then (* Performance and readability optimization *)
        match Caller with
        | Some (file, line) =>
            ("%s:%d ", [VArg (AStr (Base file)); VArg (AInt line)])
        | None => ("", [])
        end
      else ("", []) in
    let ourFormat := (ourFormat ++ "%s %s: ")%string in
    let ourArgs := ourArgs ++ [VArg (AStr (name l)); VLevel lvl] in
    Some ((ourFormat ++ format)%string, ourArgs ++ map VArg args).

(** [GetContext], the lines that initialize logging. *)
Definition logging (f : Flags) : Logger :=
  let confDebug := value "INFO" (flag_d f) in
  let logger := GetLogger "b4ck" in
  let '(lvl, ok) := ParseLevel confDebug in
  if ok : bool then SetLogLevel logger lvl else SetLogLevel logger DEBUG.

End Logging.

(** The logger reached from [l] by [Child] with each of the names. *)
Definition descend (l : Logger) (names : list string) : Logger :=
  fold_left Child names l.

(** A line is printed. *)
Definition printed (r : option (string * list Value)) : bool :=
  match r with Some _ => true | None => false end.

(** ** Further scenarios *)

(** A stream that ends, cleanly, inside the payload of its first frame. *)
Definition cut_short : World := set_stream 0 [x05; x7b] quiet.

(** A message of no known type, and a notice. *)
Definition ping : Msg := mkMsg "ping" "are you there" 0 [] false "".
Definition hello : Msg := mkMsg "info" "hello" 0 [] false "".

(** The command line of scenario A, and one without the key. *)
Definition scenario_flags : Flags :=
  mkFlags (Some "rendezvous.example:8080") None (Some "AQIDBAUG") None None.
Definition keyless_flags : Flags :=
  mkFlags (Some "rendezvous.example:8080") None None None None.

(** * Theorems *)

(** ** Bytes *)

Lemma nat_of_byte_of_nat (n : nat) :
  nat_of_byte (byte_of_nat n) = (n mod 256)%nat.
Proof.
  unfold nat_of_byte, byte_of_nat.
  assert (Hlt : (N.of_nat n mod 256 < 256)%N) by (apply N.mod_lt; discriminate).
  destruct (Byte.of_N (N.of_nat n mod 256)) as [b|] eqn:E.
  - apply Byte.to_of_N in E. rewrite E.
    change 256%N with (N.of_nat 256).
    rewrite <- Nat2N.inj_mod. apply Nat2N.id.
  - apply Byte.of_N_None_iff in E. lia.
Qed.

Lemma nat_of_byte_of_nat_small (n : nat) :
  (n <= 255)%nat -> nat_of_byte (byte_of_nat n) = n.
Proof.
  intros H. rewrite nat_of_byte_of_nat. apply Nat.mod_small. lia.
Qed.

Lemma firstn_length_app {A} (l1 l2 : list A) :
  firstn (List.length l1) (l1 ++ l2) = l1.
Proof. induction l1 as [|a l1 IH]; simpl; [reflexivity | now rewrite IH]. Qed.

Lemma skipn_length_app {A} (l1 l2 : list A) :
  skipn (List.length l1) (l1 ++ l2) = l2.
Proof. induction l1 as [|a l1 IH]; simpl; [reflexivity | exact IH]. Qed.

Lemma wrap64_small (z : Z) :
  0 <= z <= max_int64 -> wrap64 z = z.
Proof.
  unfold wrap64, max_int64.
  change (2 ^ 63) with 9223372036854775808.
  change (2 ^ 64) with 18446744073709551616.
  intros H. rewrite Z.mod_small; lia.
Qed.

(** ** The codec *)

Section Codec.

Context {json : API}.

Lemma rx_set_stream (s : nat) (bs : list byte) (w : World) :
  rx (set_stream s bs w) s = bs.
Proof. unfold set_stream. simpl. now rewrite Nat.eqb_refl. Qed.

Lemma ReadAtLeast_enough (r : Conn) (n : nat) (w : World) (bs rest : list byte) :
  rx w (sock r) = bs ++ rest ->
  List.length bs = n ->
  ReadAtLeast r n w = (Done (bs, None), set_stream (sock r) rest w, []).
Proof.
  intros Hrx Hn. unfold ReadAtLeast. rewrite Hrx.
  assert (Hle : Nat.leb n (List.length (bs ++ rest)) = true).
  { apply Nat.leb_le. rewrite length_app. lia. }
  rewrite Hle. subst n.
  now rewrite firstn_length_app, skipn_length_app.
Qed.

(** What [SndMsg] does, whatever the length of the payload: it fails with
    the error of [Marshal] or of [Write], and with no other. *)
Lemma SndMsg_run (c : Conn) (m : Msg) (w : World) :
  SndMsg c m w =
  match Marshal m with
  | (_, Some e) => (Done (Some e), w, [])
  | (serialized, None) =>
      let r := hd None (faults w) in
      (Done r, set_faults (tl (faults w)) w,
       [EvWrite c (byte_of_nat (List.length serialized) :: serialized) r])
  end.
Proof.
  unfold SndMsg. destruct (Marshal m) as [serialized [e|]]; reflexivity.
Qed.

(** C4. For every valid control message whose serialized payload is at
    most 255 bytes, [SndMsg] writes a frame from which [RcvMsg], reading
    the stream that carries it, gives the message back exactly, and leaves
    the rest of the stream unread. *)
Theorem RcvMsg_SndMsg_roundtrip (m : Msg) (wc rc : Conn) (w : World) :
  valid m ->
  (List.length (payload m) <= 255)%nat ->
  hd None (faults w) = None ->
  outcome (SndMsg wc m w) = Done None /\
  forall (w' : World) (rest : list byte),
    rx w' (sock rc) = written wc (events (SndMsg wc m w)) ++ rest ->
    outcome (RcvMsg rc w') = Done (m, None) /\
    rx (after (RcvMsg rc w')) (sock rc) = rest.
Proof.
  intros [Hm Hu] Hlen Hok.
  rewrite SndMsg_run, Hm, Hok. cbn [outcome events fst snd].
  split; [reflexivity|].
  intros w' rest Hrx.
  cbn [written] in Hrx.
  assert (Hc : conn_eqb wc wc = true).
  { unfold conn_eqb. rewrite Nat.eqb_refl. now destruct (kind wc). }
  rewrite Hc, app_nil_r in Hrx.
  unfold RcvMsg, bind.
  rewrite (ReadAtLeast_enough rc 1 w' [byte_of_nat (List.length (payload m))]
             (payload m ++ rest)) by (auto; now rewrite Hrx).
  cbn [hd]. rewrite nat_of_byte_of_nat_small by exact Hlen.
  rewrite (ReadAtLeast_enough rc _ _ (payload m) rest)
    by (auto using rx_set_stream).
  rewrite Hu. cbn -[set_stream]. split; [reflexivity|].
  apply rx_set_stream.
Qed.

End Codec.

(** The round trip on the [listen] message of scenario A. *)
Lemma RcvMsg_SndMsg_roundtrip_witness :
  let m := mkMsg "listen" "" 8080 [x01; x02; x03; x04; x05; x06] false "" in
  let c := mkConn 0 TCPConn in
  outcome (SndMsg (json := Reference.ConfigFastest) c m quiet) = Done None /\
  forall (w' : World) (rest : list byte),
    rx w' 0%nat
    = written c (events (SndMsg (json := Reference.ConfigFastest) c m quiet)) ++ rest ->
    outcome (RcvMsg (json := Reference.ConfigFastest) c w') = Done (m, None) /\
    rx (after (RcvMsg (json := Reference.ConfigFastest) c w')) 0%nat = rest.
Proof.
  intros m c.
  apply (RcvMsg_SndMsg_roundtrip (json := Reference.ConfigFastest) m c c quiet).
  - split; vm_compute; reflexivity.
  - vm_compute. lia.
  - reflexivity.
Defined.


(** ** Running a computation step by step *)

Lemma seg_step {A B} (c : M A) (k : A -> M B) w a w1 e1 o w2 s T :
  c w = (Done a, w1, e1) -> k a w1 = (o, w2, s ++ T) ->
  bind c k w = (o, w2, (e1 ++ s) ++ T).
Proof. intros H1 H2. unfold bind. rewrite H1, H2. now rewrite app_assoc. Qed.

Lemma seg_mark {A B} (c : M A) (k : A -> M B) w a w1 C o w2 T :
  c w = (Done a, w1, C) -> k a w1 = (o, w2, T) ->
  bind c k w = (o, w2, [] ++ C ++ T).
Proof. intros H1 H2. unfold bind. now rewrite H1, H2. Qed.

Lemma seg_last {A B} (c : M A) (k : A -> M B) w a w1 e1 o w2 s :
  c w = (Done a, w1, e1) -> k a w1 = (o, w2, s) ->
  bind c k w = (o, w2, e1 ++ s).
Proof. intros H1 H2. unfold bind. now rewrite H1, H2. Qed.

Ltac norm :=
  cbn [faults rx rx_err io_copy race tls_version tls_resumed draws chan
       next_sock next_id set_faults set_chan set_rx set_draws set_next_sock
       set_next_id].

Ltac by_cases :=
  repeat match goal with
         | |- context [match ?x with _ => _ end] => destruct x
         end;
  reflexivity.

(** A step that only logs, whatever branch it takes. *)
Ltac log_step :=
  match goal with
  | |- ?c ?w = (Done _, _, _) =>
      let H := fresh in
      assert (H : c w = (Done tt, w, events (c w))) by by_cases;
      exact H
  end.

(** ** The relay *)

Lemma warn_run (err : option error) (w : World) :
  warn_SetDeadline err w = (Done tt, w, events (warn_SetDeadline err w)).
Proof. destruct err; reflexivity. Qed.

Lemma plain_warn (err : option error) (w : World) :
  forallb plain (events (warn_SetDeadline err w)) = true.
Proof. destruct err; reflexivity. Qed.

Ltac plain_tac :=
  repeat rewrite forallb_app;
  repeat rewrite plain_warn;
  cbn [forallb andb plain];
  repeat rewrite andb_true_r;
  try reflexivity;
  repeat (apply andb_true_intro; split);
  try by_cases.

Lemma copy_run (p : Proxy) (dst src : Conn) (bytes : Counter) (w : World) :
  copy p dst src bytes w =
  (Done (add_bytes p bytes (fst (io_copy w (sock dst) (sock src)))),
   set_chan (chan w ++ [snd (io_copy w (sock dst) (sock src))]) w,
   events (copy p dst src bytes w)).
Proof.
  unfold copy, io_Copy, bind.
  destruct (io_copy w (sock dst) (sock src)) as [n [e|]];
    destruct (kind dst), (kind src); reflexivity.
Qed.

(** What a copy does, from the end of [io.Copy] to its send. *)
Lemma copy_events (p : Proxy) (dst src : Conn) (bytes : Counter) (w : World) :
  let n := fst (io_copy w (sock dst) (sock src)) in
  let err := snd (io_copy w (sock dst) (sock src)) in
  exists acts,
    events (copy p dst src bytes w) = EvCopy dst src n err :: acts ++ [EvChanSend err] /\
    (err = None -> acts = [EvCloseWrite dst]) /\
    (err <> None ->
     acts = map (fun c => EvSetLinger c 0) (filter is_tcp [dst; src])).
Proof.
  intros n err.
  exists (match err with
          | None => [EvCloseWrite dst]
          | Some _ => map (fun c => EvSetLinger c 0) (filter is_tcp [dst; src])
          end).
  subst n err. unfold copy, io_Copy, bind, is_tcp.
  destruct (io_copy w (sock dst) (sock src)) as [n [e|]]; cbn;
    destruct (kind dst), (kind src); cbn;
    (split; [reflexivity|]); split; intros H;
    try reflexivity; try discriminate; try congruence.
Qed.

Lemma events_copy_frame (p p' : Proxy) (dst src : Conn) (bytes : Counter)
      (w w' : World) :
  io_copy w' = io_copy w ->
  events (copy p' dst src bytes w') = events (copy p dst src bytes w).
Proof.
  intros H. unfold copy, io_Copy, bind. rewrite H.
  destruct (io_copy w (sock dst) (sock src)) as [n [e|]];
    destruct (kind dst), (kind src); reflexivity.
Qed.

Lemma copy_run_from (p : Proxy) (dst src : Conn) (bytes : Counter)
      (w : World) (p0 : Proxy) (w0 : World) :
  io_copy w = io_copy w0 ->
  copy p dst src bytes w =
  (Done (add_bytes p bytes (fst (io_copy w0 (sock dst) (sock src)))),
   set_chan (chan w ++ [snd (io_copy w0 (sock dst) (sock src))]) w,
   events (copy p0 dst src bytes w0)).
Proof.
  intros H. rewrite copy_run, H. f_equal. now apply events_copy_frame.
Qed.

Lemma chan_recv_run (w : World) :
  chan w <> [] ->
  chan_recv w = (Done (hd None (chan w)), set_chan (tl (chan w)) w, []).
Proof. unfold chan_recv. destruct (chan w); [congruence | reflexivity]. Qed.

Lemma app_one_not_nil {A} (l : list A) (a : A) : l ++ [a] <> [].
Proof. destruct l; discriminate. Qed.

(** [Transfer] always returns; its events are those of the copy that
    finishes first, then those of the other, with plain ones around. *)
Lemma Transfer_run (p : Proxy) (lconn rconn : Conn) (w : World) :
  let d1 := first_dst lconn rconn w in
  let s1 := first_src lconn rconn w in
  let b1 := if race w then Sent else Rcvd in
  let b2 := if race w then Rcvd else Sent in
  let p1 := add_bytes p b1 (fst (io_copy w (sock d1) (sock s1))) in
  let p2 := add_bytes p1 b2 (fst (io_copy w (sock s1) (sock d1))) in
  exists pre mid post w',
    Transfer p lconn rconn w =
    (Done (wrap64 (sent p2 + rcvd p2)), w',
     pre ++ events (copy p d1 s1 b1 w) ++ mid
         ++ events (copy p1 s1 d1 b2 w) ++ post)
    /\ forallb plain pre = true /\ forallb plain mid = true
    /\ forallb plain post = true.
Proof.
  intros. subst p2 p1 b2 b1 s1 d1. unfold first_dst, first_src.
  destruct (race w) eqn:R;
    (do 4 eexists; split;
     [ unfold Transfer;
       eapply seg_step; [reflexivity|]; norm;
       eapply seg_step; [apply warn_run|];
       eapply seg_step; [reflexivity|]; norm;
       eapply seg_step; [apply warn_run|];
       eapply seg_step; [reflexivity|];
       eapply seg_step; [reflexivity|];
       eapply seg_step; [reflexivity|];
       eapply seg_step; [reflexivity|];
       norm; rewrite R;
       eapply seg_mark; [apply copy_run_from with (w0 := w); reflexivity|]; norm;
       eapply seg_step; [apply chan_recv_run; apply app_one_not_nil|]; norm;
       eapply seg_step; [log_step|];
       eapply seg_step; [reflexivity|]; norm;
       eapply seg_step; [apply warn_run|];
       eapply seg_step; [reflexivity|]; norm;
       eapply seg_step; [apply warn_run|];
       eapply seg_mark; [apply copy_run_from with (w0 := w); reflexivity|]; norm;
       eapply seg_last; [apply chan_recv_run; apply app_one_not_nil|]; norm;
       eapply seg_last; [log_step|];
       eapply seg_last; [reflexivity|];
       reflexivity
     | repeat split; plain_tac ]).
Qed.

Lemma plain_not_reset (l : list Event) (c : Conn) (sec : Z) :
  forallb plain l = true -> ~ In (EvSetLinger c sec) l.
Proof.
  intros H Hin. rewrite forallb_forall in H. now apply H in Hin.
Qed.

Lemma copy_resets_tcp_only (p : Proxy) (dst src : Conn) (bytes : Counter)
      (w : World) (c : Conn) (sec : Z) :
  In (EvSetLinger c sec) (events (copy p dst src bytes w)) -> kind c = TCPConn.
Proof.
  unfold copy, io_Copy, bind.
  destruct (io_copy w (sock dst) (sock src)) as [n [e|]];
    destruct (kind dst) eqn:Kd, (kind src) eqn:Ks; cbn;
    intros H; repeat destruct H as [H|H];
    try discriminate; try contradiction;
    injection H as <- _; assumption.
Qed.

(** C6, amended. In every relay the copy that finishes first, having
    ended cleanly, half-closes its destination; having ended with an error,
    it resets those of its destination and source that are plain TCP
    connections, and no relay ever resets a TLS connection. *)
Theorem relay_first_direction_settles
        (p : Proxy) (lconn rconn : Conn) (w : World) :
  let dst := first_dst lconn rconn w in
  let src := first_src lconn rconn w in
  let n := fst (io_copy w (sock dst) (sock src)) in
  let err := snd (io_copy w (sock dst) (sock src)) in
  let evs := events (Transfer p lconn rconn w) in
  (exists pre acts post,
      evs = pre ++ EvCopy dst src n err :: acts ++ EvChanSend err :: post /\
      forallb plain pre = true /\
      (err = None -> acts = [EvCloseWrite dst]) /\
      (err <> None ->
       acts = map (fun c => EvSetLinger c 0) (filter is_tcp [dst; src]))) /\
  (forall c sec, In (EvSetLinger c sec) evs -> kind c = TCPConn).
Proof.
  intros dst src n err evs.
  destruct (Transfer_run p lconn rconn w)
    as (pre & mid & post & w' & Hrun & Hpre & Hmid & Hpost).
  cbv zeta in Hrun. fold dst src in Hrun.
  assert (Hevs : evs = snd (Transfer p lconn rconn w)) by reflexivity.
  rewrite Hrun in Hevs. cbn [snd] in Hevs.
  split.
  - destruct (copy_events p dst src (if race w then Sent else Rcvd) w)
      as (acts & Hc & Hclean & Hfail).
    exists pre, acts. eexists. split; [|split; [exact Hpre|split; assumption]].
    rewrite Hevs, Hc. fold n err.
    cbn [app]. rewrite <- app_assoc. reflexivity.
  - intros c sec Hin. rewrite Hevs in Hin.
    repeat (apply in_app_or in Hin; destruct Hin as [Hin|Hin]).
    + now apply plain_not_reset in Hin.
    + now apply copy_resets_tcp_only in Hin.
    + now apply plain_not_reset in Hin.
    + now apply copy_resets_tcp_only in Hin.
    + now apply plain_not_reset in Hin.
Qed.

(** C6 as stated fails: with TLS, the default, an error in the copy that
    finishes first leaves the socket of the rendezvous connection as it is. *)
Lemma error_resets_both_fails :
  ~ error_resets_both.
Proof.
  unfold error_resets_both. intros H.
  pose proof (H GetProxy (mkConn 0 TLSConn) (mkConn 1 TCPConn) broken_relay)
    as H0.
  cbv zeta in H0. destruct H0 as [_ Hreset].
  assert (Hne : snd (io_copy broken_relay 1%nat 0%nat) <> None)
    by (vm_compute; discriminate).
  destruct (Hreset Hne) as [_ Hsrc].
  vm_compute in Hsrc.
  repeat destruct Hsrc as [Hsrc|Hsrc]; try discriminate. contradiction.
Qed.

(** C7. A relay run to the end returns the number of bytes copied one way
    plus the number copied the other way (the counts, of [io.Copy], are not
    negative, and their sum is an [int64]). *)
Theorem Transfer_returns_sum (lconn rconn : Conn) (w : World) :
  let sent_bytes := fst (io_copy w (sock rconn) (sock lconn)) in
  let rcvd_bytes := fst (io_copy w (sock lconn) (sock rconn)) in
  0 <= sent_bytes ->
  0 <= rcvd_bytes ->
  sent_bytes + rcvd_bytes <= max_int64 ->
  outcome (Transfer GetProxy lconn rconn w) = Done (sent_bytes + rcvd_bytes) /\
  (exists e, In (EvCopy rconn lconn sent_bytes e) (events (Transfer GetProxy lconn rconn w))) /\
  (exists e, In (EvCopy lconn rconn rcvd_bytes e) (events (Transfer GetProxy lconn rconn w))).
Proof.
  cbv zeta. intros Hs Hr Hsum.
  destruct (Transfer_run GetProxy lconn rconn w)
    as (pre & mid & post & w' & Hrun & _).
  cbv zeta in Hrun. rewrite Hrun. cbn [outcome events fst snd].
  unfold first_dst, first_src in *.
  destruct (race w).
  - destruct (copy_events GetProxy rconn lconn Sent w) as (a1 & H1 & _).
    destruct (copy_events
                (add_bytes GetProxy Sent (fst (io_copy w (sock rconn) (sock lconn))))
                lconn rconn Rcvd w)
      as (a2 & H2 & _).
    cbv zeta in H1, H2. rewrite H1, H2.
    split; [|split].
    + cbn [add_bytes GetProxy sent rcvd].
      rewrite !Z.add_0_l.
      rewrite (wrap64_small (fst (io_copy w (sock rconn) (sock lconn)))) by lia.
      rewrite (wrap64_small (fst (io_copy w (sock lconn) (sock rconn)))) by lia.
      rewrite wrap64_small by lia. f_equal; lia.
    + eexists. apply in_or_app. right. left. reflexivity.
    + eexists. apply in_or_app. right. apply in_or_app. right.
      apply in_or_app. right. left. reflexivity.
  - destruct (copy_events GetProxy lconn rconn Rcvd w) as (a1 & H1 & _).
    destruct (copy_events
                (add_bytes GetProxy Rcvd (fst (io_copy w (sock lconn) (sock rconn))))
                rconn lconn Sent w)
      as (a2 & H2 & _).
    cbv zeta in H1, H2. rewrite H1, H2.
    split; [|split].
    + cbn [add_bytes GetProxy sent rcvd].
      rewrite !Z.add_0_l.
      rewrite (wrap64_small (fst (io_copy w (sock rconn) (sock lconn)))) by lia.
      rewrite (wrap64_small (fst (io_copy w (sock lconn) (sock rconn)))) by lia.
      rewrite wrap64_small by lia. f_equal; lia.
    + eexists. apply in_or_app. right. apply in_or_app. right.
      apply in_or_app. right. left. reflexivity.
    + eexists. apply in_or_app. right. left. reflexivity.
Qed.

(** Scenario A: 1000 bytes one way, 2000 the other, 3000 in all. *)
Lemma Transfer_returns_sum_witness :
  outcome (Transfer GetProxy (mkConn 0 TLSConn) (mkConn 1 TCPConn) scenario_A_relay)
  = Done 3000.
Proof.
  apply (Transfer_returns_sum (mkConn 0 TLSConn) (mkConn 1 TCPConn) scenario_A_relay);
    vm_compute; discriminate.
Defined.

Lemma Dial_run (network address : string) (w : World) :
  Dial network address w =
  match hd None (faults w) with
  | Some e => (Done (inr e), set_faults (tl (faults w)) w,
               [EvDial network address (inr e)])
  | None =>
      let conn := mkConn (next_sock w) TCPConn in
      (Done (inl conn),
       set_next_sock (S (next_sock w)) (set_faults (tl (faults w)) w),
       [EvDial network address (inl conn)])
  end.
Proof. unfold Dial, bind, fault. destruct (hd None (faults w)); reflexivity. Qed.

Lemma plain_relaying (l : list Event) :
  forallb plain l = true -> forallb relaying l = true.
Proof.
  rewrite !forallb_forall. intros H e He. specialize (H e He).
  destruct e; try discriminate; try reflexivity. exact H.
Qed.

Lemma copy_relaying (p : Proxy) (dst src : Conn) (bytes : Counter) (w : World) :
  forallb relaying (events (copy p dst src bytes w)) = true.
Proof.
  unfold copy, io_Copy, bind.
  destruct (io_copy w (sock dst) (sock src)) as [n [e|]];
    destruct (kind dst), (kind src); reflexivity.
Qed.

(** A relay always returns, and does nothing but relaying. *)
Lemma Transfer_relaying (p : Proxy) (lconn rconn : Conn) (w : World) :
  exists n w' evs,
    Transfer p lconn rconn w = (Done n, w', evs) /\
    forallb relaying evs = true.
Proof.
  destruct (Transfer_run p lconn rconn w)
    as (pre & mid & post & w' & Hrun & Hpre & Hmid & Hpost).
  cbv zeta in Hrun. do 3 eexists. split; [exact Hrun|].
  rewrite !forallb_app, !copy_relaying.
  now rewrite !plain_relaying by assumption.
Qed.


(** ** The handoff *)

Ltac step_by tac := eapply seg_last; [tac|]; norm; cbv beta iota.
Ltac step := step_by reflexivity.

Section Handoff.
Context {json : API}.

Lemma local_relay_shape (rconn lconn : Conn) (w : World) :
  exists w' evs,
    local_relay rconn lconn w = (Done tt, w', evs) /\
    match hd None (faults w) with
    | Some e =>
        evs = [EvSetDeadline lconn (NowAdd Minute) (Some e);
               EvLog WARNING "SetDeadline failed: %s" [AErr e]]
    | None =>
        exists tail,
        evs = EvSetDeadline lconn (NowAdd Minute) None :: tail /\
        match snd (Marshal success) with
        | Some e => tail = [EvLog WARNING "Failed to send SUCCESS: %s" [AErr e]]
        | None =>
            match hd None (tl (faults w)) with
            | Some e =>
                tail = [EvWrite rconn (frame success) (Some e);
                        EvLog WARNING "Failed to send SUCCESS: %s" [AErr e]]
            | None =>
                exists relay,
                tail = EvWrite rconn (frame success) None :: relay /\
                forallb relaying relay = true
            end
        end
    end.
Proof.
  unfold local_relay.
  destruct (hd None (faults w)) as [e|] eqn:D1.
  - do 2 eexists. split.
    + step. rewrite D1. reflexivity.
    + cbn [app]. now rewrite D1.
  - unfold frame, payload. fold success.
    destruct (Marshal success) as [s [e|]] eqn:Ms.
    + do 2 eexists. split.
      * step. rewrite D1.
        step_by ltac:(rewrite SndMsg_run, Ms; reflexivity).
        reflexivity.
      * cbn [app]. rewrite D1. eexists. split; reflexivity.
    + cbn [snd fst].
      destruct (hd None (tl (faults w))) as [e|] eqn:D2.
      * do 2 eexists. split.
        -- step. rewrite D1.
           step_by ltac:(rewrite SndMsg_run, Ms; norm; rewrite D2; reflexivity).
           reflexivity.
        -- cbn [app]. rewrite ?D1, ?D2. eexists. split; reflexivity.
      * destruct (Transfer_relaying GetProxy rconn lconn
                    (set_faults (tl (tl (faults w))) (set_faults (tl (faults w)) w)))
          as (n & w' & relay & Hrun & Hrel).
        do 2 eexists. split.
        -- step. rewrite D1.
           step_by ltac:(rewrite SndMsg_run, Ms; norm; rewrite D2; reflexivity).
           step_by ltac:(exact Hrun).
           reflexivity.
        -- cbn [app]. rewrite ?D1, ?D2.
           eexists. split; [reflexivity|].
           eexists. split; [reflexivity|].
           rewrite app_nil_r. exact Hrel.
Qed.


Lemma local_shape (c : Context) (m : Msg) (rconn : Conn) (w : World) :
  let lconn := mkConn (next_sock w) TCPConn in
  exists w' evs tail,
    local c m rconn w = (Done tt, w', evs) /\
    evs = local_head m ++ tail /\
    match hd None (faults w) with
    | Some e =>
        tail = [EvDial "tcp" (laddr c) (inr e);
                EvLog WARNING "Local connection failed: %s" [AErr e];
                EvClose rconn]
    | None =>
        exists w1 w2 evs,
        local_relay rconn lconn w1 = (Done tt, w2, evs) /\
        faults w1 = tl (faults w) /\
        tail = EvDial "tcp" (laddr c) (inl lconn) :: evs
                 ++ [EvClose lconn; EvClose rconn]
    end.
Proof.
  intros lconn. unfold local, local_body, local_head.
  destruct (hd None (faults w)) as [e|] eqn:D.
  - destruct (Fast m); do 3 eexists;
      (split;
       [ step_by ltac:(
           step; step; step; step;
           step_by ltac:(rewrite Dial_run; norm; rewrite D; reflexivity);
           reflexivity);
         reflexivity
       | split; reflexivity ]).
  - set (w1 := set_next_sock (S (next_sock w))
                 (set_faults (tl (faults w))
                    (set_next_id ((next_id w + 1) mod 2 ^ 64) w))).
    destruct (local_relay_shape rconn lconn w1) as (w2 & evs & Hrun & _).
    destruct (Fast m); do 3 eexists;
      (split;
       [ step_by ltac:(
           step; step; step; step;
           step_by ltac:(rewrite Dial_run; norm; rewrite D; reflexivity);
           step_by ltac:(exact Hrun);
           reflexivity);
         reflexivity
       | split; [cbn [app]; reflexivity|];
         exists w1, w2, evs; split; [exact Hrun|]; split; [reflexivity|];
         rewrite <- app_assoc; reflexivity ]).
Qed.


Lemma relaying_no_writes (l : list Event) :
  forallb relaying l = true -> no_writes l = true.
Proof.
  unfold no_writes. rewrite !forallb_forall. intros H e He.
  specialize (H e He). destruct e; try discriminate; reflexivity.
Qed.

Lemma local_head_no_writes (m : Msg) : no_writes (local_head m) = true.
Proof. unfold local_head. destruct (Fast m); reflexivity. Qed.

Lemma no_writes_app (l1 l2 : list Event) :
  no_writes (l1 ++ l2) = no_writes l1 && no_writes l2.
Proof. apply forallb_app. Qed.

(** C10. In every handoff the only message written on the rendezvous
    connection is [success], and it is written after the local service has
    been dialed and the deadline of the local connection set, both with
    success; if the dial fails nothing is written and the rendezvous
    connection is closed; if setting the deadline fails nothing is written
    and both connections are closed. *)
Theorem success_after_local_ready
        (c : Context) (m : Msg) (rconn : Conn) (w : World) :
  let lconn := mkConn (next_sock w) TCPConn in
  let r := local c m rconn w in
  outcome r = Done tt /\
  (no_writes (events r) = true \/
   exists pre res post,
     events r = pre ++ EvWrite rconn (frame success) res :: post /\
     no_writes pre = true /\ no_writes post = true /\
     In (EvDial "tcp" (laddr c) (inl lconn)) pre /\
     In (EvSetDeadline lconn (NowAdd Minute) None) pre) /\
  (forall e, hd None (faults w) = Some e ->
     In (EvDial "tcp" (laddr c) (inr e)) (events r) /\
     no_writes (events r) = true /\
     In (EvClose rconn) (events r)) /\
  (forall e, hd None (faults w) = None -> hd None (tl (faults w)) = Some e ->
     In (EvSetDeadline lconn (NowAdd Minute) (Some e)) (events r) /\
     no_writes (events r) = true /\
     In (EvClose lconn) (events r) /\ In (EvClose rconn) (events r)).
Proof.
  intros lconn r.
  destruct (local_shape c m rconn w) as (w' & evs & tail & Hrun & Hevs & Hshape).
  fold lconn in Hshape. subst r. rewrite Hrun. cbn [outcome events fst snd].
  subst evs. pose proof (local_head_no_writes m) as Hhead.
  split; [reflexivity|].
  destruct (hd None (faults w)) as [e|] eqn:D.
  - (* the dial fails *)
    subst tail.
    assert (Hq : no_writes (local_head m ++
                   [EvDial "tcp" (laddr c) (inr e);
                    EvLog WARNING "Local connection failed: %s" [AErr e];
                    EvClose rconn]) = true)
      by (rewrite no_writes_app, Hhead; reflexivity).
    split; [left; exact Hq|]. split.
    + intros e' He'. injection He' as <-.
      split; [|split; [exact Hq|]]; apply in_or_app; right; cbn; auto.
    + intros e' He'. discriminate.
  - destruct Hshape as (w1 & w2 & evs & Hrelay & Hf & Htail).
    destruct (local_relay_shape rconn lconn w1) as (w2' & evs' & Hrelay' & Hsh).
    rewrite Hrelay in Hrelay'. injection Hrelay' as _ <-.
    rewrite Hf in Hsh. subst tail.
    destruct (hd None (tl (faults w))) as [e|] eqn:D2.
    + (* setting the deadline fails *)
      subst evs.
      match goal with
      | |- context [no_writes ?l = true \/ _] =>
          assert (Hq : no_writes l = true)
            by (rewrite no_writes_app, Hhead; reflexivity)
      end.
      split; [left; exact Hq|]. split.
      * intros e' He'. discriminate.
      * intros e' _ He'. injection He' as <-.
        split; [|split; [exact Hq|split]]; apply in_or_app; right; cbn; auto 6.
    + destruct Hsh as (tail & -> & Hsh).
      split; [|split; intros; discriminate].
      destruct (snd (Marshal success)) as [e|].
      * (* the message cannot be serialized *)
        subst tail. left. rewrite no_writes_app, Hhead. reflexivity.
      * destruct (hd None (tl (tl (faults w)))) as [e|].
        -- (* the write fails *)
           subst tail. right.
           exists (local_head m ++
                     [EvDial "tcp" (laddr c) (inl lconn);
                      EvSetDeadline lconn (NowAdd Minute) None]).
           do 2 eexists.
           split; [rewrite <- app_assoc; reflexivity|].
           split; [rewrite no_writes_app, Hhead; reflexivity|].
           split; [reflexivity|].
           split; apply in_or_app; right; cbn; auto.
        -- destruct Hsh as (relay & -> & Hrel).
           right.
           exists (local_head m ++
                     [EvDial "tcp" (laddr c) (inl lconn);
                      EvSetDeadline lconn (NowAdd Minute) None]).
           do 2 eexists.
           split; [rewrite <- app_assoc; reflexivity|].
           split; [rewrite no_writes_app, Hhead; reflexivity|].
           split.
           ++ rewrite no_writes_app, (relaying_no_writes _ Hrel). reflexivity.
           ++ split; apply in_or_app; right; cbn; auto.
Qed.

End Handoff.

(** ** The session *)

Lemma bind_Done {A B} (c : M A) (k : A -> M B) w a w1 e1 :
  c w = (Done a, w1, e1) ->
  outcome (bind c k w) = outcome (k a w1) /\
  after (bind c k w) = after (k a w1) /\
  events (bind c k w) = e1 ++ events (k a w1).
Proof.
  intros H. unfold bind. rewrite H.
  destruct (k a w1) as [[o w2] e2]. repeat split.
Qed.

Lemma triple {A} (r : Outcome A * World * list Event) :
  r = (outcome r, after r, events r).
Proof. now destruct r as [[o w] e]. Qed.

Lemma yields_ret {A} (Q : A -> Prop) (a : A) : Q a -> yields Q (ret a).
Proof. intros H w a' E. injection E as <-. exact H. Qed.

Lemma yields_bind {A B} (Q : B -> Prop) (c : M A) (k : A -> M B) :
  (forall a, yields Q (k a)) -> yields Q (bind c k).
Proof.
  intros H w b. unfold bind.
  destruct (c w) as [[[a| | |] w1] e1]; try discriminate.
  specialize (H a w1 b). destruct (k a w1) as [[o w2] e2]. exact H.
Qed.

Lemma yields_bind_with {A B} (P : A -> Prop) (Q : B -> Prop)
      (c : M A) (k : A -> M B) :
  yields P c -> (forall a, P a -> yields Q (k a)) -> yields Q (bind c k).
Proof.
  intros Hc H w b. unfold bind.
  destruct (c w) as [[[a| | |] w1] e1] eqn:E; try discriminate.
  assert (Pa : P a) by (apply (Hc w); now rewrite E).
  specialize (H a Pa w1 b). destruct (k a w1) as [[o w2] e2]. exact H.
Qed.

Lemma yields_Exit {A} (Q : A -> Prop) (code : Z) : yields Q (Exit code).
Proof. intros w a E. discriminate. Qed.

Lemma yields_running {A} (Q : A -> Prop) : yields Q running.
Proof. intros w a E. discriminate. Qed.

Ltac yields_tac :=
  repeat first
    [ apply yields_ret; auto
    | apply yields_Exit
    | apply yields_running
    | assumption
    | apply yields_bind; intros ?
    | match goal with
      | |- yields _ (if ?b then _ else _) => destruct b
      | |- yields _ (match ?x with _ => _ end) => destruct x
      end ].

Section Session.
Context {json : API}.

Lemma RcvMsg_run (r : Conn) (w : World) :
  exists m err, RcvMsg r w = (Done (m, err), after (RcvMsg r w), []).
Proof.
  unfold RcvMsg, bind, ReadAtLeast.
  destruct (Nat.leb 1 (List.length (rx w (sock r)))).
  - cbv beta iota zeta.
    match goal with
    | |- context [Nat.leb ?n (List.length ?l)] => destruct (Nat.leb n (List.length l))
    end.
    + cbn [ret]. destruct (Unmarshal _ _) as [m err]. now exists m, err.
    + now eexists _, _.
  - now eexists _, _.
Qed.

Lemma RcvMsg_got (r : Conn) (w : World) (m : Msg) (err : option error) :
  outcome (RcvMsg r w) = Done (m, err) ->
  RcvMsg r w = (Done (m, err), after (RcvMsg r w), []).
Proof.
  intros H. destruct (RcvMsg_run r w) as (m' & err' & E).
  rewrite E in H. cbn in H. injection H as <- <-. exact E.
Qed.

(** The loop returns a delay of 0 or 9. *)
Lemma serve_delay (fuel : nat) (fast : bool) (rconn : Conn) :
  yields (fun r => fst r = 0 \/ fst r = 9) (serve fuel fast rconn).
Proof.
  induction fuel as [|fuel IH]; cbn [serve]; yields_tac.
Qed.

Lemma SetDeadline_run (c : Conn) (t : Deadline) (w : World) :
  SetDeadline c t w =
  (Done (hd None (faults w)), set_faults (tl (faults w)) w,
   [EvSetDeadline c t (hd None (faults w))]).
Proof. reflexivity. Qed.

Lemma session_delay (fuel : nat) (c : Context) (fast : bool) (rconn : Conn)
      (w : World) (v : Z) (rc : Conn) (ro : bool) :
  outcome (session fuel c fast rconn w) = Done (v, rc, ro) ->
  match hd None (faults w) with
  | Some e =>
      v = 99 /\ ro = true /\
      events (session fuel c fast rconn w)
      = [EvSetDeadline rconn (NowAdd Minute) (Some e);
         EvLog WARNING "SetDeadline failed: %s" [AErr e]]
  | None => v = 0 \/ v = 9
  end.
Proof.
  unfold session.
  match goal with
  | |- outcome (bind ?c ?k w) = _ -> _ =>
      destruct (bind_Done c k w _ _ _ (SetDeadline_run rconn (NowAdd Minute) w))
        as (Ho & _ & He)
  end.
  rewrite Ho, He. clear Ho He.
  destruct (hd None (faults w)) as [e|].
  - cbn. intros H. injection H as <- _ <-. repeat split.
  - revert v rc ro.
    match goal with
    | |- forall v rc ro, outcome (?c ?w') = _ -> _ =>
        assert (Y : yields (fun r => fst (fst r) = 0 \/ fst (fst r) = 9) c)
    end.
    { repeat first
        [ apply yields_ret; auto
        | eapply yields_bind_with;
          [ apply (serve_delay fuel fast)
          | intros [d ro'] Hd; apply yields_ret; exact Hd ]
        | apply yields_bind; intros ?
        | match goal with
          | |- yields _ (match ?x with _ => _ end) => destruct x
          end ]. }
    intros v rc ro H. apply Y in H. exact H.
Qed.

Lemma SndMsg_done (c : Conn) (m : Msg) (w : World) :
  exists err,
    SndMsg c m w = (Done err, after (SndMsg c m w), events (SndMsg c m w)).
Proof.
  rewrite SndMsg_run. destruct (Marshal m) as [s [e|]]; eexists; reflexivity.
Qed.

(** What a session returns, and when it returns 99. *)
Lemma remote_cases (fuel : nat) (c : Context) (fast : bool) (w : World) (v : Z) :
  outcome (remote fuel c fast w) = Done v ->
  (v = 0 \/ v = 9) \/
  (v = 99 /\
   exists e,
     hd None (faults w) = None /\ hd None (tl (faults w)) = Some e /\
     In (EvSetDeadline (mkConn (next_sock w) TCPConn) (NowAdd Minute) (Some e))
        (events (remote fuel c fast w))).
Proof.
  unfold remote.
  destruct (hd None (faults w)) as [e|] eqn:D.
  - match goal with
    | |- outcome (bind ?d ?k w) = _ -> _ =>
        destruct (bind_Done d k w (inr e) (set_faults (tl (faults w)) w)
                    [EvDial "tcp" (raddr c) (inr e)]) as (Ho & _)
    end.
    { rewrite Dial_run, D. reflexivity. }
    rewrite Ho. cbn. intros H. injection H as <-. left. now right.
  - set (rconn := mkConn (next_sock w) TCPConn).
    set (w1 := set_next_sock (S (next_sock w)) (set_faults (tl (faults w)) w)).
    match goal with
    | |- outcome (bind ?d ?k w) = _ -> _ =>
        destruct (bind_Done d k w (inl rconn) w1
                    [EvDial "tcp" (raddr c) (inl rconn)]) as (Ho & _ & He)
    end.
    { rewrite Dial_run, D. reflexivity. }
    rewrite Ho, He. clear Ho He. cbv beta iota.
    pose proof (session_delay fuel c fast rconn w1) as Hs.
    pose proof (triple (session fuel c fast rconn w1)) as Ht.
    destruct (outcome (session fuel c fast rconn w1)) as [[[d rc] ro]| | |] eqn:So;
      try (unfold bind; rewrite Ht; discriminate).
    specialize (Hs d rc ro eq_refl).
    match goal with
    | |- outcome (bind ?s ?k w1) = _ -> _ =>
        destruct (bind_Done s k w1 _ _ _ Ht) as (Ho & _ & He)
    end.
    rewrite Ho, He. clear Ho He. cbv beta iota.
    assert (Hv : forall w2,
               outcome (((if ro then Close rc else ret tt) ;; ret d) w2) = Done d)
      by (intros w2; destruct ro; reflexivity).
    rewrite Hv. intros H. injection H as <-.
    change (faults w1) with (tl (faults w)) in Hs.
    destruct (hd None (tl (faults w))) as [e|].
    + destruct Hs as (-> & _ & Hev). right. split; [reflexivity|].
      exists e. repeat split. rewrite Hev. cbn. auto.
    + now left.
Qed.

(** C9. A session that returns, returns 0, 9 or 99, and it returns 99 only
    when the connection was dialed and the first setting of its deadline
    failed. *)
Theorem remote_returns_0_9_99
        (fuel : nat) (c : Context) (fast : bool) (w : World) (v : Z) :
  outcome (remote fuel c fast w) = Done v ->
  (v = 0 \/ v = 9 \/ v = 99) /\
  (v = 99 ->
   exists e,
     hd None (faults w) = None /\ hd None (tl (faults w)) = Some e /\
     In (EvSetDeadline (mkConn (next_sock w) TCPConn) (NowAdd Minute) (Some e))
        (events (remote fuel c fast w))).
Proof.
  intros H. apply remote_cases in H.
  destruct H as [[-> | ->] | [-> H]].
  - split; [auto|discriminate].
  - split; [auto|discriminate].
  - split; [auto|]. intros _. exact H.
Qed.


Lemma fast_spawns_app (l1 l2 : list Event) :
  fast_spawns (l1 ++ l2) = (fast_spawns l1 + fast_spawns l2)%nat.
Proof. unfold fast_spawns. now rewrite filter_app, length_app. Qed.

Lemma relaying_no_fast_spawn (l : list Event) :
  forallb relaying l = true -> fast_spawns l = 0%nat.
Proof.
  unfold fast_spawns. induction l as [|e l IH]; [reflexivity|].
  cbn [forallb filter]. intros H. apply andb_prop in H. destruct H as [He Hl].
  destruct e; try discriminate; cbn; auto.
  destruct t; try discriminate; cbn; auto.
Qed.

(** A handoff starts two fast sessions if the message has [Fast] set and
    none if it has not, whatever happens to the dial. *)
Lemma local_fast_spawns (c : Context) (m : Msg) (rconn : Conn) (w : World) :
  fast_spawns (events (local c m rconn w)) = (if Fast m then 2 else 0)%nat.
Proof.
  destruct (local_shape c m rconn w) as (w' & evs & tail & Hrun & -> & Hshape).
  rewrite Hrun. cbn [events snd]. rewrite fast_spawns_app.
  assert (Ht : fast_spawns tail = 0%nat).
  { destruct (hd None (faults w)) as [e|].
    - subst tail. reflexivity.
    - destruct Hshape as (w1 & w2 & evs & Hrelay & _ & ->).
      destruct (local_relay_shape rconn (mkConn (next_sock w) TCPConn) w1)
        as (w2' & evs' & Hrelay' & Hsh).
      rewrite Hrelay in Hrelay'. injection Hrelay' as _ <-.
      change (fast_spawns ([EvDial "tcp" (laddr c)
                              (inl (mkConn (next_sock w) TCPConn))]
                             ++ evs ++ [EvClose (mkConn (next_sock w) TCPConn);
                                        EvClose rconn]) = 0%nat).
      rewrite !fast_spawns_app.
      assert (He : fast_spawns evs = 0%nat).
      { destruct (hd None (faults w1)) as [e|].
        - subst evs. reflexivity.
        - destruct Hsh as (tail & -> & Hsh).
          destruct (snd (Marshal success)) as [e|]; [subst tail; reflexivity|].
          destruct (hd None (tl (faults w1))) as [e|]; [subst tail; reflexivity|].
          destruct Hsh as (relay & -> & Hrel).
          change (fast_spawns ([EvSetDeadline (mkConn (next_sock w) TCPConn)
                                  (NowAdd Minute) None;
                                EvWrite rconn (frame success) None] ++ relay)
                  = 0%nat).
          rewrite fast_spawns_app, (relaying_no_fast_spawn _ Hrel). reflexivity. }
      rewrite He. reflexivity. }
  rewrite Ht. unfold local_head. destruct (Fast m); reflexivity.
Qed.

(** C1, amended. On every [start] message the promotion starts one fast
    session if the session that received it is a fast one and none if it is
    a slow one, whatever the [Fast] field of the message; the handoff
    starts two fast sessions if the message has [Fast] set and none if it
    has not; a fast session that receives [Fast] set thus gives three. *)
Theorem start_spawns (fuel : nat) (c : Context) (fast : bool) (rconn : Conn)
        (w : World) (m : Msg) :
  outcome (RcvMsg rconn w) = Done (m, None) ->
  Type_ m = "start" ->
  let promotion := serve (S fuel) fast rconn w in
  outcome promotion = Done (0, false) /\
  events promotion
  = EvGo (TaskLocal m rconn) :: (if fast then [EvGo (TaskRemote true)] else []) /\
  fast_spawns (events promotion) = (if fast then 1 else 0)%nat /\
  (forall wl : World,
      fast_spawns (events (local c m rconn wl)) = (if Fast m then 2 else 0)%nat) /\
  (fast = true -> Fast m = true ->
   forall wl : World,
     (fast_spawns (events promotion)
      + fast_spawns (events (local c m rconn wl)) = 3)%nat).
Proof.
  intros Hrcv Hty promotion.
  apply RcvMsg_got in Hrcv.
  assert (Hp : outcome promotion = Done (0, false) /\
               events promotion
               = EvGo (TaskLocal m rconn)
                   :: (if fast then [EvGo (TaskRemote true)] else [])).
  { subst promotion. cbn [serve].
    match goal with
    | |- outcome (bind ?r ?k w) = _ /\ _ =>
        destruct (bind_Done r k w _ _ _ Hrcv) as (Ho & _ & He)
    end.
    rewrite Ho, He. cbv beta iota. rewrite Hty.
    destruct fast; split; reflexivity. }
  destruct Hp as [Ho He].
  assert (Hn : fast_spawns (events promotion) = (if fast then 1 else 0)%nat)
    by (rewrite He; destruct fast; reflexivity).
  repeat split; try assumption.
  - intros wl. apply local_fast_spawns.
  - intros -> Hf wl. rewrite Hn, local_fast_spawns, Hf. reflexivity.
Qed.

(** C5, amended. A fast session that receives [keepalive] sends
    [info TIMEOUT] and returns 0, whether the message went out or not.  A
    slow session sends [keepalive]; if that succeeds it sets the deadline
    anew, and if that succeeds too it goes on with the loop, awaiting the
    next message; if either fails it returns 9. *)
Theorem keepalive_dispatch (fuel : nat) (rconn : Conn) (w : World) (m : Msg) :
  outcome (RcvMsg rconn w) = Done (m, None) ->
  Type_ m = "keepalive" ->
  let w1 := after (RcvMsg rconn w) in
  let dbg := EvLog DEBUG "Received KEEPALIVE" [] in
  let timeout := SndMsg rconn (mkMsg "info" "TIMEOUT" 0 [] false "") w1 in
  let reply := SndMsg rconn (mkMsg "keepalive" "" 0 [] false "") w1 in
  let refresh := SetDeadline rconn (NowAdd Minute) (after reply) in
  (outcome (serve (S fuel) true rconn w) = Done (0, true) /\
   exists logs,
     events (serve (S fuel) true rconn w) = dbg :: events timeout ++ logs /\
     forallb is_log logs = true) /\
  (exists rest,
     events (serve (S fuel) false rconn w) = dbg :: events reply ++ rest) /\
  (outcome reply = Done None -> outcome refresh = Done None ->
   outcome (serve (S fuel) false rconn w)
   = outcome (serve fuel false rconn (after refresh)) /\
   events (serve (S fuel) false rconn w)
   = dbg :: events reply ++ events refresh
         ++ events (serve fuel false rconn (after refresh))) /\
  (outcome reply <> Done None \/ outcome refresh <> Done None ->
   outcome (serve (S fuel) false rconn w) = Done (9, true)).
Proof.
  intros Hrcv Hty w1 dbg timeout reply refresh.
  apply RcvMsg_got in Hrcv. fold w1 in Hrcv.
  assert (Hstep : forall fast,
             let body :=
               (if fast : bool then
                  err <- SndMsg rconn (mkMsg "info" "TIMEOUT" 0 [] false "") ;;
                  match err with
                  | Some e => Warningf "Failed to send TIMEOUT: %s" [AErr e]
                  | None => ret tt
                  end ;;
                  ret (0, true)
                else
                  err <- SndMsg rconn (mkMsg "keepalive" "" 0 [] false "") ;;
                  match err with
                  | Some e =>
                      Warningf "Failed to send KEEPALIVE: %s" [AErr e] ;;
                      ret (9, true)
                  | None =>
                      err <- SetDeadline rconn (NowAdd Minute) ;;
                      match err with
                      | Some e =>
                          Warningf "SetDeadline failed: %s" [AErr e] ;;
                          ret (9, true)
                      | None => serve fuel false rconn
                      end
                  end) w1 in
             outcome (serve (S fuel) fast rconn w) = outcome body /\
             events (serve (S fuel) fast rconn w) = dbg :: events body).
  { intros fast. cbn [serve].
    match goal with
    | |- outcome (bind ?r ?k w) = _ /\ _ =>
        destruct (bind_Done r k w _ _ _ Hrcv) as (Ho & _ & He)
    end.
    rewrite Ho, He. cbv beta iota. rewrite Hty.
    cbn [String.eqb Ascii.eqb Bool.eqb andb]. cbv beta iota.
    match goal with
    | |- outcome (bind ?d ?k w1) = _ /\ _ =>
        destruct (bind_Done d k w1 tt w1 [dbg] eq_refl) as (Ho' & _ & He')
    end.
    rewrite Ho', He'. destruct fast; split; reflexivity. }
  destruct (Hstep true) as [Hot Het]. destruct (Hstep false) as [Hof Hef].
  rewrite Hot, Het, Hof, Hef. clear Hstep Hot Het Hof Hef.
  destruct (SndMsg_done rconn (mkMsg "info" "TIMEOUT" 0 [] false "") w1)
    as (terr & Htimeout).
  destruct (SndMsg_done rconn (mkMsg "keepalive" "" 0 [] false "") w1)
    as (rerr & Hreply).
  fold timeout in Htimeout. fold reply in Hreply.
  split; [|split; [|split]].
  - match goal with
    | |- outcome (bind ?s ?k w1) = _ /\ _ =>
        destruct (bind_Done s k w1 _ _ _ Htimeout) as (Ho & _ & He)
    end.
    rewrite Ho, He.
    destruct terr; (split; [reflexivity|]); eexists; (split; [reflexivity|]);
      reflexivity.
  - match goal with
    | |- exists rest, dbg :: events (bind ?s ?k w1) = _ =>
        destruct (bind_Done s k w1 _ _ _ Hreply) as (_ & _ & He)
    end.
    rewrite He. eexists. reflexivity.
  - intros Hr Hf.
    match goal with
    | |- outcome (bind ?s ?k w1) = _ /\ _ =>
        destruct (bind_Done s k w1 _ _ _ Hreply) as (Ho & _ & He)
    end.
    rewrite Ho, He. rewrite Hreply in Hr. cbn in Hr. injection Hr as ->.
    match goal with
    | |- outcome (bind ?s ?k ?w2) = _ /\ _ =>
        destruct (bind_Done s k w2 _ _ _ (SetDeadline_run rconn (NowAdd Minute) w2))
          as (Ho' & _ & He')
    end.
    rewrite Ho', He'.
    unfold refresh in Hf |- *. rewrite SetDeadline_run in Hf |- *.
    cbn in Hf. injection Hf as Hf. rewrite Hf.
    cbn [outcome after events fst snd]. split; reflexivity.
  - intros Hfail.
    match goal with
    | |- outcome (bind ?s ?k w1) = _ =>
        destruct (bind_Done s k w1 _ _ _ Hreply) as (Ho & _ & _)
    end.
    rewrite Ho. rewrite Hreply in Hfail. cbn [outcome fst] in Hfail.
    destruct rerr as [e|]; [reflexivity|].
    destruct Hfail as [Hfail|Hfail]; [congruence|].
    match goal with
    | |- outcome (bind ?s ?k ?w2) = _ =>
        destruct (bind_Done s k w2 _ _ _ (SetDeadline_run rconn (NowAdd Minute) w2))
          as (Ho' & _ & _)
    end.
    rewrite Ho'. unfold refresh in Hfail. rewrite SetDeadline_run in Hfail.
    cbn [outcome fst] in Hfail.
    destruct (hd None (faults (after reply))) as [e|]; [reflexivity|congruence].
Qed.

End Session.

Section Fuel.
Context {json : API}.

Lemma length_rx_set_stream (s : nat) (bs : list byte) (w : World) :
  List.length (rx (set_stream s bs w) s) = List.length bs.
Proof. now rewrite rx_set_stream. Qed.

(** A message received takes at least its length byte off the stream. *)
Lemma RcvMsg_consumes (r : Conn) (w : World) (m : Msg) :
  outcome (RcvMsg r w) = Done (m, None) ->
  (List.length (rx (after (RcvMsg r w)) (sock r)) < List.length (rx w (sock r)))%nat.
Proof.
  unfold RcvMsg, bind, ReadAtLeast.
  destruct (Nat.leb 1 (List.length (rx w (sock r)))) eqn:L1; [|discriminate].
  apply Nat.leb_le in L1. cbv beta iota zeta.
  rewrite rx_set_stream.
  match goal with
  | |- context [Nat.leb ?n (List.length ?l)] =>
      destruct (Nat.leb n (List.length l)) eqn:L2; [|discriminate]
  end.
  cbn [ret]. destruct (Unmarshal _ _) as [m' err]. cbn -[set_stream skipn].
  intros _. rewrite rx_set_stream, !length_skipn. lia.
Qed.

Lemma SndMsg_rx (c : Conn) (m : Msg) (w : World) :
  rx (after (SndMsg c m w)) = rx w.
Proof. rewrite SndMsg_run. destruct (Marshal m) as [s [e|]]; reflexivity. Qed.

(** With more fuel than bytes to come, the loop comes to an end. *)
Lemma serve_ends (fuel : nat) (fast : bool) (rconn : Conn) (w : World) :
  (List.length (rx w (sock rconn)) < fuel)%nat ->
  outcome (serve fuel fast rconn w) <> Running.
Proof.
  revert w. induction fuel as [|fuel IH]; intros w Hlen; [lia|].
  cbn [serve].
  destruct (RcvMsg_run rconn w) as (m & err & Hrcv).
  match goal with
  | |- outcome (bind ?r ?k w) <> _ =>
      destruct (bind_Done r k w _ _ _ Hrcv) as (Ho & _)
  end.
  rewrite Ho. clear Ho. cbv beta iota.
  destruct err as [e|]; [discriminate|].
  assert (Hless : (List.length (rx (after (RcvMsg rconn w)) (sock rconn)) < fuel)%nat).
  { assert (Hout : outcome (RcvMsg rconn w) = Done (m, None))
      by (rewrite Hrcv; reflexivity).
    apply RcvMsg_consumes in Hout. lia. }
  set (w1 := after (RcvMsg rconn w)) in *.
  destruct (Type_ m =? "start")%string.
  { destruct fast; discriminate. }
  destruct (Type_ m =? "keepalive")%string.
  { match goal with
    | |- outcome (bind ?d ?k w1) <> _ =>
        destruct (bind_Done d k w1 tt w1 _ eq_refl) as (Ho & _)
    end.
    rewrite Ho. clear Ho.
    destruct fast.
    - destruct (SndMsg_done rconn (mkMsg "info" "TIMEOUT" 0 [] false "") w1)
        as (terr & Ht).
      match goal with
      | |- outcome (bind ?s ?k w1) <> _ =>
          destruct (bind_Done s k w1 _ _ _ Ht) as (Ho & _)
      end.
      rewrite Ho. destruct terr; discriminate.
    - destruct (SndMsg_done rconn (mkMsg "keepalive" "" 0 [] false "") w1)
        as (rerr & Hr).
      match goal with
      | |- outcome (bind ?s ?k w1) <> _ =>
          destruct (bind_Done s k w1 _ _ _ Hr) as (Ho & _)
      end.
      rewrite Ho. clear Ho.
      destruct rerr as [e|]; [discriminate|].
      match goal with
      | |- outcome (bind ?s ?k ?w2) <> _ =>
          destruct (bind_Done s k w2 _ _ _ (SetDeadline_run rconn (NowAdd Minute) w2))
            as (Ho & _)
      end.
      rewrite Ho. clear Ho.
      destruct (hd None (faults _)) as [e|]; [discriminate|].
      apply IH. cbn [rx set_faults]. rewrite SndMsg_rx. exact Hless. }
  destruct (Type_ m =? "debug")%string; [discriminate|].
  destruct (Type_ m =? "info")%string; [discriminate|].
  destruct (Type_ m =? "warning")%string; [discriminate|].
  destruct (Type_ m =? "error")%string; [discriminate|].
  match goal with
  | |- outcome (bind ?d ?k w1) <> _ =>
      destruct (bind_Done d k w1 tt w1 _ eq_refl) as (Ho & _)
  end.
  rewrite Ho. apply IH. exact Hless.
Qed.

(** A session given more fuel than the server sends bytes returns or
    makes the process exit. *)
Lemma remote_ends (fuel : nat) (c : Context) (fast : bool) (w : World) :
  (List.length (rx w (next_sock w)) < fuel)%nat ->
  outcome (remote fuel c fast w) <> Running.
Proof.
  intros Hlen. unfold remote.
  destruct (hd None (faults w)) as [e|] eqn:D.
  - match goal with
    | |- outcome (bind ?d ?k w) <> _ =>
        destruct (bind_Done d k w (inr e) (set_faults (tl (faults w)) w)
                    [EvDial "tcp" (raddr c) (inr e)]) as (Ho & _)
    end.
    { rewrite Dial_run, D. reflexivity. }
    rewrite Ho. discriminate.
  - set (rconn := mkConn (next_sock w) TCPConn).
    set (w1 := set_next_sock (S (next_sock w)) (set_faults (tl (faults w)) w)).
    match goal with
    | |- outcome (bind ?d ?k w) <> _ =>
        destruct (bind_Done d k w (inl rconn) w1
                    [EvDial "tcp" (raddr c) (inl rconn)]) as (Ho & _)
    end.
    { rewrite Dial_run, D. reflexivity. }
    rewrite Ho. clear Ho. cbv beta iota.
    assert (Hs : outcome (session fuel c fast rconn w1) <> Running).
    { unfold session.
      match goal with
      | |- outcome (bind ?s ?k w1) <> _ =>
          destruct (bind_Done s k w1 _ _ _ (SetDeadline_run rconn (NowAdd Minute) w1))
            as (Ho & _)
      end.
      rewrite Ho. clear Ho.
      destruct (hd None (faults w1)) as [e|]; [discriminate|].
      set (w2 := set_faults (tl (faults w1)) w1).
      assert (Hrest : forall (conn : Conn) (w3 : World),
                 sock conn = next_sock w -> rx w3 = rx w ->
                 outcome
                   ((err <- SndMsg conn (mkMsg "listen" "" (port c) (key c) false "") ;;
                     match err with
                     | Some e =>
                         Warningf "Failed to send port number: %s" [AErr e] ;;
                         ret (9, conn, true)
                     | None =>
                         '(delay, ropen) <- serve fuel fast conn ;;
                         ret (delay, conn, ropen)
                     end) w3) <> Running).
      { intros conn w3 Hsock Hrx.
        destruct (SndMsg_done conn (mkMsg "listen" "" (port c) (key c) false "") w3)
          as (lerr & Hl).
        match goal with
        | |- outcome (bind ?s ?k w3) <> _ =>
            destruct (bind_Done s k w3 _ _ _ Hl) as (Ho & _)
        end.
        rewrite Ho. clear Ho.
        destruct lerr as [e|]; [discriminate|].
        pose proof (serve_ends fuel fast conn (after (SndMsg conn
                      (mkMsg "listen" "" (port c) (key c) false "") w3))) as He.
        rewrite SndMsg_rx, Hrx, Hsock in He. specialize (He Hlen).
        pose proof (triple (serve fuel fast conn (after (SndMsg conn
                      (mkMsg "listen" "" (port c) (key c) false "") w3)))) as Ht.
        destruct (outcome (serve fuel fast conn _)) as [[d ro]| | |] eqn:So;
          unfold bind; rewrite Ht; try discriminate.
        contradiction. }
      match goal with
      | |- outcome (bind ?n ?k w2) <> _ =>
          assert (Hn : exists err conn w3 evs,
                     n w2 = (Done (err, conn), w3, evs) /\
                     (err = None -> sock conn = next_sock w /\ rx w3 = rx w));
            [|destruct Hn as (err & conn & w3 & evs & Hn & Hconn);
              destruct (bind_Done n k w2 _ _ _ Hn) as (Ho & _);
              rewrite Ho; clear Ho]
      end.
      { destruct (tlsConfig c) as [config|].
        - destruct (hd None (faults w2)) as [e|] eqn:D2.
          + do 4 eexists. split.
            * eapply seg_last; [reflexivity|]. rewrite D2. reflexivity.
            * discriminate.
          + assert (R : tls_resumed (set_faults (tl (faults w2)) w2)
                        = tls_resumed w) by reflexivity.
            destruct (tls_resumed w); do 4 eexists;
              (split;
               [ eapply seg_last; [reflexivity|]; rewrite D2; cbv beta iota;
                 eapply seg_last; [reflexivity|]; cbv beta iota;
                 rewrite R; reflexivity
               | intros _; split; reflexivity ]).
        - do 4 eexists. split; [reflexivity|]. intros _. split; reflexivity. }
      cbv beta iota. destruct err as [e|]; [discriminate|].
      destruct (Hconn eq_refl) as [Hsock Hrx].
      apply Hrest; assumption. }
    pose proof (triple (session fuel c fast rconn w1)) as Ht.
    destruct (outcome (session fuel c fast rconn w1)) as [[[d rc] ro]| | |] eqn:So;
      unfold bind; rewrite Ht; try discriminate; [|contradiction].
    destruct ro; discriminate.
Qed.

End Fuel.

(** ** The workers *)

Section Workers.
Context {json : API}.

(** C3, amended. After a session that returned the hint N, not 0, the
    worker sleeps [1000 + r] milliseconds, [r] being [rand.Intn(1000 * N)]:
    at least one second and less than N + 1 seconds (after a failed dial,
    less than 10 seconds); each whole millisecond of that interval is the
    sleep for exactly one value of the draw. *)
Theorem worker_backoff (fuel : nat) (c : Context) (w : World) (N : Z) :
  outcome (remote fuel c false w) = Done N ->
  N <> 0 ->
  let w1 := after (remote fuel c false w) in
  let r := hd 0 (draws w1) mod (N * 1000) in
  outcome (worker_turn fuel c w) = Done tt /\
  events (worker_turn fuel c w)
  = events (remote fuel c false w) ++ [EvSleep ((1000 + r) * Millisecond)] /\
  0 <= r < N * 1000 /\
  1 * Second <= (1000 + r) * Millisecond < (N + 1) * Second /\
  (forall ms, 1000 <= ms < (N + 1) * 1000 ->
     exists k, 0 <= k < N * 1000 /\ 1000 + k = ms /\
               forall k', 1000 + k' = ms -> k' = k).
Proof.
  intros Hrun HN w1 r.
  pose proof (remote_cases fuel c false w N Hrun) as HNv.
  assert (HN' : N = 9 \/ N = 99) by (destruct HNv as [[?|?]|[? _]]; auto; contradiction).
  assert (Hr : 0 <= r < N * 1000) by (apply Z.mod_pos_bound; lia).
  pose proof (triple (remote fuel c false w)) as Ht.
  rewrite Hrun in Ht. fold w1 in Ht.
  unfold worker_turn.
  match goal with
  | |- outcome (bind ?s ?k w) = _ /\ _ =>
      destruct (bind_Done s k w _ _ _ Ht) as (Ho & _ & He)
  end.
  rewrite Ho, He. clear Ho He. cbv beta.
  assert (Hz : (N =? 0) = false) by (apply Z.eqb_neq; exact HN).
  rewrite Hz.
  assert (Hw : wrap64 (N * 1000) = N * 1000)
    by (destruct HN' as [-> | ->]; reflexivity).
  rewrite Hw.
  assert (Hi : Intn (N * 1000) w1 = (Done r, set_draws (tl (draws w1)) w1, [])).
  { unfold Intn. destruct (N * 1000 <=? 0) eqn:E; [|reflexivity].
    apply Z.leb_le in E. lia. }
  match goal with
  | |- outcome (bind ?s ?k w1) = _ /\ _ =>
      destruct (bind_Done s k w1 _ _ _ Hi) as (Ho & _ & He)
  end.
  rewrite Ho, He. clear Ho He. cbv beta zeta.
  assert (Hmax : max_int64 = 9223372036854775807) by reflexivity.
  rewrite (wrap64_small (1000 + r)) by lia.
  rewrite (wrap64_small ((1000 + r) * Millisecond)) by (unfold Millisecond; lia).
  unfold Second, Millisecond.
  repeat split; try lia.
  intros ms Hms. exists (ms - 1000). repeat split; lia.
Qed.

End Workers.

(** ** Startup *)

Section StartupFacts.
Context {json : API}.
Variable LookupPort : string -> string -> Z * option error.
Variable DecodeString : string -> list byte * option error.

(** With a key that does not decode to 6 bytes [GetContext] logs one error
    and exits. *)
Lemma GetContext_short_key (f : Flags) (w : World) (k : list byte) :
  DecodeString (value "" (flag_k f)) = (k, None) ->
  List.length k <> 6%nat ->
  exists code format args,
    GetContext LookupPort DecodeString f w
    = (Exited code, w, [EvLog ERROR format args]) /\ code <> 0.
Proof.
  intros Hk Hlen. unfold GetContext.
  destruct (flag_r f) as [r|]; cbn [seen value];
    [|do 3 eexists; split; [reflexivity|discriminate]].
  destruct (flag_k f) as [ks|]; cbn [seen value] in *;
    [|do 3 eexists; split; [reflexivity|discriminate]].
  destruct (LookupPort "tcp" (last (Split r ":") "")) as [p [e|]];
    [do 3 eexists; split; [reflexivity|discriminate]|].
  rewrite Hk.
  apply Nat.eqb_neq in Hlen.
  unfold bind at 1 2. cbn [ret]. cbv beta iota. rewrite Hlen. cbn [negb].
  do 3 eexists; split; [reflexivity|discriminate].
Qed.

(** C8. A key that decodes to a number of bytes other than 6 makes the
    process log an error and exit with a code other than 0 before it has
    dialed or started any goroutine; and a context is only ever made with
    the 6 bytes the key decodes to. *)
Theorem key_of_6_bytes_or_exit (f : Flags) (turns fuel : nat) (w : World) :
  (forall k : list byte,
      DecodeString (value "" (flag_k f)) = (k, None) ->
      List.length k <> 6%nat ->
      let r := main LookupPort DecodeString turns fuel f w in
      (exists code, outcome r = Exited code /\ code <> 0) /\
      forallb is_log (events r) = true) /\
  (forall c : Context,
      outcome (GetContext LookupPort DecodeString f w) = Done c ->
      DecodeString (value "" (flag_k f)) = (key c, None) /\
      List.length (key c) = 6%nat).
Proof.
  split.
  - intros k Hk Hlen r.
    destruct (GetContext_short_key f w k Hk Hlen)
      as (code & format & args & Hrun & Hcode).
    subst r. unfold main, bind. rewrite Hrun. cbn.
    split; [exists code; split; [reflexivity|exact Hcode]|reflexivity].
  - intros c. unfold GetContext.
    destruct (flag_r f) as [r|]; cbn [seen value]; [|discriminate].
    destruct (flag_k f) as [ks|]; cbn [seen value]; [|discriminate].
    destruct (LookupPort "tcp" (last (Split r ":") "")) as [p [e|]];
      [discriminate|].
    destruct (DecodeString ks) as [k [e|]]; [discriminate|].
    unfold bind at 1 2. cbn [ret]. cbv beta iota.
    destruct (Nat.eqb (List.length k) 6) eqn:E; cbn [negb]; [|discriminate].
    cbn. intros H. injection H as <-. cbn [key].
    apply Nat.eqb_eq in E. split; [reflexivity|exact E].
Qed.

End StartupFacts.

(** ** The theorems on the scenarios *)

(** A slow session that receives [start] with [Fast] set starts no fast
    session at the promotion: C1 as stated fails. *)
Lemma promotion_follows_message_fails :
  ~ promotion_follows_message (json := Reference.ConfigFastest).
Proof.
  intros H.
  specialize (H 0%nat false rendezvous (scenario [] start_fast_frame [])
                start_fast).
  vm_compute in H. specialize (H eq_refl eq_refl). discriminate.
Qed.

(** A fast session that receives [start] with [Fast] set: one fast session
    from the promotion, two from the handoff. *)
Lemma start_spawns_witness :
  (fast_spawns (events (serve (json := Reference.ConfigFastest) 1 true rendezvous
                          (scenario [] start_fast_frame [])))
   + fast_spawns (events (local (json := Reference.ConfigFastest)
                            scenario_context start_fast rendezvous quiet)) = 3)%nat.
Proof.
  apply (start_spawns (json := Reference.ConfigFastest) 0 scenario_context true
           rendezvous (scenario [] start_fast_frame []) start_fast).
  - vm_compute. reflexivity.
  - reflexivity.
  - reflexivity.
  - reflexivity.
Defined.

(** After a refused dial (hint 9) and the draw 8999 the worker sleeps
    9.999 seconds: C3 as stated fails. *)
Lemma backoff_within_hint_fails :
  ~ backoff_within_hint (json := Reference.ConfigFastest).
Proof.
  intros H.
  specialize (H 0%nat scenario_context
                (scenario [Some (ErrNet "connection refused")] [] [8999])
                9 9999000000).
  assert (Hd : 1 * Second <= 9999000000 <= 9 * Second).
  { apply H.
    - vm_compute. reflexivity.
    - discriminate.
    - vm_compute. auto. }
  unfold Second in Hd. lia.
Qed.

Lemma worker_backoff_witness :
  events (worker_turn (json := Reference.ConfigFastest) 0 scenario_context
            (scenario [Some (ErrNet "connection refused")] [] [8999]))
  = events (remote (json := Reference.ConfigFastest) 0 scenario_context false
              (scenario [Some (ErrNet "connection refused")] [] [8999]))
      ++ [EvSleep (9999 * Millisecond)].
Proof.
  apply (worker_backoff (json := Reference.ConfigFastest) 0 scenario_context
           (scenario [Some (ErrNet "connection refused")] [] [8999]) 9).
  - vm_compute. reflexivity.
  - discriminate.
Defined.

(** A slow session whose reply to [keepalive] cannot be written returns 9
    at once: C5 as stated fails. *)
Lemma slow_keepalive_stays_fails :
  ~ slow_keepalive_stays (json := Reference.ConfigFastest).
Proof.
  intros H.
  specialize (H rendezvous
                (scenario [Some (ErrNet "broken pipe")] keepalive_frame [])
                keepalive).
  vm_compute in H. specialize (H eq_refl eq_refl). discriminate.
Qed.

(** A fast session that receives [keepalive] returns 0. *)
Lemma keepalive_dispatch_witness :
  outcome (serve (json := Reference.ConfigFastest) 1 true rendezvous
             (scenario [] keepalive_frame []))
  = Done (0, true).
Proof.
  apply (keepalive_dispatch (json := Reference.ConfigFastest) 0 rendezvous
           (scenario [] keepalive_frame []) keepalive).
  - vm_compute. reflexivity.
  - reflexivity.
Defined.

(** A session whose first deadline cannot be set returns 99. *)
Lemma remote_returns_0_9_99_witness :
  (99 = 0 \/ 99 = 9 \/ 99 = 99) /\
  (99 = 99 ->
   exists e,
     hd None (faults (scenario [None; Some ErrTimeout] [] [])) = None /\
     hd None (tl (faults (scenario [None; Some ErrTimeout] [] []))) = Some e /\
     In (EvSetDeadline (mkConn 0 TCPConn) (NowAdd Minute) (Some e))
        (events (remote (json := Reference.ConfigFastest) 0 scenario_context false
                   (scenario [None; Some ErrTimeout] [] [])))).
Proof.
  apply (remote_returns_0_9_99 (json := Reference.ConfigFastest) 0
           scenario_context false (scenario [None; Some ErrTimeout] [] []) 99).
  vm_compute. reflexivity.
Defined.

(** Sessions that return 0 and 9: scenario A up to the promotion, and a
    server that stays silent until the deadline. *)
Example remote_returns_0 :
  outcome (remote (json := Reference.ConfigFastest) 1 scenario_context false
             (scenario [] start_fast_frame []))
  = Done 0.
Proof. vm_compute. reflexivity. Qed.

Example remote_returns_9 :
  outcome (remote (json := Reference.ConfigFastest) 1 scenario_context false
             (scenario [] [] []))
  = Done 9.
Proof. vm_compute. reflexivity. Qed.

(** Scenario B: the server answers [listen] with [error]; the process
    exits with code 1. *)
Example remote_exits_on_error :
  outcome (remote (json := Reference.ConfigFastest) 1 scenario_context false
             (scenario []
                (frame (json := Reference.ConfigFastest)
                   (mkMsg "error" "bad key" 0 [] false "")) []))
  = Exited 1.
Proof. vm_compute. reflexivity. Qed.

(** A handoff whose dial of the local service is refused. *)
Lemma success_after_local_ready_witness :
  no_writes (events (local (json := Reference.ConfigFastest) scenario_context
                       start_fast rendezvous
                       (scenario [Some (ErrNet "connection refused")] [] [])))
  = true /\
  In (EvClose rendezvous)
     (events (local (json := Reference.ConfigFastest) scenario_context
                start_fast rendezvous
                (scenario [Some (ErrNet "connection refused")] [] []))).
Proof.
  destruct (success_after_local_ready (json := Reference.ConfigFastest)
              scenario_context start_fast rendezvous
              (scenario [Some (ErrNet "connection refused")] [] []))
    as (_ & _ & Hdial & _).
  destruct (Hdial (ErrNet "connection refused") eq_refl) as (_ & Hw & Hc).
  split; assumption.
Defined.

(** The key [AQID] decodes to 3 bytes: the process logs an error and
    exits with a code other than 0. *)
Lemma key_of_6_bytes_or_exit_witness :
  let r := main (json := Reference.ConfigFastest)
             Reference.LookupPort Reference.DecodeString 1 1
             (mkFlags (Some "rendezvous.example:8080") None (Some "AQID") None None)
             quiet in
  (exists code, outcome r = Exited code /\ code <> 0) /\
  forallb is_log (events r) = true.
Proof.
  apply (key_of_6_bytes_or_exit (json := Reference.ConfigFastest)
           Reference.LookupPort Reference.DecodeString
           (mkFlags (Some "rendezvous.example:8080") None (Some "AQID") None None)
           1 1 quiet) with (k := [x01; x02; x03]).
  - vm_compute. reflexivity.
  - discriminate.
Defined.


(** * Further properties of the code *)

(** ** The codec *)

Section CodecMore.

Context {json : API}.

Lemma bind_run_eq {A B} (c : M A) (k : A -> M B) w a w1 e1 :
  c w = (Done a, w1, e1) ->
  bind c k w = (outcome (k a w1), after (k a w1), e1 ++ events (k a w1)).
Proof.
  intros H. unfold bind. rewrite H. now destruct (k a w1) as [[o w2] e2].
Qed.

(** X1. When [RcvMsg] gives a message without an error, the stream began
    with a whole frame: a length byte, that many bytes of payload which
    [Unmarshal] parsed into the message, and then the rest, which is left
    unread; no other stream, no outcome of a later call is touched, and
    nothing is written. *)
Theorem RcvMsg_reads_one_frame (r : Conn) (w : World) (m : Msg) :
  outcome (RcvMsg r w) = Done (m, None) ->
  exists (b : byte) (serialized : list byte),
    rx w (sock r) = b :: serialized ++ rx (after (RcvMsg r w)) (sock r) /\
    List.length serialized = nat_of_byte b /\
    Unmarshal serialized zeroMsg = (m, None) /\
    (forall s, s <> sock r -> rx (after (RcvMsg r w)) s = rx w s) /\
    faults (after (RcvMsg r w)) = faults w /\
    events (RcvMsg r w) = [].
Proof.
  unfold RcvMsg, bind, ReadAtLeast.
  destruct (rx w (sock r)) as [|b rest] eqn:Hrx; cbn [List.length Nat.leb];
    [discriminate|].
  cbv beta iota zeta. rewrite rx_set_stream. cbn [firstn skipn hd].
  destruct (Nat.leb (nat_of_byte b) (List.length rest)) eqn:L; [|discriminate].
  apply Nat.leb_le in L. cbn [ret].
  destruct (Unmarshal (firstn (nat_of_byte b) rest) zeroMsg) as [m' err] eqn:U.
  cbn -[set_stream firstn skipn]. intros H. injection H as -> ->.
  exists b, (firstn (nat_of_byte b) rest).
  rewrite rx_set_stream, firstn_skipn.
  split; [reflexivity|]. split; [rewrite length_firstn; lia|].
  split; [exact U|]. split; [|split; reflexivity].
  intros s Hs. unfold set_stream. cbn.
  apply Nat.eqb_neq in Hs. now rewrite !Hs.
Qed.

(** X2. A stream that ends before the frame it began is complete (no
    length byte at all, or fewer payload bytes than the length byte says)
    makes [RcvMsg] return the zero message with an error, [Unmarshal] not
    being called: the error of the stream, or [io.ErrUnexpectedEOF] when
    the stream ended cleanly inside the payload. *)
Theorem RcvMsg_truncated (r : Conn) (w : World) :
  (List.length (rx w (sock r))
   < 1 + nat_of_byte (hd x00 (rx w (sock r))))%nat ->
  exists e,
    outcome (RcvMsg r w) = Done (zeroMsg, Some e) /\
    rx (after (RcvMsg r w)) (sock r) = [] /\
    e = match tl (rx w (sock r)), rx_err w (sock r) with
        | _ :: _, EOF => ErrUnexpectedEOF
        | _, e' => e'
        end.
Proof.
  unfold RcvMsg, bind, ReadAtLeast.
  destruct (rx w (sock r)) as [|b rest] eqn:Hrx; cbn [List.length Nat.leb hd tl].
  - intros _. eexists. cbn -[set_stream]. rewrite rx_set_stream.
    repeat split.
  - intros Hlen. cbv beta iota zeta. rewrite rx_set_stream. cbn [firstn skipn hd].
    destruct (Nat.leb (nat_of_byte b) (List.length rest)) eqn:L.
    + apply Nat.leb_le in L. lia.
    + eexists. cbn -[set_stream]. rewrite rx_set_stream.
      assert (Hk : rx_err (set_stream (sock r) rest w) (sock r) = rx_err w (sock r))
        by reflexivity.
      rewrite Hk. repeat split.
Qed.

(** Reading a frame that is followed by more of the stream. *)
Lemma RcvMsg_frame (r : Conn) (w : World) (m : Msg) (rest : list byte) :
  valid m ->
  (List.length (payload m) <= 255)%nat ->
  rx w (sock r) = frame m ++ rest ->
  exists w1,
    RcvMsg r w = (Done (m, None), w1, []) /\
    rx w1 (sock r) = rest /\ faults w1 = faults w.
Proof.
  intros [Hm Hu] Hlen Hrx. unfold frame in Hrx. cbn [app] in Hrx.
  exists (set_stream (sock r) rest (set_stream (sock r) (payload m ++ rest) w)).
  split; [|split; [apply rx_set_stream|reflexivity]].
  unfold RcvMsg.
  rewrite (bind_run_eq _ _ w _ _ _
             (ReadAtLeast_enough r 1 w [byte_of_nat (List.length (payload m))]
                (payload m ++ rest) Hrx eq_refl)).
  cbv beta iota. cbn [hd].
  rewrite nat_of_byte_of_nat_small by exact Hlen.
  rewrite (bind_run_eq _ _ _ _ _ _
             (ReadAtLeast_enough r _ _ (payload m) rest
                (rx_set_stream _ _ _) eq_refl)).
  cbv beta iota. rewrite Hu. reflexivity.
Qed.

End CodecMore.


(** ** The session *)

Ltac runs :=
  cbn [outcome events after fst snd bind Warningf Debugf Infof Errorf emit
       ret Exit app].

Ltac list_eq :=
  repeat first [progress cbn [app] | rewrite <- app_assoc | rewrite app_nil_r];
  reflexivity.

(** The events have no handoff at their end. *)
Ltac untailed :=
  match goal with
  | |- exists pre tail, ?E = pre ++ tail /\ _ =>
      exists E, []; split; [symmetry; apply app_nil_r|];
      split; [|right; split; [reflexivity|]]
  end.

Section SessionMore.

Context {json : API}.

Lemma conn_eqb_refl (c : Conn) : conn_eqb c c = true.
Proof. unfold conn_eqb. rewrite Nat.eqb_refl. now destruct (kind c). Qed.

Lemma SndMsg_serving (c : Conn) (m : Msg) (w : World) :
  forallb (serving c) (events (SndMsg c m w)) = true.
Proof.
  rewrite SndMsg_run. destruct (Marshal m) as [s [e|]]; cbn; [reflexivity|].
  now rewrite conn_eqb_refl.
Qed.

(** How the loop ends: with a handoff as its last act, or without one. *)
Lemma serve_shape (fuel : nat) (fast : bool) (rconn : Conn) :
  forall w : World,
  exists pre tail,
    events (serve fuel fast rconn w) = pre ++ tail /\
    forallb (serving rconn) pre = true /\
    ((exists m,
         outcome (serve fuel fast rconn w) = Done (0, false) /\
         tail = EvGo (TaskLocal m rconn)
                  :: (if fast then [EvGo (TaskRemote true)] else [])) \/
     (tail = [] /\
      ((exists d, outcome (serve fuel fast rconn w) = Done (d, true) /\
                  (d = 0 \/ d = 9)) \/
       (outcome (serve fuel fast rconn w) = Exited 1 /\
        exists p text, pre = p ++ [EvLog ERROR "%s" [AStr text]]) \/
       outcome (serve fuel fast rconn w) = Running))).
Proof.
  induction fuel as [|fuel IH]; intros w.
  - exists [], []. cbn. split; [reflexivity|]. split; [reflexivity|].
    right. split; [reflexivity|]. right. now right.
  - cbn [serve].
    destruct (RcvMsg_run rconn w) as (m & err & Hrcv).
    rewrite (bind_run_eq _ _ _ _ _ _ Hrcv). cbv beta iota.
    set (w1 := after (RcvMsg rconn w)).
    cbn [outcome events fst snd app].
    destruct err as [e|].
    { runs. untailed; [reflexivity|]. left. exists 9. auto. }
    destruct (Type_ m =? "start")%string.
    { exists []. eexists. split; [reflexivity|]. split; [reflexivity|].
      left. exists m. destruct fast; split; reflexivity. }
    destruct (Type_ m =? "keepalive")%string.
    { erewrite bind_run_eq by reflexivity. cbn [outcome events fst snd].
      destruct fast.
      - destruct (SndMsg_done rconn (mkMsg "info" "TIMEOUT" 0 [] false "") w1)
          as (terr & Ht).
        rewrite (bind_run_eq _ _ _ _ _ _ Ht).
        pose proof (SndMsg_serving rconn (mkMsg "info" "TIMEOUT" 0 [] false "") w1) as Hs.
        destruct terr as [e|]; runs; untailed;
          [ cbn [forallb serving]; rewrite forallb_app, Hs; reflexivity
          | left; exists 0; auto
          | cbn [forallb serving]; rewrite forallb_app, Hs; reflexivity
          | left; exists 0; auto ].
      - destruct (SndMsg_done rconn (mkMsg "keepalive" "" 0 [] false "") w1)
          as (rerr & Hr).
        rewrite (bind_run_eq _ _ _ _ _ _ Hr).
        pose proof (SndMsg_serving rconn (mkMsg "keepalive" "" 0 [] false "") w1) as Hs.
        destruct rerr as [e|].
        + runs. untailed.
          * cbn [forallb serving]. rewrite forallb_app, Hs. reflexivity.
          * left. exists 9. auto.
        + rewrite (bind_run_eq _ _ _ _ _ _ (SetDeadline_run rconn (NowAdd Minute) _)).
          cbv beta iota.
          destruct (hd None (faults _)) as [e|].
          * runs. untailed.
            -- cbn [forallb serving]. rewrite forallb_app, Hs.
               cbn [forallb serving andb]. rewrite conn_eqb_refl. reflexivity.
            -- left. exists 9. auto.
          * match goal with
            | |- context [serve fuel false rconn ?w3] =>
                destruct (IH w3) as (pre & tail & He & Hp & Hc)
            end.
            cbn [outcome events fst snd]. rewrite He.
            match goal with
            | |- exists a b, ?A ++ ?B ++ ?C ++ pre ++ tail = _ /\ _ =>
                exists (A ++ B ++ C ++ pre), tail
            end.
            split; [now rewrite <- !app_assoc|]. split.
            -- rewrite !forallb_app, Hs, Hp. cbn [forallb serving andb].
               rewrite conn_eqb_refl. reflexivity.
            -- match goal with
               | |- context [?A ++ ?B ++ ?C ++ pre] =>
                   destruct Hc as [Hc|(Ht & [Hc|[(Ho & p & text & Hp')|Hc]])];
                   [ left; exact Hc
                   | right; split; [exact Ht|left; exact Hc]
                   | right; split; [exact Ht|]; right; left;
                     split; [exact Ho|]; exists (A ++ B ++ C ++ p), text;
                     rewrite Hp'; list_eq
                   | right; split; [exact Ht|]; right; right; exact Hc ]
               end. }
    destruct (Type_ m =? "debug")%string.
    { runs. untailed; [reflexivity|]. left. exists 0. auto. }
    destruct (Type_ m =? "info")%string.
    { runs. untailed; [reflexivity|]. left. exists 0. auto. }
    destruct (Type_ m =? "warning")%string.
    { runs. untailed; [reflexivity|]. left. exists 0. auto. }
    destruct (Type_ m =? "error")%string.
    { runs. untailed; [reflexivity|]. right. left. split; [reflexivity|].
      exists [], (Text m). reflexivity. }
    erewrite bind_run_eq by reflexivity. cbn [outcome events fst snd].
    destruct (IH w1) as (pre & tail & He & Hp & Hc).
    rewrite He. exists (EvLog WARNING "Ignored message: %s: %s"
                          [AStr (Type_ m); AStr (Text m)] :: pre), tail.
    split; [reflexivity|]. split; [exact Hp|].
    destruct Hc as [Hc|(Ht & [Hc|[(Ho & p & text & Hp')|Hc]])].
    + left. exact Hc.
    + right. split; [exact Ht|left; exact Hc].
    + right. split; [exact Ht|]. right. left. split; [exact Ho|].
      exists (EvLog WARNING "Ignored message: %s: %s"
                [AStr (Type_ m); AStr (Text m)] :: p), text.
      rewrite Hp'. reflexivity.
    + right. split; [exact Ht|]. right. right. exact Hc.
Qed.


Lemma Handshake_run (c : Conn) (w : World) :
  Handshake c w =
  (Done (hd None (faults w)), set_faults (tl (faults w)) w,
   [EvHandshake c (hd None (faults w))]).
Proof. reflexivity. Qed.

(** The TLS negotiation of [remote]. *)
Lemma negotiate_shape (c : Context) (conn0 : Conn) (w : World) :
  exists err conn w' evs,
    (match tlsConfig c with
     | None => Debugf "New TCP connection" [] ;; ret (None, conn0)
     | Some config =>
         let conn := tls_Client conn0 in
         err <- Handshake conn ;;
         match err with
         | Some e =>
             Warningf "TLS handshake failed: %s" [AErr e] ;;
             ret (Some e, conn0)
         | None =>
             '(v, didResume) <- ConnectionState conn ;;
             let version := [AInt (Z.shiftr v 8 - 2); AInt (Z.land v 255 - 1)] in
             (if didResume : bool
              then Debugf "New TLSv%d.%d connection (resumed session)" version
              else Infof "New TLSv%d.%d connection (new session)" version) ;;
             ret (None, conn)
         end
     end) w = (Done (err, conn), w', evs) /\
    forallb (setting_up conn0) evs = true /\
    rx w' = rx w /\
    (err = None ->
     (tlsConfig c = None /\ conn = conn0) \/
     (tlsConfig c <> None /\ conn = tls_Client conn0 /\
      In (EvHandshake conn None) evs)) /\
    (err <> None -> conn = conn0).
Proof.
  assert (Hk : conn_eqb (tls_Client conn0) (tls_Client conn0) = true)
    by apply conn_eqb_refl.
  destruct (tlsConfig c) as [config|].
  - destruct (hd None (faults w)) as [e|] eqn:D.
    + do 4 eexists. split; [|split; [|split; [|split]]].
      * eapply seg_last; [apply Handshake_run|]. rewrite D. reflexivity.
      * cbn [app forallb setting_up]. rewrite Hk. reflexivity.
      * reflexivity.
      * discriminate.
      * reflexivity.
    + assert (R : tls_resumed (set_faults (tl (faults w)) w) = tls_resumed w)
        by reflexivity.
      destruct (tls_resumed w); do 4 eexists;
        (split; [|split; [|split; [|split]]];
         [ eapply seg_last; [apply Handshake_run|]; rewrite D; cbv beta iota;
           eapply seg_last; [reflexivity|]; cbv beta iota zeta;
           rewrite R; eapply seg_last; [reflexivity|]; reflexivity
         | cbn [app forallb setting_up]; rewrite Hk; reflexivity
         | reflexivity
         | intros _; right; split; [discriminate|]; split; [reflexivity|];
           rewrite D; left; reflexivity
         | intros H; congruence ]).
  - do 4 eexists. split; [reflexivity|]. split; [reflexivity|].
    split; [reflexivity|]. split; [intros _; left; split; reflexivity|].
    intros H; congruence.
Qed.


(** A session from the first deadline on: what it sets up, what it does
    on the connection it serves, and how it ends. *)
Lemma bind_pair_ret {A B C : Type} (c : M (A * B)) (x : C) (w : World) :
  events (bind c (fun r => let (a, b) := r in ret (a, x, b)) w) = events (c w) /\
  outcome (bind c (fun r => let (a, b) := r in ret (a, x, b)) w)
    = match outcome (c w) with
      | Done (a, b) => Done (a, x, b)
      | Exited n => Exited n
      | Panicked => Panicked
      | Running => Running
      end.
Proof.
  unfold bind. destruct (c w) as [[o w'] evs].
  destruct o as [[a b]| | |]; cbn [ret outcome events fst snd];
    rewrite ?app_nil_r; split; reflexivity.
Qed.

Lemma session_shape (fuel : nat) (c : Context) (fast : bool) (conn0 : Conn)
      (w : World) :
  exists conn setup body tail,
    events (session fuel c fast conn0 w) = setup ++ body ++ tail /\
    forallb (setting_up conn0) setup = true /\
    forallb (serving conn) body = true /\
    ((tlsConfig c = None /\ conn = conn0) \/
     (tlsConfig c <> None /\ conn = tls_Client conn0 /\
      In (EvHandshake conn None) setup) \/
     (body = [] /\ tail = [] /\
      exists d, outcome (session fuel c fast conn0 w) = Done (d, conn0, true))) /\
    ((exists m,
         outcome (session fuel c fast conn0 w) = Done (0, conn, false) /\
         tail = EvGo (TaskLocal m conn)
                  :: (if fast then [EvGo (TaskRemote true)] else [])) \/
     (tail = [] /\
      ((exists d rc,
           outcome (session fuel c fast conn0 w) = Done (d, rc, true) /\
           (d = 0 \/ d = 9 \/ d = 99) /\ (rc = conn \/ rc = conn0)) \/
       (outcome (session fuel c fast conn0 w) = Exited 1 /\
        exists p text, body = p ++ [EvLog ERROR "%s" [AStr text]]) \/
       outcome (session fuel c fast conn0 w) = Running))).
Proof.
  assert (Hk : conn_eqb conn0 conn0 = true) by apply conn_eqb_refl.
  unfold session.
  rewrite (bind_run_eq _ _ _ _ _ _ (SetDeadline_run conn0 (NowAdd Minute) w)).
  cbv beta iota.
  destruct (hd None (faults w)) as [e|].
  { runs. exists conn0. eexists. exists [], [].
    split; [rewrite !app_nil_r; reflexivity|].
    split; [cbn [forallb setting_up]; rewrite Hk; reflexivity|].
    split; [reflexivity|].
    split.
    - right. right. split; [reflexivity|]. split; [reflexivity|]. now exists 99.
    - right. split; [reflexivity|]. left. exists 99, conn0. auto. }
  set (w2 := set_faults (tl (faults w)) w).
  destruct (negotiate_shape c conn0 w2) as (err & conn & w3 & nevs & Hn & Hnev & _ & Hok & Hfail).
  rewrite (bind_run_eq _ _ _ _ _ _ Hn). cbv beta iota.
  destruct err as [e|].
  { rewrite (Hfail ltac:(discriminate)). runs.
    exists conn0. eexists. exists [], [].
    split; [rewrite !app_nil_r; reflexivity|].
    split; [cbn [forallb setting_up]; rewrite Hk, Hnev; reflexivity|].
    split; [reflexivity|].
    split.
    - right. right. split; [reflexivity|]. split; [reflexivity|]. now exists 9.
    - right. split; [reflexivity|]. left. exists 9, conn0. auto. }
  specialize (Hok eq_refl).
  assert (Hconn : (tlsConfig c = None /\ conn = conn0) \/
                  (tlsConfig c <> None /\ conn = tls_Client conn0 /\
                   In (EvHandshake conn None)
                      ([EvSetDeadline conn0 (NowAdd Minute) None] ++ nevs))).
  { destruct Hok as [H|(H1 & H2 & H3)]; [now left|right].
    split; [exact H1|]. split; [exact H2|]. right. exact H3. }
  assert (Hsetup : forallb (setting_up conn0)
                     ([EvSetDeadline conn0 (NowAdd Minute) None] ++ nevs) = true).
  { cbn [app forallb setting_up]. rewrite Hk, Hnev. reflexivity. }
  clear Hok Hfail.
  set (listen := mkMsg "listen" "" (port c) (key c) false "").
  destruct (SndMsg_done conn listen w3) as (lerr & Hl).
  pose proof (SndMsg_serving conn listen w3) as Hs.
  rewrite (bind_run_eq _ _ _ _ _ _ Hl). cbv beta iota.
  destruct lerr as [e|].
  { runs.
    exists conn, ([EvSetDeadline conn0 (NowAdd Minute) None] ++ nevs),
      (events (SndMsg conn listen w3)
         ++ [EvLog WARNING "Failed to send port number: %s" [AErr e]]), [].
    split; [list_eq|].
    split; [exact Hsetup|].
    split; [rewrite forallb_app, Hs; reflexivity|].
    split.
    - destruct Hconn as [H|H]; [left; exact H|right; left; exact H].
    - right. split; [reflexivity|]. left. exists 9, conn. auto. }
  destruct (serve_shape fuel fast conn (after (SndMsg conn listen w3)))
    as (pre & tail & He & Hp & Hc).
  set (ws := after (SndMsg conn listen w3)) in *.
  destruct (bind_pair_ret (serve fuel fast conn) conn ws) as (Re & Ro).
  set (R := bind (serve fuel fast conn) _ ws) in *.
  cbn [outcome events after fst snd].
  exists conn, ([EvSetDeadline conn0 (NowAdd Minute) None] ++ nevs),
    (events (SndMsg conn listen w3) ++ pre), tail.
  split; [rewrite Re, He; list_eq|].
  split; [exact Hsetup|].
  split; [rewrite forallb_app, Hs, Hp; reflexivity|].
  split; [destruct Hconn as [H|H]; [left; exact H|right; left; exact H]|].
  rewrite Ro.
  destruct Hc as [(m & Ho & Htail)|(Htail & [(d & Ho & Hd)|[(Ho & Hx)|Ho]])];
    rewrite Ho.
  - left. exists m. split; [reflexivity|exact Htail].
  - right. split; [exact Htail|]. left. exists d, conn.
    split; [reflexivity|]. split; [|now left]. destruct Hd; auto.
  - right. split; [exact Htail|]. right. left. split; [reflexivity|].
    destruct Hx as (p & text & Hp').
    exists (events (SndMsg conn listen w3) ++ p), text.
    rewrite Hp'. list_eq.
  - right. split; [exact Htail|]. right. now right.
Qed.



Lemma bind_Exited {A B} (c : M A) (k : A -> M B) w n w1 e1 :
  c w = (Exited n, w1, e1) -> bind c k w = (Exited n, w1, e1).
Proof. intros H. unfold bind. now rewrite H. Qed.

Lemma bind_Running {A B} (c : M A) (k : A -> M B) w w1 e1 :
  c w = (Running, w1, e1) -> bind c k w = (Running, w1, e1).
Proof. intros H. unfold bind. now rewrite H. Qed.

(** A whole session: the dial, then the above, then the deferred close. *)
Lemma remote_shape (fuel : nat) (c : Context) (fast : bool) (w : World) :
  let conn0 := mkConn (next_sock w) TCPConn in
  (exists err,
      outcome (remote fuel c fast w) = Done 9 /\
      events (remote fuel c fast w)
      = [EvDial "tcp" (raddr c) (inr err);
         EvLog WARNING "Remote connection failed: %s" [AErr err]]) \/
  (exists conn setup body tail,
      events (remote fuel c fast w)
      = EvDial "tcp" (raddr c) (inl conn0) :: setup ++ body ++ tail /\
      forallb (setting_up conn0) setup = true /\
      forallb (serving conn) body = true /\
      ((tlsConfig c = None /\ conn = conn0) \/
       (tlsConfig c <> None /\ conn = tls_Client conn0 /\
        In (EvHandshake conn None) setup) \/
       (body = [] /\ tail = [EvClose conn0])) /\
      ((exists m,
           outcome (remote fuel c fast w) = Done 0 /\
           tail = EvGo (TaskLocal m conn)
                    :: (if fast then [EvGo (TaskRemote true)] else [])) \/
       (exists d rc,
           outcome (remote fuel c fast w) = Done d /\
           (d = 0 \/ d = 9 \/ d = 99) /\ (rc = conn \/ rc = conn0) /\
           tail = [EvClose rc]) \/
       (tail = [] /\
        ((outcome (remote fuel c fast w) = Exited 1 /\
          exists p text, body = p ++ [EvLog ERROR "%s" [AStr text]]) \/
         outcome (remote fuel c fast w) = Running)))).
Proof.
  intros conn0. unfold remote.
  pose proof (Dial_run "tcp" (raddr c) w) as HD. cbv zeta in HD.
  destruct (hd None (faults w)) as [e|].
  { left. exists e. rewrite (bind_run_eq _ _ _ _ _ _ HD). runs.
    split; reflexivity. }
  right. fold conn0 in HD.
  rewrite (bind_run_eq _ _ _ _ _ _ HD). cbv beta iota.
  set (w2 := set_next_sock _ _).
  destruct (session_shape fuel c fast conn0 w2)
    as (conn & setup & body & tail & He & Hsu & Hb & Hcc & Hend).
  pose proof (triple (session fuel c fast conn0 w2)) as Ht.
  rewrite He in Ht.
  destruct Hend
    as [(m & Ho & Htl)|(Htl & [(d & rc & Ho & Hd & Hrc)|[(Ho & Hlog)|Ho]])];
    rewrite Ho in Ht.
  - rewrite (bind_run_eq _ _ _ _ _ _ Ht). runs.
    exists conn, setup, body, tail.
    split; [list_eq|]. split; [exact Hsu|]. split; [exact Hb|].
    split.
    + destruct Hcc as [H|[H|(_ & H & d & Hx)]];
        [left; exact H|right; left; exact H|].
      rewrite Ho in Hx. discriminate.
    + left. exists m. split; [reflexivity|exact Htl].
  - rewrite (bind_run_eq _ _ _ _ _ _ Ht). runs. subst tail.
    exists conn, setup, body, [EvClose rc].
    split; [list_eq|]. split; [exact Hsu|]. split; [exact Hb|].
    split.
    + destruct Hcc as [H|[H|(H1 & _ & d' & Hx)]];
        [left; exact H|right; left; exact H|].
      rewrite Ho in Hx. injection Hx as _ Hx. subst rc.
      right. right. split; [exact H1|reflexivity].
    + right. left. exists d, rc.
      split; [reflexivity|]. split; [exact Hd|]. split; [exact Hrc|reflexivity].
  - rewrite (bind_Exited _ _ _ _ _ _ Ht). runs. subst tail.
    exists conn, setup, body, [].
    split; [list_eq|]. split; [exact Hsu|]. split; [exact Hb|].
    split.
    + destruct Hcc as [H|[H|(_ & _ & d' & Hx)]];
        [left; exact H|right; left; exact H|].
      rewrite Ho in Hx. discriminate.
    + right. right. split; [reflexivity|]. left. split; [reflexivity|exact Hlog].
  - rewrite (bind_Running _ _ _ _ _ Ht). runs. subst tail.
    exists conn, setup, body, [].
    split; [list_eq|]. split; [exact Hsu|]. split; [exact Hb|].
    split.
    + destruct Hcc as [H|[H|(_ & _ & d' & Hx)]];
        [left; exact H|right; left; exact H|].
      rewrite Ho in Hx. discriminate.
    + right. right. split; [reflexivity|]. now right.
Qed.

End SessionMore.

(** ** What a session does with its connection *)

Lemma count_app (f : Event -> bool) (l1 l2 : list Event) :
  count f (l1 ++ l2) = (count f l1 + count f l2)%nat.
Proof. unfold count. now rewrite filter_app, length_app. Qed.

Lemma count_zero (f P : Event -> bool) (l : list Event) :
  (forall e, P e = true -> f e = false) ->
  forallb P l = true -> count f l = 0%nat.
Proof.
  intros H. unfold count. induction l as [|e l IH]; [reflexivity|].
  cbn [forallb filter]. intros Hl. apply andb_prop in Hl.
  destruct Hl as [He Hl]. rewrite (H e He). now apply IH.
Qed.

Lemma setting_up_is (c : Conn) (e : Event) :
  setting_up c e = true ->
  is_close e = false /\ is_handoff e = false /\ is_fast_spawn e = false /\
  is_write e = false.
Proof. destruct e; try discriminate; now cbn. Qed.

Lemma serving_is (c : Conn) (e : Event) :
  serving c e = true ->
  is_close e = false /\ is_handoff e = false /\ is_fast_spawn e = false.
Proof. destruct e; try discriminate; now cbn. Qed.

Lemma conn_eqb_eq (a b : Conn) : conn_eqb a b = true -> a = b.
Proof.
  destruct a as [sa ka], b as [sb kb]. unfold conn_eqb. cbn.
  intros H. apply andb_prop in H. destruct H as [Hs Hk].
  apply Nat.eqb_eq in Hs. subst sb.
  destruct ka, kb; try discriminate; reflexivity.
Qed.

Lemma serving_write (c c' : Conn) (data : list byte) (res : option error)
      (l : list Event) :
  forallb (serving c) l = true -> In (EvWrite c' data res) l -> c' = c.
Proof.
  intros H Hin. rewrite forallb_forall in H. specialize (H _ Hin).
  now apply conn_eqb_eq.
Qed.

Lemma no_writes_setting_up (c : Conn) (l : list Event) :
  forallb (setting_up c) l = true -> no_writes l = true.
Proof.
  unfold no_writes. induction l as [|e l IH]; [reflexivity|].
  cbn [forallb]. intros H. apply andb_prop in H. destruct H as [He Hl].
  destruct (setting_up_is c e He) as (_ & _ & _ & ->). now rewrite IH.
Qed.

Section SessionFacts.

Context {json : API}.

Ltac quiet_pre Hsu Hb :=
  rewrite !count_app;
  try rewrite (count_zero is_close _ _ (fun e H => proj1 (setting_up_is _ e H)) Hsu);
  try rewrite (count_zero is_handoff _ _
                 (fun e H => proj1 (proj2 (setting_up_is _ e H))) Hsu);
  try rewrite (count_zero is_close _ _ (fun e H => proj1 (serving_is _ e H)) Hb);
  try rewrite (count_zero is_handoff _ _
                 (fun e H => proj1 (proj2 (serving_is _ e H))) Hb);
  reflexivity.

(** X3. A session that returns has done one of three things with the
    connection to the server: the dial failed and there is none; or its
    last act was to close it, the one close of the run, and it handed it to
    nobody; or it handed it to one handoff, with the hint 0, and closed
    nothing: the handoff is the one [go c.local(...)] of the run, followed
    only by the start of the replacement when the session is a fast one. *)
Theorem remote_closes_or_hands_over (fuel : nat) (c : Context) (fast : bool)
        (w : World) (d : Z) :
  outcome (remote fuel c fast w) = Done d ->
  let evs := events (remote fuel c fast w) in
  (exists err,
      d = 9 /\
      evs = [EvDial "tcp" (raddr c) (inr err);
             EvLog WARNING "Remote connection failed: %s" [AErr err]]) \/
  (exists pre rc,
      evs = pre ++ [EvClose rc] /\ sock rc = next_sock w /\
      count is_close pre = 0%nat /\ count is_handoff pre = 0%nat) \/
  (exists pre m rc,
      evs = pre ++ EvGo (TaskLocal m rc)
                     :: (if fast then [EvGo (TaskRemote true)] else []) /\
      sock rc = next_sock w /\ d = 0 /\
      count is_close pre = 0%nat /\ count is_handoff pre = 0%nat).
Proof.
  intros Hd evs. subst evs.
  destruct (remote_shape fuel c fast w)
    as [(err & Ho & He)
       |(conn & setup & body & tail & He & Hsu & Hb & Hcc & Hend)].
  { left. exists err. rewrite Ho in Hd. injection Hd as <-. now split. }
  right.
  assert (Hsock : sock conn = next_sock w \/ (body = [] /\ tail = [EvClose (mkConn (next_sock w) TCPConn)])).
  { destruct Hcc as [(_ & ->)|[(_ & -> & _)|H]]; [now left|now left|now right]. }
  destruct Hend as [(m & Ho & Htl)|[(d' & rc & Ho & _ & Hrc & Htl)|(_ & [(Ho & _)|Ho])]];
    try (rewrite Ho in Hd; discriminate).
  - right. exists (EvDial "tcp" (raddr c) (inl (mkConn (next_sock w) TCPConn))
                     :: setup ++ body), m, conn.
    rewrite He, Htl. split; [list_eq|].
    split; [destruct Hsock as [H|(_ & H)]; [exact H|]|].
    { rewrite Htl in H. destruct fast; discriminate. }
    split; [rewrite Ho in Hd; now injection Hd|].
    split; change (EvDial ?a ?b ?r :: ?l) with ([EvDial a b r] ++ l);
      quiet_pre Hsu Hb.
  - left. exists (EvDial "tcp" (raddr c) (inl (mkConn (next_sock w) TCPConn))
                    :: setup ++ body), rc.
    rewrite He, Htl. split; [list_eq|].
    split.
    { destruct Hrc as [->| ->]; [|reflexivity].
      destruct Hsock as [H|(_ & H)]; [exact H|].
      rewrite Htl in H. now injection H as ->. }
    split; change (EvDial ?a ?b ?r :: ?l) with ([EvDial a b r] ++ l);
      quiet_pre Hsu Hb.
Qed.


(** X5. With TLS configured, a session either writes nothing at all or
    has completed the handshake before its first write; every message then
    goes out on the TLS connection made of the dialled one, and it is that
    TLS connection that a handoff is given. *)
Theorem remote_writes_under_tls (fuel : nat) (c : Context) (fast : bool)
        (w : World) (config : TlsConfig) :
  tlsConfig c = Some config ->
  let tconn := tls_Client (mkConn (next_sock w) TCPConn) in
  let evs := events (remote fuel c fast w) in
  no_writes evs = true \/
  (exists setup rest,
      evs = setup ++ rest /\
      no_writes setup = true /\
      In (EvHandshake tconn None) setup /\
      (forall c' data res, In (EvWrite c' data res) rest -> c' = tconn) /\
      (forall m rc, In (EvGo (TaskLocal m rc)) rest -> rc = tconn)).
Proof.
  intros Hcfg tconn evs. subst evs.
  destruct (remote_shape fuel c fast w)
    as [(err & Ho & He)
       |(conn & setup & body & tail & He & Hsu & Hb & Hcc & Hend)].
  { left. rewrite He. reflexivity. }
  destruct Hcc as [(H & _)|[(_ & Hconn & Hin)|(Hbody & Htl)]].
  - rewrite Hcfg in H. discriminate.
  - right. subst conn. fold tconn in Hin, Hb, Hend.
    exists (EvDial "tcp" (raddr c) (inl (mkConn (next_sock w) TCPConn)) :: setup),
      (body ++ tail).
    split; [rewrite He; reflexivity|].
    split; [cbn [no_writes forallb is_write negb andb];
            apply (no_writes_setting_up _ _ Hsu)|].
    split; [right; exact Hin|].
    assert (Htail : forall e, In e tail ->
                              (exists m, e = EvGo (TaskLocal m tconn)) \/
                              e = EvGo (TaskRemote true) \/
                              (exists rc, e = EvClose rc)).
    { intros e Hine.
      destruct Hend as [(m & _ & Htl)|[(d' & rc & _ & _ & _ & Htl)|(Htl & _)]];
        rewrite Htl in Hine.
      - destruct Hine as [<-|Hine]; [left; now exists m|].
        destruct fast; [|contradiction].
        destruct Hine as [<-|[]]. right. now left.
      - destruct Hine as [<-|[]]. right. right. now exists rc.
      - contradiction. }
    split.
    + intros c' data res Hw. apply in_app_or in Hw. destruct Hw as [Hw|Hw].
      * exact (serving_write _ _ _ _ _ Hb Hw).
      * destruct (Htail _ Hw) as [(m & E)|[E|(rc & E)]]; discriminate.
    + intros m rc Hg. apply in_app_or in Hg. destruct Hg as [Hg|Hg].
      * rewrite forallb_forall in Hb. specialize (Hb _ Hg). discriminate.
      * destruct (Htail _ Hg) as [(m' & E)|[E|(rc' & E)]];
          try discriminate.
        now injection E as _ ->.
  - left. rewrite He, Hbody, Htl.
    unfold no_writes. cbn [forallb is_write negb andb app].
    rewrite forallb_app. cbn [forallb is_write negb andb].
    fold (no_writes setup). rewrite (no_writes_setting_up _ _ Hsu). reflexivity.
Qed.

(** X6. A slow session starts no fast session; a fast session starts one,
    its replacement, exactly when it hands its connection over, and none
    otherwise. *)
Theorem remote_replaces_itself (fuel : nat) (c : Context) (fast : bool)
        (w : World) :
  fast_spawns (events (remote fuel c fast w))
  = if fast then count is_handoff (events (remote fuel c fast w)) else 0%nat.
Proof.
  destruct (remote_shape fuel c fast w)
    as [(err & Ho & He)
       |(conn & setup & body & tail & He & Hsu & Hb & Hcc & Hend)].
  { rewrite He. now destruct fast. }
  rewrite He.
  change (EvDial ?a ?b ?r :: ?l) with ([EvDial a b r] ++ l).
  rewrite !fast_spawns_app, !count_app.
  assert (F1 : fast_spawns setup = 0%nat)
    by exact (count_zero is_fast_spawn _ _
                (fun e H => proj1 (proj2 (proj2 (setting_up_is _ e H)))) Hsu).
  assert (F2 : fast_spawns body = 0%nat)
    by exact (count_zero is_fast_spawn _ _
                (fun e H => proj2 (proj2 (serving_is _ e H))) Hb).
  rewrite F1, F2.
  rewrite (count_zero is_handoff _ _
             (fun e H => proj1 (proj2 (setting_up_is _ e H))) Hsu).
  rewrite (count_zero is_handoff _ _
             (fun e H => proj1 (proj2 (serving_is _ e H))) Hb).
  destruct Hend as [(m & _ & ->)|[(d' & rc & _ & _ & _ & ->)|(-> & _)]];
    destruct fast; reflexivity.
Qed.

End SessionFacts.

Section Authentication.

Context {json : API}.

Lemma no_writes_split (l1 l2 : list Event) :
  no_writes l1 = true -> no_writes l2 = true -> no_writes (l1 ++ l2) = true.
Proof. unfold no_writes. intros H1 H2. now rewrite forallb_app, H1, H2. Qed.

Ltac quiet_writes H :=
  unfold no_writes in *; runs; cbn [forallb is_write negb andb];
  rewrite ?forallb_app; cbn [forallb is_write negb andb];
  rewrite ?H; reflexivity.

(** What a session writes first, from the first deadline on. *)
Lemma session_listens_first (fuel : nat) (c : Context) (fast : bool)
      (conn0 : Conn) (w1 : World) :
  let listen := mkMsg "listen" "" (port c) (key c) false "" in
  no_writes (events (session fuel c fast conn0 w1)) = true \/
  (exists pre conn res post,
      events (session fuel c fast conn0 w1)
      = pre ++ EvWrite conn (frame listen) res :: post /\
      no_writes pre = true /\
      sock conn = sock conn0 /\
      kind conn = match tlsConfig c with
                  | Some _ => TLSConn
                  | None => kind conn0
                  end).
Proof.
  intros listen. unfold session.
  rewrite (bind_run_eq _ _ _ _ _ _ (SetDeadline_run conn0 (NowAdd Minute) w1)).
  cbv beta iota.
  destruct (hd None (faults w1)) as [e|].
  { left. reflexivity. }
  set (w2 := set_faults (tl (faults w1)) w1).
  destruct (negotiate_shape c conn0 w2)
    as (err & conn & w3 & nevs & Hn & Hnev & _ & Hok & Hfail).
  apply no_writes_setting_up in Hnev.
  rewrite (bind_run_eq _ _ _ _ _ _ Hn). cbv beta iota.
  destruct err as [e|].
  { left. quiet_writes Hnev. }
  specialize (Hok eq_refl).
  assert (Hkind : sock conn = sock conn0 /\
                  kind conn = match tlsConfig c with
                              | Some _ => TLSConn
                              | None => kind conn0
                              end).
  { destruct Hok as [(Hc & ->)|(Hc & -> & _)].
    - rewrite Hc. split; reflexivity.
    - destruct (tlsConfig c); [split; reflexivity|contradiction]. }
  fold listen.
  destruct (SndMsg_done conn listen w3) as (lerr & Hl).
  rewrite (bind_run_eq _ _ _ _ _ _ Hl). cbv beta iota.
  pose proof (SndMsg_run conn listen w3) as Hrun.
  rewrite Hl in Hrun. unfold frame, payload.
  destruct (Marshal listen) as [serialized [e|]].
  - injection Hrun as -> _ Hev. rewrite Hev.
    left. quiet_writes Hnev.
  - cbv zeta in Hrun. injection Hrun as _ _ Hev. rewrite Hev.
    right. cbn [outcome events after fst snd].
    match goal with
    | |- context [[EvWrite conn ?d ?r] ++ ?post] =>
        exists (EvSetDeadline conn0 (NowAdd Minute) None :: nevs),
          conn, r, post
    end.
    split; [list_eq|].
    split; [|exact Hkind].
    apply (no_writes_split [_] nevs); [reflexivity|exact Hnev].
Qed.

(** X7. The first message a session writes is the authentication
    request: the frame of a [listen] message with the port and the key of
    the context, on the socket it has dialled, under TLS when TLS is
    configured and in the clear when it is not.  Before that write a
    session writes nothing, and it may end without having written. *)
Theorem remote_authenticates_first (fuel : nat) (c : Context) (fast : bool)
        (w : World) :
  let evs := events (remote fuel c fast w) in
  let listen := mkMsg "listen" "" (port c) (key c) false "" in
  no_writes evs = true \/
  (exists pre conn res post,
      evs = pre ++ EvWrite conn (frame listen) res :: post /\
      no_writes pre = true /\
      sock conn = next_sock w /\
      kind conn = match tlsConfig c with Some _ => TLSConn | None => TCPConn end).
Proof.
  intros evs listen. subst evs. unfold remote.
  pose proof (Dial_run "tcp" (raddr c) w) as HD. cbv zeta in HD.
  destruct (hd None (faults w)) as [e|].
  { left. rewrite (bind_run_eq _ _ _ _ _ _ HD). reflexivity. }
  set (conn0 := mkConn (next_sock w) TCPConn) in *.
  rewrite (bind_run_eq _ _ _ _ _ _ HD). cbv beta iota.
  set (w1 := set_next_sock _ _).
  cbn [events snd].
  assert (Hrest : exists rest,
             events (bind (session fuel c fast conn0)
                       (fun x => let '(delay, rconn, ropen) := x in
                                 (if ropen : bool then Close rconn else ret tt) ;;
                                 ret delay) w1)
             = events (session fuel c fast conn0 w1) ++ rest /\
             no_writes rest = true).
  { unfold bind at 1.
    destruct (session fuel c fast conn0 w1) as [[[[[d rc] [|]]| | |] w'] evs];
      cbn [events snd]; eexists;
      (split; [try reflexivity; symmetry; apply app_nil_r|reflexivity]). }
  destruct Hrest as (rest & -> & Hrest).
  destruct (session_listens_first fuel c fast conn0 w1)
    as [Hq|(pre & conn & res & post & He & Hpre & Hsock & Hkind)].
  - left. apply (no_writes_split [_]); [reflexivity|].
    apply no_writes_split; assumption.
  - right. exists (EvDial "tcp" (raddr c) (inl conn0) :: pre), conn, res,
      (post ++ rest).
    split; [rewrite He; list_eq|].
    split; [apply (no_writes_split [_]); [reflexivity|exact Hpre]|].
    split; [exact Hsock|exact Hkind].
Qed.

End Authentication.

Section Dispatch.

Context {json : API}.

Lemma known_false (m : Msg) :
  known m = false ->
  (Type_ m =? "start")%string = false /\
  (Type_ m =? "keepalive")%string = false /\
  (Type_ m =? "debug")%string = false /\
  (Type_ m =? "info")%string = false /\
  (Type_ m =? "warning")%string = false /\
  (Type_ m =? "error")%string = false.
Proof.
  unfold known. cbn [existsb]. intros H.
  repeat (apply orb_false_elim in H; destruct H as [? H]).
  repeat split; assumption.
Qed.

(** X8. Messages of no known type are skipped: each costs a warning in
    the log and one turn of the loop, and changes nothing else.  After
    any number of them a notice ([debug], [info] or [warning]) has its text
    logged at its own level and ends the session with the hint 0, the
    connection still to be closed by the session. *)
Theorem serve_skips_unknown (ms : list Msg) (m : Msg) (lvl : Level)
        (fast : bool) (r : Conn) :
  forall (w : World) (rest : list byte),
    Forall valid ms ->
    Forall (fun m => (List.length (payload m) <= 255)%nat) ms ->
    Forall (fun m => known m = false) ms ->
    valid m ->
    (List.length (payload m) <= 255)%nat ->
    notice m = Some lvl ->
    rx w (sock r) = flat_map frame ms ++ frame m ++ rest ->
    outcome (serve (S (List.length ms)) fast r w) = Done (0, true) /\
    events (serve (S (List.length ms)) fast r w)
    = map ignored ms ++ [EvLog lvl "%s" [AStr (Text m)]] /\
    rx (after (serve (S (List.length ms)) fast r w)) (sock r) = rest.
Proof.
  induction ms as [|m0 ms IH]; intros w rest Hv Hl Hk Hm Hlen Hn Hrx.
  - cbn [flat_map app] in Hrx.
    destruct (RcvMsg_frame r w m rest Hm Hlen Hrx) as (w1 & Hr & Hrest & _).
    cbn [List.length serve map app].
    rewrite (bind_run_eq _ _ _ _ _ _ Hr). cbv beta iota.
    unfold notice in Hn.
    destruct (Type_ m =? "start")%string eqn:E1.
    { apply String.eqb_eq in E1. rewrite E1 in Hn. discriminate. }
    destruct (Type_ m =? "keepalive")%string eqn:E2.
    { apply String.eqb_eq in E2. rewrite E2 in Hn. discriminate. }
    destruct (Type_ m =? "debug")%string.
    { injection Hn as <-. runs. repeat split. exact Hrest. }
    destruct (Type_ m =? "info")%string.
    { injection Hn as <-. runs. repeat split. exact Hrest. }
    destruct (Type_ m =? "warning")%string; [|discriminate].
    injection Hn as <-. runs. repeat split. exact Hrest.
  - inversion Hv as [|? ? Hv0 Hv']; subst.
    inversion Hl as [|? ? Hl0 Hl']; subst.
    inversion Hk as [|? ? Hk0 Hk']; subst.
    cbn [flat_map] in Hrx. rewrite <- app_assoc in Hrx.
    destruct (RcvMsg_frame r w m0 _ Hv0 Hl0 Hrx) as (w1 & Hr & Hrest & _).
    destruct (known_false m0 Hk0) as (K1 & K2 & K3 & K4 & K5 & K6).
    destruct (IH w1 rest Hv' Hl' Hk' Hm Hlen Hn Hrest) as (Ho & He & Ha).
    cbn [List.length]. set (n := S (List.length ms)) in *.
    cbn [serve].
    rewrite (bind_run_eq _ _ _ _ _ _ Hr). cbv beta iota.
    rewrite K1, K2, K3, K4, K5, K6.
    erewrite bind_run_eq by reflexivity.
    cbn [outcome after events fst snd app map].
    rewrite Ho, He, Ha. repeat split.
Qed.

End Dispatch.

(** ** The workers *)

Section WorkerFacts.

Context {json : API}.

Lemma remote_outcomes (fuel : nat) (c : Context) (fast : bool) (w : World) :
  (exists d, outcome (remote fuel c fast w) = Done d /\
             (d = 0 \/ d = 9 \/ d = 99)) \/
  outcome (remote fuel c fast w) = Exited 1 \/
  outcome (remote fuel c fast w) = Running.
Proof.
  destruct (remote_shape fuel c fast w)
    as [(err & Ho & _)|(conn & setup & body & tail & _ & _ & _ & _ & Hend)].
  { left. exists 9. auto. }
  destruct Hend
    as [(m & Ho & _)|[(d & rc & Ho & Hd & _)|(_ & [(Ho & _)|Ho])]].
  - left. exists 0. auto.
  - left. exists d. auto.
  - right. now left.
  - right. now right.
Qed.

Lemma remote_no_sleep (fuel : nat) (c : Context) (fast : bool) (w : World) :
  forallb (fun e => negb (is_sleep e)) (events (remote fuel c fast w)) = true.
Proof.
  assert (S1 : forall c0 l, forallb (setting_up c0) l = true ->
                            forallb (fun e => negb (is_sleep e)) l = true).
  { intros c0 l. rewrite !forallb_forall. intros H e He.
    specialize (H e He). now destruct e. }
  assert (S2 : forall c0 l, forallb (serving c0) l = true ->
                            forallb (fun e => negb (is_sleep e)) l = true).
  { intros c0 l. rewrite !forallb_forall. intros H e He.
    specialize (H e He). now destruct e. }
  destruct (remote_shape fuel c fast w)
    as [(err & _ & He)|(conn & setup & body & tail & He & Hsu & Hb & _ & Hend)].
  { rewrite He. reflexivity. }
  rewrite He. cbn [forallb is_sleep negb andb].
  rewrite !forallb_app, (S1 _ _ Hsu), (S2 _ _ Hb).
  destruct Hend as [(m & _ & ->)|[(d & rc & _ & _ & _ & ->)|(-> & _)]];
    [destruct fast| |]; reflexivity.
Qed.

(** One turn: the session, then a sleep unless the hint is 0. *)
Lemma worker_turn_shape (fuel : nat) (c : Context) (w : World) :
  (outcome (worker_turn fuel c w) = Done tt /\
   (events (worker_turn fuel c w) = events (remote fuel c false w) \/
    exists d,
      events (worker_turn fuel c w)
      = events (remote fuel c false w) ++ [EvSleep d] /\
      1 * Second <= d < 100 * Second)) \/
  ((outcome (worker_turn fuel c w) = Exited 1 \/
    outcome (worker_turn fuel c w) = Running) /\
   events (worker_turn fuel c w) = events (remote fuel c false w)).
Proof.
  unfold worker_turn.
  pose proof (triple (remote fuel c false w)) as Ht.
  destruct (remote_outcomes fuel c false w) as [(d & Ho & Hd)|[Ho|Ho]];
    rewrite Ho in Ht.
  - left. rewrite (bind_run_eq _ _ _ _ _ _ Ht). cbv beta.
    set (w1 := after (remote fuel c false w)).
    destruct Hd as [->|Hd].
    { cbn [Z.eqb ret outcome events fst snd]. rewrite app_nil_r. auto. }
    assert (Hz : (d =? 0) = false) by (apply Z.eqb_neq; lia).
    rewrite Hz.
    assert (Hw : wrap64 (d * 1000) = d * 1000)
      by (destruct Hd as [-> | ->]; reflexivity).
    rewrite Hw.
    set (r := hd 0 (draws w1) mod (d * 1000)).
    assert (Hr : 0 <= r < d * 1000) by (apply Z.mod_pos_bound; lia).
    assert (Hi : Intn (d * 1000) w1 = (Done r, set_draws (tl (draws w1)) w1, [])).
    { unfold Intn. destruct (d * 1000 <=? 0) eqn:E; [|reflexivity].
      apply Z.leb_le in E. lia. }
    rewrite (bind_run_eq _ _ _ _ _ _ Hi). cbv beta zeta.
    assert (Hmax : max_int64 = 9223372036854775807) by reflexivity.
    rewrite (wrap64_small (1000 + r)) by lia.
    rewrite (wrap64_small ((1000 + r) * Millisecond))
      by (unfold Millisecond; lia).
    cbn [Sleep emit outcome events fst snd app].
    split; [reflexivity|]. right. exists ((1000 + r) * Millisecond).
    split; [reflexivity|]. unfold Second, Millisecond. lia.
  - right. rewrite (bind_Exited _ _ _ _ _ _ Ht). auto.
  - right. rewrite (bind_Running _ _ _ _ _ Ht). auto.
Qed.

Lemma worker_outcomes (turns fuel : nat) (c : Context) (w : World) :
  outcome (worker turns fuel c w) = Running \/
  outcome (worker turns fuel c w) = Exited 1.
Proof.
  revert w. induction turns as [|turns IH]; intros w; [now left|].
  cbn [worker].
  pose proof (triple (worker_turn fuel c w)) as Ht.
  destruct (worker_turn_shape fuel c w) as [(Ho & _)|([Ho|Ho] & _)];
    rewrite Ho in Ht.
  - rewrite (bind_run_eq _ _ _ _ _ _ Ht). cbn [outcome fst]. apply IH.
  - rewrite (bind_Exited _ _ _ _ _ _ Ht). now right.
  - rewrite (bind_Running _ _ _ _ _ Ht). now left.
Qed.

(** X9. A worker never returns and never panics, the bound it gives to
    [rand.Intn] being positive each time: however long it is left to run,
    it is still running, or a session has ended the process, and then the
    exit code is 1. *)
Theorem worker_never_returns (turns fuel : nat) (c : Context) (w : World) :
  (forall a, outcome (worker turns fuel c w) <> Done a) /\
  outcome (worker turns fuel c w) <> Panicked /\
  (outcome (worker turns fuel c w) = Running \/
   outcome (worker turns fuel c w) = Exited 1).
Proof.
  destruct (worker_outcomes turns fuel c w) as [H|H]; rewrite H;
    (split; [discriminate|split; [discriminate|auto]]).
Qed.

(** X10. Every sleep in the run of a worker lasts at least one second
    and less than a hundred. *)
Theorem worker_sleeps_bounded (turns fuel : nat) (c : Context) (w : World)
        (d : Z) :
  In (EvSleep d) (events (worker turns fuel c w)) ->
  1 * Second <= d < 100 * Second.
Proof.
  revert w. induction turns as [|turns IH]; intros w; [intros []|].
  cbn [worker].
  pose proof (triple (worker_turn fuel c w)) as Ht.
  pose proof (remote_no_sleep fuel c false w) as Hq.
  rewrite forallb_forall in Hq.
  assert (Hrem : ~ In (EvSleep d) (events (remote fuel c false w))).
  { intros Hin. specialize (Hq _ Hin). discriminate. }
  destruct (worker_turn_shape fuel c w)
    as [(Ho & [He|(d' & He & Hd)])|([Ho|Ho] & He)];
    rewrite Ho, He in Ht.
  - rewrite (bind_run_eq _ _ _ _ _ _ Ht). cbn [events snd].
    intros Hin. apply in_app_or in Hin. destruct Hin as [Hin|Hin];
      [contradiction|exact (IH _ Hin)].
  - rewrite (bind_run_eq _ _ _ _ _ _ Ht). cbn [events snd].
    intros Hin. apply in_app_or in Hin. destruct Hin as [Hin|Hin];
      [|exact (IH _ Hin)].
    apply in_app_or in Hin. destruct Hin as [Hin|[Hin|[]]]; [contradiction|].
    injection Hin as <-. exact Hd.
  - rewrite (bind_Exited _ _ _ _ _ _ Ht). cbn [events snd]. contradiction.
  - rewrite (bind_Running _ _ _ _ _ Ht). cbn [events snd]. contradiction.
Qed.

End WorkerFacts.

(** ** The relay *)

Lemma log_warn (err : option error) (w : World) :
  forallb is_log (events (warn_SetDeadline err w)) = true.
Proof. destruct err; reflexivity. Qed.

Lemma seg_skip {A B} (c : M A) (k : A -> M B) w a w1 r :
  c w = (Done a, w1, []) -> k a w1 = r -> bind c k w = r.
Proof.
  intros H1 H2. unfold bind. rewrite H1, H2. now destruct r as [[o w2] e].
Qed.

(** The whole run of [Transfer], with what surrounds the two copies. *)
Lemma Transfer_trace (p : Proxy) (lconn rconn : Conn) (w : World) :
  let d1 := first_dst lconn rconn w in
  let s1 := first_src lconn rconn w in
  let b1 := if race w then Sent else Rcvd in
  let b2 := if race w then Rcvd else Sent in
  let p1 := add_bytes p b1 (fst (io_copy w (sock d1) (sock s1))) in
  let p2 := add_bytes p1 b2 (fst (io_copy w (sock s1) (sock d1))) in
  exists l1 l2 l3 l4 l5 l6 e1 e2 e3 e4 w',
    Transfer p lconn rconn w =
    (Done (wrap64 (sent p2 + rcvd p2)), w',
     ([EvSetDeadline rconn NoDeadline e1] ++ l1
        ++ [EvSetDeadline lconn NoDeadline e2] ++ l2
        ++ [EvLog DEBUG "Forwarding data" []]
        ++ [EvGo (TaskCopy rconn lconn)] ++ [EvGo (TaskCopy lconn rconn)] ++ [])
       ++ events (copy p d1 s1 b1 w)
       ++ (l3 ++ [EvSetDeadline rconn (NowAdd Minute) e3] ++ l4
              ++ [EvSetDeadline lconn (NowAdd Minute) e4] ++ l5 ++ [])
       ++ events (copy p1 s1 d1 b2 w) ++ l6)
    /\ forallb is_log l1 = true /\ forallb is_log l2 = true
    /\ forallb is_log l3 = true /\ forallb is_log l4 = true
    /\ forallb is_log l5 = true /\ forallb is_log l6 = true.
Proof.
  intros. subst p2 p1 b2 b1 s1 d1. unfold first_dst, first_src.
  destruct (race w) eqn:R;
    (do 11 eexists; split;
     [ unfold Transfer;
       eapply seg_step; [reflexivity|]; norm;
       eapply seg_step; [apply warn_run|];
       eapply seg_step; [reflexivity|]; norm;
       eapply seg_step; [apply warn_run|];
       eapply seg_step; [reflexivity|];
       eapply seg_step; [reflexivity|];
       eapply seg_step; [reflexivity|];
       eapply seg_skip; [reflexivity|];
       norm; rewrite R;
       eapply seg_mark; [apply copy_run_from with (w0 := w); reflexivity|]; norm;
       eapply seg_skip; [apply chan_recv_run; apply app_one_not_nil|]; norm;
       eapply seg_step; [log_step|];
       eapply seg_step; [reflexivity|]; norm;
       eapply seg_step; [apply warn_run|];
       eapply seg_step; [reflexivity|]; norm;
       eapply seg_step; [apply warn_run|];
       eapply seg_mark; [apply copy_run_from with (w0 := w); reflexivity|]; norm;
       eapply seg_skip; [apply chan_recv_run; apply app_one_not_nil|]; norm;
       eapply seg_last; [log_step|];
       eapply seg_last; [reflexivity|];
       reflexivity
     | repeat split; rewrite ?forallb_app, ?log_warn;
       cbn [forallb is_log andb]; rewrite ?andb_true_r;
       try reflexivity; by_cases ]).
Qed.

Lemma log_not_copy (l : list Event) :
  forallb is_log l = true -> count is_copy l = 0%nat.
Proof. apply count_zero. intros e H. now destruct e. Qed.

Lemma copy_one_copy (p : Proxy) (dst src : Conn) (bytes : Counter) (w : World) :
  count is_copy (events (copy p dst src bytes w)) = 1%nat.
Proof.
  unfold copy, io_Copy, bind.
  destruct (io_copy w (sock dst) (sock src)) as [n [e|]];
    destruct (kind dst), (kind src); reflexivity.
Qed.

Lemma count_cons_false (f : Event -> bool) (e : Event) (l : list Event) :
  f e = false -> count f (e :: l) = count f l.
Proof. intros H. unfold count. cbn [filter]. now rewrite H. Qed.

Ltac count_copies :=
  cbn [app];
  repeat first [ rewrite count_app
               | rewrite count_cons_false by reflexivity
               | rewrite copy_one_copy
               | match goal with
                 | H : forallb is_log ?l = true
                   |- context [count is_copy ?l] => rewrite (log_not_copy l H)
                 end ];
  try reflexivity.

(** X11. The copy that finishes second settles like the first: having
    ended cleanly it half-closes its destination, having ended with an
    error it resets those of its destination and source that are plain TCP
    connections; it runs the other way round than the first, which is the
    one copy before it, and once it has reported, the relay only logs
    before it returns. *)
Theorem relay_second_direction_settles
        (p : Proxy) (lconn rconn : Conn) (w : World) :
  let dst := first_src lconn rconn w in
  let src := first_dst lconn rconn w in
  let n := fst (io_copy w (sock dst) (sock src)) in
  let err := snd (io_copy w (sock dst) (sock src)) in
  let evs := events (Transfer p lconn rconn w) in
  exists pre acts post,
    evs = pre ++ EvCopy dst src n err :: acts ++ EvChanSend err :: post /\
    count is_copy pre = 1%nat /\
    In (EvCopy src dst (fst (io_copy w (sock src) (sock dst)))
               (snd (io_copy w (sock src) (sock dst)))) pre /\
    forallb is_log post = true /\
    (err = None -> acts = [EvCloseWrite dst]) /\
    (err <> None ->
     acts = map (fun c => EvSetLinger c 0) (filter is_tcp [dst; src])).
Proof.
  intros dst src n err evs.
  destruct (Transfer_trace p lconn rconn w)
    as (l1 & l2 & l3 & l4 & l5 & l6 & e1 & e2 & e3 & e4 & w' & Hrun
        & H1 & H2 & H3 & H4 & H5 & H6).
  cbv zeta in Hrun. fold dst src in Hrun.
  assert (Hevs : evs = snd (Transfer p lconn rconn w)) by reflexivity.
  rewrite Hrun in Hevs. cbn [snd] in Hevs.
  set (b1 := if race w then Sent else Rcvd) in *.
  set (b2 := if race w then Rcvd else Sent) in *.
  set (p1 := add_bytes p b1 (fst (io_copy w (sock src) (sock dst)))) in *.
  destruct (copy_events p1 dst src b2 w) as (acts & Hc & Hclean & Hfail).
  fold n err in Hc, Hclean, Hfail.
  destruct (copy_events p src dst b1 w) as (acts1 & Hc1 & _ & _).
  rewrite Hc in Hevs.
  match type of Hevs with
  | evs = ?P ++ ?C ++ ?M ++ (_ :: _ ++ _) ++ ?L =>
      exists (P ++ C ++ M), acts, L
  end.
  split; [rewrite Hevs; list_eq|].
  split.
  { count_copies. }
  split.
  { apply in_or_app. right. apply in_or_app. left. rewrite Hc1. now left. }
  split; [exact H6|]. split; assumption.
Qed.

(** X12. A relay lifts the deadline of both connections before it starts
    the two copies, and gives both a deadline of one minute once the first
    copy has reported, before it waits for the second; a deadline that
    cannot be set costs a line in the log and stops nothing, and the relay
    always returns, each wait on the channel being met by the report of a
    copy. *)
Theorem relay_deadlines (p : Proxy) (lconn rconn : Conn) (w : World) :
  let d1 := first_dst lconn rconn w in
  let s1 := first_src lconn rconn w in
  let b1 := if race w then Sent else Rcvd in
  exists e1 e2 e3 e4 l1 l2 l3 l4 l5 rest,
    events (Transfer p lconn rconn w)
    = EvSetDeadline rconn NoDeadline e1 :: l1
        ++ EvSetDeadline lconn NoDeadline e2 :: l2
        ++ EvLog DEBUG "Forwarding data" []
        :: EvGo (TaskCopy rconn lconn) :: EvGo (TaskCopy lconn rconn)
        :: events (copy p d1 s1 b1 w)
        ++ l3 ++ EvSetDeadline rconn (NowAdd Minute) e3 :: l4
        ++ EvSetDeadline lconn (NowAdd Minute) e4 :: l5 ++ rest /\
    forallb is_log l1 = true /\ forallb is_log l2 = true /\
    forallb is_log l3 = true /\ forallb is_log l4 = true /\
    forallb is_log l5 = true /\
    count is_copy rest = 1%nat /\
    exists n, outcome (Transfer p lconn rconn w) = Done n.
Proof.
  intros d1 s1 b1.
  destruct (Transfer_trace p lconn rconn w)
    as (l1 & l2 & l3 & l4 & l5 & l6 & e1 & e2 & e3 & e4 & w' & Hrun
        & H1 & H2 & H3 & H4 & H5 & H6).
  cbv zeta in Hrun. fold d1 s1 b1 in Hrun.
  rewrite Hrun. cbn [events snd].
  match goal with
  | |- context [?C2 ++ l6] =>
      exists e1, e2, e3, e4, l1, l2, l3, l4, l5, (C2 ++ l6)
  end.
  split; [list_eq|].
  repeat (split; [assumption|]).
  split; [count_copies|].
  eexists. reflexivity.
Qed.

(** ** The handoff *)

Section HandoffFacts.

Context {json : API}.

Lemma relaying_no_close (l : list Event) :
  forallb relaying l = true -> count is_close l = 0%nat.
Proof.
  apply count_zero. intros e H. destruct e; try discriminate; reflexivity.
Qed.

Lemma local_head_quiet (m : Msg) :
  count is_close (local_head m) = 0%nat /\
  count is_copy (local_head m) = 0%nat.
Proof. unfold local_head. destruct (Fast m); split; reflexivity. Qed.

(** X13. A handoff always ends by closing what it holds, last opened
    first, and closes nothing before: the rendezvous connection alone when
    the dial of the local service failed, the local connection and then
    the rendezvous connection otherwise, whether the relay ran or not. *)
Theorem local_closes_in_reverse (c : Context) (m : Msg) (rconn : Conn)
        (w : World) :
  let lconn := mkConn (next_sock w) TCPConn in
  let evs := events (local c m rconn w) in
  exists pre,
    count is_close pre = 0%nat /\
    ((exists e, hd None (faults w) = Some e /\ evs = pre ++ [EvClose rconn]) \/
     (hd None (faults w) = None /\
      evs = pre ++ [EvClose lconn; EvClose rconn])).
Proof.
  intros lconn evs. subst evs.
  destruct (local_shape c m rconn w) as (w' & evs & tail & Hrun & -> & Hshape).
  rewrite Hrun. cbn [events snd]. fold lconn in Hshape.
  destruct (local_head_quiet m) as [Hh _].
  destruct (hd None (faults w)) as [e|].
  - subst tail.
    exists (local_head m ++ [EvDial "tcp" (laddr c) (inr e);
                             EvLog WARNING "Local connection failed: %s" [AErr e]]).
    split; [rewrite count_app, Hh; reflexivity|].
    left. exists e. split; [reflexivity|list_eq].
  - destruct Hshape as (w1 & w2 & revs & Hrelay & _ & ->).
    exists (local_head m ++ EvDial "tcp" (laddr c) (inl lconn) :: revs).
    split; [|right; split; [reflexivity|list_eq]].
    rewrite count_app, Hh.
    rewrite count_cons_false by reflexivity.
    destruct (local_relay_shape rconn lconn w1) as (w2' & evs' & Hrelay' & Hsh).
    rewrite Hrelay in Hrelay'. injection Hrelay' as _ <-.
    destruct (hd None (faults w1)) as [e|]; [subst revs; reflexivity|].
    destruct Hsh as (tail & -> & Hsh).
    rewrite count_cons_false by reflexivity.
    destruct (snd (Marshal success)) as [e|]; [subst tail; reflexivity|].
    destruct (hd None (tl (faults w1))) as [e|]; [subst tail; reflexivity|].
    destruct Hsh as (relay & -> & Hrel).
    rewrite count_cons_false by reflexivity.
    now rewrite (relaying_no_close _ Hrel).
Qed.

(** X14. A handoff copies no data unless it has written [success] on the
    rendezvous connection without an error: every copy comes after that
    write, and a handoff that could not reach the local service, set its
    deadline or send [success] copies nothing. *)
Theorem local_relays_after_success (c : Context) (m : Msg) (rconn : Conn)
        (w : World) (dst src : Conn) (n : Z) (res : option error) :
  In (EvCopy dst src n res) (events (local c m rconn w)) ->
  exists pre post,
    events (local c m rconn w)
    = pre ++ EvWrite rconn (frame success) None :: post /\
    count is_copy pre = 0%nat /\
    In (EvDial "tcp" (laddr c) (inl (mkConn (next_sock w) TCPConn))) pre.
Proof.
  destruct (local_shape c m rconn w) as (w' & evs & tail & Hrun & -> & Hshape).
  rewrite Hrun. cbn [events snd].
  set (lconn := mkConn (next_sock w) TCPConn) in *.
  destruct (local_head_quiet m) as [_ Hh].
  assert (Hhead : ~ In (EvCopy dst src n res) (local_head m)).
  { unfold local_head. destruct (Fast m); intros H;
      repeat destruct H as [H|H]; try discriminate; contradiction. }
  intros Hin. apply in_app_or in Hin. destruct Hin as [Hin|Hin]; [contradiction|].
  destruct (hd None (faults w)) as [e|].
  { subst tail. repeat destruct Hin as [Hin|Hin]; try discriminate.
    contradiction. }
  destruct Hshape as (w1 & w2 & revs & Hrelay & _ & ->).
  destruct (local_relay_shape rconn lconn w1) as (w2' & evs' & Hrelay' & Hsh).
  rewrite Hrelay in Hrelay'. injection Hrelay' as _ <-.
  destruct (hd None (faults w1)) as [e|].
  { subst revs. repeat destruct Hin as [Hin|Hin]; try discriminate.
    contradiction. }
  destruct Hsh as (tail & -> & Hsh).
  destruct (snd (Marshal success)) as [e|].
  { subst tail. repeat destruct Hin as [Hin|Hin]; try discriminate.
    contradiction. }
  destruct (hd None (tl (faults w1))) as [e|].
  { subst tail. repeat destruct Hin as [Hin|Hin]; try discriminate.
    contradiction. }
  destruct Hsh as (relay & -> & Hrel).
  exists (local_head m ++ [EvDial "tcp" (laddr c) (inl lconn);
                           EvSetDeadline lconn (NowAdd Minute) None]),
    (relay ++ [EvClose lconn; EvClose rconn]).
  split; [list_eq|].
  split; [rewrite count_app, Hh; reflexivity|].
  apply in_or_app. right. now left.
Qed.

End HandoffFacts.

(** ** Startup *)

Lemma Split_nonempty (s : string) (sep : ascii) : Split s sep <> [].
Proof.
  destruct s as [|ch s]; cbn [Split]; [discriminate|].
  destruct (Ascii.eqb ch sep); [discriminate|].
  destruct (Split s sep); discriminate.
Qed.

Lemma Split_colonless (s : string) : colonless s = true -> Split s ":" = [s].
Proof.
  unfold colonless. induction s as [|ch s IH]; [reflexivity|].
  cbn [list_ascii_of_string forallb Split]. intros H.
  apply andb_prop in H. destruct H as [Hc Hs].
  apply negb_true_iff in Hc. rewrite Hc, (IH Hs). reflexivity.
Qed.

Lemma Split_last_field (host service : string) :
  colonless service = true ->
  Split (host ++ ":" ++ service)%string ":" = Split host ":" ++ [service].
Proof.
  intros Hs. induction host as [|ch host IH].
  - cbn. now rewrite (Split_colonless _ Hs).
  - cbn [String.append Split]. cbn [String.append] in IH. rewrite IH.
    destruct (Ascii.eqb ch ":"); [reflexivity|].
    pose proof (Split_nonempty host ":") as Hn.
    destruct (Split host ":") as [|x t]; [contradiction|reflexivity].
Qed.

(** [strings.Join] undoes [strings.Split]. *)
Lemma Join_Split (s : string) : Join (Split s ":") ":" = s.
Proof.
  unfold Join. induction s as [|ch s IH]; [reflexivity|].
  cbn [Split].
  pose proof (Split_nonempty s ":") as Hn.
  destruct (Ascii.eqb ch ":") eqn:E.
  - apply Ascii.eqb_eq in E. subst ch.
    destruct (Split s ":") as [|x t]; [contradiction|].
    change (String.concat ":" ("" :: x :: t))
      with (String ":" (String.concat ":" (x :: t))).
    now rewrite IH.
  - destruct (Split s ":") as [|x t]; [contradiction|].
    destruct t as [|y t].
    + cbn [String.concat] in *. now rewrite IH.
    + change (String.concat ":" (String ch x :: y :: t))
        with (String ch (String.concat ":" (x :: y :: t))).
      now rewrite IH.
Qed.

Section StartupMore.

Context {json : API}.
Variable LookupPort : string -> string -> Z * option error.
Variable DecodeString : string -> list byte * option error.

(** X15. A start that fails does one thing before the process exits: it
    logs one error.  The exit code is 2 when [-r] or [-k] was not given,
    and 1 when both were given and the port, the encoding of the key or
    its length is wrong; nothing is dialled and no goroutine is started. *)
Theorem GetContext_exit_codes (f : Flags) (w : World) (code : Z) :
  outcome (GetContext LookupPort DecodeString f w) = Exited code ->
  (exists format args,
      events (GetContext LookupPort DecodeString f w)
      = [EvLog ERROR format args]) /\
  (((flag_r f = None \/ flag_k f = None) /\ code = 2) \/
   (flag_r f <> None /\ flag_k f <> None /\ code = 1)).
Proof.
  unfold GetContext.
  destruct (flag_r f) as [r|]; cbn [seen value].
  2:{ intros H. injection H as <-.
      split; [do 2 eexists; reflexivity|]. left. auto. }
  destruct (flag_k f) as [ks|]; cbn [seen value].
  2:{ intros H. injection H as <-.
      split; [do 2 eexists; reflexivity|]. left. auto. }
  assert (Hboth : Some r <> None /\ Some ks <> None) by (split; discriminate).
  destruct (LookupPort "tcp" (last (Split r ":") "")) as [p [e|]].
  { intros H. injection H as <-.
    split; [do 2 eexists; reflexivity|]. right. tauto. }
  destruct (DecodeString ks) as [k [e|]].
  { intros H. injection H as <-.
    split; [do 2 eexists; reflexivity|]. right. tauto. }
  unfold bind at 1 2. cbn [ret]. cbv beta iota.
  destruct (Nat.eqb (List.length k) 6); cbn [negb].
  - discriminate.
  - intros H. injection H as <-.
    split; [do 2 eexists; reflexivity|]. right. tauto.
Qed.

(** X16. The client dials port 1 of the host of [-r], whatever port [-r]
    names: with [-r host:service], the service having no colon, a context
    that is made has the remote address [host:1], the port that
    [net.LookupPort] gives for the service, which goes into the [listen]
    message, the local address of [-l] or [:80], and a TLS configuration
    unless [-t] is set.  Making it starts the connection-id goroutine and
    logs one line. *)
Theorem GetContext_dials_port_1 (f : Flags) (w : World) (c : Context)
        (host service : string) :
  flag_r f = Some (host ++ ":" ++ service)%string ->
  colonless service = true ->
  outcome (GetContext LookupPort DecodeString f w) = Done c ->
  raddr c = (host ++ ":1")%string /\
  LookupPort "tcp" service = (port c, None) /\
  laddr c = value ":80" (flag_l f) /\
  (tlsConfig c = None <-> flag_t f = Some true) /\
  events (GetContext LookupPort DecodeString f w)
  = [EvGo TaskConnID;
     EvLog INFO "Proxying %s->%s"
           [AStr (host ++ ":" ++ service)%string; AStr (laddr c)]].
Proof.
  intros Hr Hs. unfold GetContext. rewrite Hr. cbn [seen value].
  destruct (flag_k f) as [ks|]; cbn [seen value]; [|discriminate].
  rewrite (Split_last_field host service Hs).
  rewrite last_last, removelast_last, Join_Split.
  destruct (LookupPort "tcp" service) as [p [e|]]; [discriminate|].
  destruct (DecodeString ks) as [k [e|]]; [discriminate|].
  unfold bind at 1 2. cbn [ret]. cbv beta iota.
  destruct (Nat.eqb (List.length k) 6); cbn [negb]; [|discriminate].
  cbn. intros H. injection H as <-. cbn [raddr port laddr tlsConfig].
  repeat split.
  - destruct (flag_t f) as [[|]|]; cbn; intros H; congruence.
  - destruct (flag_t f) as [[|]|]; cbn; intros H; congruence.
Qed.

Lemma Int31n_200 (w : World) :
  exists r, 0 <= r < 200 /\
            Int31n 200 w = (Done r, set_draws (tl (draws w)) w, []).
Proof.
  exists (hd 0 (draws w) mod 200). split; [apply Z.mod_pos_bound; lia|].
  reflexivity.
Qed.

(** X17. Once the context is made, [main] starts worker 2, sleeps, starts
    worker 1, sleeps, each time from 900 up to 1099 milliseconds, and then
    is a worker itself: it never returns, and the process ends only when a
    session exits, with the code 1. *)
Theorem main_starts_three_workers (f : Flags) (turns fuel : nat) (w : World)
        (c : Context) :
  outcome (GetContext LookupPort DecodeString f w) = Done c ->
  exists ms2 ms1 w',
    events (main LookupPort DecodeString turns fuel f w)
    = events (GetContext LookupPort DecodeString f w)
        ++ [EvGo (TaskWorker 2); EvSleep (ms2 * Millisecond);
            EvGo (TaskWorker 1); EvSleep (ms1 * Millisecond)]
        ++ events (worker turns fuel c w') /\
    900 <= ms2 < 1100 /\ 900 <= ms1 < 1100 /\
    faults w' = faults w /\ next_sock w' = next_sock w /\
    outcome (main LookupPort DecodeString turns fuel f w)
    = outcome (worker turns fuel c w') /\
    (outcome (main LookupPort DecodeString turns fuel f w) = Running \/
     outcome (main LookupPort DecodeString turns fuel f w) = Exited 1).
Proof.
  intros Hc.
  assert (Hw : after (GetContext LookupPort DecodeString f w) = w).
  { revert Hc. unfold GetContext.
    destruct (flag_r f) as [r|]; cbn [seen value]; [|discriminate].
    destruct (flag_k f) as [ks|]; cbn [seen value]; [|discriminate].
    destruct (LookupPort "tcp" (last (Split r ":") "")) as [p [e|]];
      [discriminate|].
    destruct (DecodeString ks) as [k [e|]]; [discriminate|].
    unfold bind at 1 2. cbn [ret]. cbv beta iota.
    destruct (Nat.eqb (List.length k) 6); cbn [negb]; [|discriminate].
    reflexivity. }
  pose proof (triple (GetContext LookupPort DecodeString f w)) as Ht.
  rewrite Hc, Hw in Ht.
  unfold main. rewrite (bind_run_eq _ _ _ _ _ _ Ht).
  cbn [outcome events after fst snd].
  destruct (Int31n_200 w) as (r2 & Hr2 & Hi2).
  set (w1 := set_draws (tl (draws w)) w) in *.
  destruct (Int31n_200 w1) as (r1 & Hr1 & Hi1).
  set (w2 := set_draws (tl (draws w1)) w1) in *.
  assert (Hmax : max_int64 = 9223372036854775807) by reflexivity.
  assert (Hs : exists evs,
             spawn_workers 2 c w = (Done tt, w2, evs) /\
             evs = [EvGo (TaskWorker 2); EvSleep ((900 + r2) * Millisecond);
                    EvGo (TaskWorker 1); EvSleep ((900 + r1) * Millisecond)]).
  { eexists. split.
    - cbn [spawn_workers].
      eapply seg_last; [reflexivity|].
      eapply seg_last; [exact Hi2|]. cbv beta.
      eapply seg_last; [reflexivity|].
      eapply seg_last; [reflexivity|].
      eapply seg_last; [exact Hi1|]. cbv beta.
      eapply seg_last; [reflexivity|].
      reflexivity.
    - cbn [app].
      rewrite (wrap64_small (900 + r2)) by lia.
      rewrite (wrap64_small ((900 + r2) * Millisecond))
        by (unfold Millisecond; lia).
      rewrite (wrap64_small (900 + r1)) by lia.
      rewrite (wrap64_small ((900 + r1) * Millisecond))
        by (unfold Millisecond; lia).
      reflexivity. }
  destruct Hs as (evs & Hs & ->).
  rewrite (bind_run_eq _ _ _ _ _ _ Hs).
  cbn [outcome events after fst snd].
  exists (900 + r2), (900 + r1), w2.
  split; [reflexivity|]. split; [lia|]. split; [lia|].
  split; [reflexivity|]. split; [reflexivity|]. split; [reflexivity|].
  apply worker_outcomes.
Qed.

End StartupMore.

(** ** The logger *)

Section LoggingFacts.

Variable ToUpper : string -> string.
Variable Base : string -> string.
Variable Caller : option (string * Z).

Lemma level_descend (l : Logger) (names : list string) :
  level (descend l names) = level l.
Proof.
  unfold descend. revert l. induction names as [|n names IH]; intros l;
    [reflexivity|].
  cbn [fold_left]. now rewrite IH.
Qed.

Lemma level_logging (f : Flags) :
  level (logging ToUpper f)
  = if snd (ParseLevel ToUpper (value "INFO" (flag_d f)))
    then fst (ParseLevel ToUpper (value "INFO" (flag_d f)))
    else DEBUG.
Proof.
  unfold logging. destruct (ParseLevel ToUpper _) as [lvl [|]]; reflexivity.
Qed.

Lemma ParseLevel_ok (s : string) (lvl : Level) :
  ParseLevel ToUpper s = (lvl, true) -> 1 <= Level_int lvl.
Proof.
  unfold ParseLevel.
  repeat match goal with
         | |- context [if ?b then _ else _] => destruct b
         end;
    intros H; inversion H; cbn; lia.
Qed.

(** X18. No value of [-d] silences the errors: the logger that
    [GetContext] sets up, and every logger made of it by [Child], for a
    worker, a session or a handoff, prints every error. *)
Theorem errors_are_never_silenced (f : Flags) (names : list string)
        (format : string) (args : list Arg) :
  printed (printf Base Caller (descend (logging ToUpper f) names)
             ERROR format args) = true.
Proof.
  unfold printf. rewrite level_descend, level_logging.
  destruct (ParseLevel ToUpper (value "INFO" (flag_d f))) as [lvl [|]] eqn:P;
    cbn [fst snd].
  - apply ParseLevel_ok in P.
    assert (G : (Level_int ERROR >? Level_int lvl) = false)
      by (rewrite Z.gtb_ltb; apply Z.ltb_ge; exact P).
    rewrite G. now destruct (Level_int lvl >=? Level_int DEBUG), Caller as [[? ?]|].
  - now destruct Caller as [[? ?]|].
Qed.

(** X19. When [ParseLevel] takes the value of [-d] for a level, the
    logger that [GetContext] sets up and every logger made of it by
    [Child] print exactly the messages of that level and of the more
    severe ones. *)
Theorem verbosity_follows_d (f : Flags) (names : list string) (limit lvl : Level)
        (format : string) (args : list Arg) :
  ParseLevel ToUpper (value "INFO" (flag_d f)) = (limit, true) ->
  printed (printf Base Caller (descend (logging ToUpper f) names)
             lvl format args)
  = (Level_int lvl <=? Level_int limit).
Proof.
  intros P. unfold printf. rewrite level_descend, level_logging, P.
  cbn [fst snd]. rewrite Z.gtb_ltb.
  destruct (Z.ltb_spec (Level_int limit) (Level_int lvl)) as [H|H].
  - symmetry. apply Z.leb_gt. exact H.
  - transitivity true; [|symmetry; apply Z.leb_le; exact H].
    now destruct (Level_int limit >=? Level_int DEBUG), Caller as [[? ?]|].
Qed.

(** X20. When [-d] names no level, the client logs everything, as with
    [DEBUG], and each line begins with the file and the line of the call
    when they are known. *)
Theorem unknown_verbosity_is_debug (f : Flags) (names : list string)
        (lvl : Level) (format : string) (args : list Arg) :
  snd (ParseLevel ToUpper (value "INFO" (flag_d f))) = false ->
  let l := descend (logging ToUpper f) names in
  printf Base Caller l lvl format args
  = Some (match Caller with
          | Some (file, line) =>
              (("%s:%d %s %s: " ++ format)%string,
               [VArg (AStr (Base file)); VArg (AInt line);
                VArg (AStr (name l)); VLevel lvl] ++ map VArg args)
          | None =>
              (("%s %s: " ++ format)%string,
               [VArg (AStr (name l)); VLevel lvl] ++ map VArg args)
          end).
Proof.
  intros P l. subst l. unfold printf.
  rewrite level_descend, level_logging, P.
  assert (G : (Level_int lvl >? Level_int DEBUG) = false)
    by (destruct lvl; reflexivity).
  rewrite G. now destruct Caller as [[? ?]|].
Qed.

End LoggingFacts.

(** ** The further properties on the scenarios *)

Lemma RcvMsg_reads_one_frame_witness :
  exists (b : byte) (serialized : list byte),
    rx (scenario [] keepalive_frame []) (sock rendezvous)
    = b :: serialized
        ++ rx (after (RcvMsg (json := Reference.ConfigFastest) rendezvous
                        (scenario [] keepalive_frame []))) (sock rendezvous) /\
    List.length serialized = nat_of_byte b /\
    Unmarshal (API := Reference.ConfigFastest) serialized zeroMsg
    = (keepalive, None).
Proof.
  destruct (RcvMsg_reads_one_frame (json := Reference.ConfigFastest) rendezvous
              (scenario [] keepalive_frame []) keepalive)
    as (b & serialized & H1 & H2 & H3 & _).
  - vm_compute. reflexivity.
  - exists b, serialized. split; [exact H1|]. split; [exact H2|exact H3].
Defined.

Lemma RcvMsg_truncated_witness :
  exists e,
    outcome (RcvMsg (json := Reference.ConfigFastest) rendezvous cut_short)
    = Done (zeroMsg, Some e) /\
    rx (after (RcvMsg (json := Reference.ConfigFastest) rendezvous cut_short))
       (sock rendezvous) = [] /\
    e = match tl (rx cut_short (sock rendezvous)),
              rx_err cut_short (sock rendezvous) with
        | _ :: _, EOF => ErrUnexpectedEOF
        | _, e' => e'
        end.
Proof.
  apply (RcvMsg_truncated (json := Reference.ConfigFastest) rendezvous cut_short).
  vm_compute. lia.
Defined.

Lemma serve_skips_unknown_witness :
  outcome (serve (json := Reference.ConfigFastest) 3 false rendezvous
             (scenario []
                (flat_map (frame (json := Reference.ConfigFastest)) [ping; ping]
                   ++ frame (json := Reference.ConfigFastest) hello ++ [])
                []))
  = Done (0, true) /\
  events (serve (json := Reference.ConfigFastest) 3 false rendezvous
            (scenario []
               (flat_map (frame (json := Reference.ConfigFastest)) [ping; ping]
                  ++ frame (json := Reference.ConfigFastest) hello ++ [])
               []))
  = map ignored [ping; ping] ++ [EvLog INFO "%s" [AStr (Text hello)]] /\
  rx (after (serve (json := Reference.ConfigFastest) 3 false rendezvous
               (scenario []
                  (flat_map (frame (json := Reference.ConfigFastest)) [ping; ping]
                     ++ frame (json := Reference.ConfigFastest) hello ++ [])
                  [])))
     (sock rendezvous) = [].
Proof.
  apply (serve_skips_unknown (json := Reference.ConfigFastest)
           [ping; ping] hello INFO false rendezvous).
  - repeat constructor.
  - repeat constructor; vm_compute; lia.
  - repeat constructor.
  - split; reflexivity.
  - vm_compute. lia.
  - reflexivity.
  - reflexivity.
Defined.

(** Scenario A up to the promotion: the session hands the TLS connection
    over and closes nothing. *)
Lemma remote_closes_or_hands_over_witness :
  let evs := events (remote (json := Reference.ConfigFastest) 1 scenario_context
                       false (scenario [] start_fast_frame [])) in
  (exists err,
      0 = 9 /\
      evs = [EvDial "tcp" (raddr scenario_context) (inr err);
             EvLog WARNING "Remote connection failed: %s" [AErr err]]) \/
  (exists pre rc,
      evs = pre ++ [EvClose rc] /\
      sock rc = next_sock (scenario [] start_fast_frame []) /\
      count is_close pre = 0%nat /\ count is_handoff pre = 0%nat) \/
  (exists pre m rc,
      evs = pre ++ EvGo (TaskLocal m rc) :: [] /\
      sock rc = next_sock (scenario [] start_fast_frame []) /\ 0 = 0 /\
      count is_close pre = 0%nat /\ count is_handoff pre = 0%nat).
Proof.
  apply (remote_closes_or_hands_over (json := Reference.ConfigFastest) 1
           scenario_context false (scenario [] start_fast_frame []) 0).
  vm_compute. reflexivity.
Defined.


Lemma remote_writes_under_tls_witness :
  let tconn := tls_Client (mkConn (next_sock (scenario [] start_fast_frame []))
                             TCPConn) in
  let evs := events (remote (json := Reference.ConfigFastest) 1 scenario_context
                       false (scenario [] start_fast_frame [])) in
  no_writes evs = true \/
  (exists setup rest,
      evs = setup ++ rest /\
      no_writes setup = true /\
      In (EvHandshake tconn None) setup /\
      (forall c' data res, In (EvWrite c' data res) rest -> c' = tconn) /\
      (forall m rc, In (EvGo (TaskLocal m rc)) rest -> rc = tconn)).
Proof.
  apply (remote_writes_under_tls (json := Reference.ConfigFastest) 1
           scenario_context false (scenario [] start_fast_frame [])
           (mkTlsConfig "free.b4ck.net" VersionTLS13 32)).
  reflexivity.
Defined.

(** After a refused dial and the draw 8999 the worker sleeps 9.999
    seconds. *)
Lemma worker_sleeps_bounded_witness :
  1 * Second <= 9999000000 < 100 * Second.
Proof.
  apply (worker_sleeps_bounded (json := Reference.ConfigFastest) 1 0
           scenario_context
           (scenario [Some (ErrNet "connection refused")] [] [8999])).
  vm_compute. auto.
Defined.

(** Scenario A: the handoff relays after [success]. *)
Lemma local_relays_after_success_witness :
  exists pre post,
    events (local (json := Reference.ConfigFastest) scenario_context start_fast
              rendezvous scenario_A_relay)
    = pre ++ EvWrite rendezvous
               (frame (json := Reference.ConfigFastest) success) None :: post /\
    count is_copy pre = 0%nat /\
    In (EvDial "tcp" (laddr scenario_context)
          (inl (mkConn (next_sock scenario_A_relay) TCPConn))) pre.
Proof.
  apply (local_relays_after_success (json := Reference.ConfigFastest)
           scenario_context start_fast rendezvous scenario_A_relay
           (mkConn 2 TCPConn) rendezvous 1000 None).
  vm_compute. auto 20.
Defined.

(** A command line without [-k]. *)
Lemma GetContext_exit_codes_witness :
  (exists format args,
      events (GetContext Reference.LookupPort
                Reference.DecodeString keyless_flags quiet)
      = [EvLog ERROR format args]) /\
  (((flag_r keyless_flags = None \/ flag_k keyless_flags = None) /\ 2 = 2) \/
   (flag_r keyless_flags <> None /\ flag_k keyless_flags <> None /\ 2 = 1)).
Proof.
  apply (GetContext_exit_codes
           Reference.LookupPort Reference.DecodeString keyless_flags quiet 2).
  vm_compute. reflexivity.
Defined.

(** The command line of scenario A gives the context of scenario A. *)
Lemma GetContext_dials_port_1_witness :
  raddr scenario_context = "rendezvous.example:1" /\
  Reference.LookupPort "tcp" "8080" = (port scenario_context, None) /\
  laddr scenario_context = value ":80" (flag_l scenario_flags) /\
  (tlsConfig scenario_context = None <-> flag_t scenario_flags = Some true) /\
  events (GetContext Reference.LookupPort
            Reference.DecodeString scenario_flags quiet)
  = [EvGo TaskConnID;
     EvLog INFO "Proxying %s->%s"
           [AStr "rendezvous.example:8080"; AStr (laddr scenario_context)]].
Proof.
  apply (GetContext_dials_port_1
           Reference.LookupPort Reference.DecodeString scenario_flags quiet
           scenario_context "rendezvous.example" "8080").
  - reflexivity.
  - reflexivity.
  - vm_compute. reflexivity.
Defined.

Lemma main_starts_three_workers_witness :
  exists ms2 ms1 w',
    events (main (json := Reference.ConfigFastest) Reference.LookupPort
              Reference.DecodeString 1 1 scenario_flags quiet)
    = events (GetContext Reference.LookupPort
                Reference.DecodeString scenario_flags quiet)
        ++ [EvGo (TaskWorker 2); EvSleep (ms2 * Millisecond);
            EvGo (TaskWorker 1); EvSleep (ms1 * Millisecond)]
        ++ events (worker (json := Reference.ConfigFastest) 1 1
                     scenario_context w') /\
    900 <= ms2 < 1100 /\ 900 <= ms1 < 1100 /\
    faults w' = faults quiet /\ next_sock w' = next_sock quiet /\
    outcome (main (json := Reference.ConfigFastest) Reference.LookupPort
               Reference.DecodeString 1 1 scenario_flags quiet)
    = outcome (worker (json := Reference.ConfigFastest) 1 1 scenario_context w') /\
    (outcome (main (json := Reference.ConfigFastest) Reference.LookupPort
                Reference.DecodeString 1 1 scenario_flags quiet) = Running \/
     outcome (main (json := Reference.ConfigFastest) Reference.LookupPort
                Reference.DecodeString 1 1 scenario_flags quiet) = Exited 1).
Proof.
  apply (main_starts_three_workers (json := Reference.ConfigFastest)
           Reference.LookupPort Reference.DecodeString scenario_flags 1 1 quiet
           scenario_context).
  vm_compute. reflexivity.
Defined.

(** [-d WARNING], read as it is written: warnings are printed, notices
    at [INFO] are not. *)
Lemma verbosity_follows_d_witness :
  printed (printf (fun s => s) None
             (descend (logging (fun s => s)
                         (mkFlags None None None (Some "WARNING") None))
                ["slow"; "7"])
             INFO "Connecting local service" [])
  = (Level_int INFO <=? Level_int WARNING).
Proof.
  apply (verbosity_follows_d (fun s => s) (fun s => s) None
           (mkFlags None None None (Some "WARNING") None) ["slow"; "7"]
           WARNING INFO "Connecting local service" []).
  reflexivity.
Defined.

(** [-d verbose] names no level. *)
Lemma unknown_verbosity_is_debug_witness :
  let l := descend (logging (fun s => s)
                      (mkFlags None None None (Some "verbose") None))
             ["slow"] in
  printf (fun s => s) (Some ("dir/file.go", 215)) l DEBUG
         "Received KEEPALIVE" []
  = Some (("%s:%d %s %s: " ++ "Received KEEPALIVE")%string,
          [VArg (AStr "dir/file.go"); VArg (AInt 215);
           VArg (AStr (name l)); VLevel DEBUG] ++ map VArg []).
Proof.
  apply (unknown_verbosity_is_debug (fun s => s) (fun s => s)
           (Some ("dir/file.go", 215))
           (mkFlags None None None (Some "verbose") None) ["slow"]
           DEBUG "Received KEEPALIVE" []).
  reflexivity.
Defined.
